(** * pfr-scraper: the page-to-record extraction of [pfr_scraper.py]

    A shallow embedding of [scrape_page], [parse_player_stats_page] and the
    resume loop of the main program, with the properties the design document
    states about them.

    Conventions of the embedding.
    - A Python [str] is a Rocq [string]; its characters are the code points
      below 256.  On that range [\d] is the ten ASCII digits and [\s] is the
      set [re_space] below.
    - A raised exception is the [Raise] branch of [result]; the statements of
      a function body are chained with [x <- e ;; k].
    - The tree built by [BeautifulSoup(content, 'html.parser')] is a value of
      [node]; the parser itself belongs to bs4 and is not modelled: a
      [Response] carries the tree its content parses to.
    - The local variables of [parse_player_stats_page] live in a [store]
      (an association list, newest binding first). *)

From Stdlib Require Import String Ascii List ZArith Lia Bool.
Import ListNotations.
Local Open Scope string_scope.
Local Open Scope list_scope.

Set Implicit Arguments.
Set Warnings "-register-all".

(** ** Exceptions and the error monad *)

(** The exception classes of [requests.exceptions]; all derive from
    [RequestException]. *)
Inductive requests_error : Type :=
| HTTPError            (* raise_for_status on a 4xx or 5xx status *)
| ConnectionError
| Timeout
| RetryError           (* the retry budget is used up *)
| TooManyRedirects
| InvalidURL
| OtherRequestError.   (* the remaining subclasses *)

Inductive exn : Type :=
| AttributeError       (* None.text, None.find_all *)
| ValueError           (* int(''), float('abc'), max([]) *)
| NameError            (* a name read before it is bound *)
| KeyError             (* a failed pandas label lookup *)
| TypeError            (* max over values without an order *)
| FileNotFoundError    (* read_csv on a missing file *)
| RequestException (k : requests_error)
| KeyboardInterrupt.   (* stands for what is not a RequestException *)

Inductive result (A : Type) : Type :=
| Ok (a : A)
| Raise (e : exn).

Arguments Ok {A} a.
Arguments Raise {A} e.

Definition bind {A B : Type} (r : result A) (k : A -> result B) : result B :=
  match r with
  | Ok a => k a
  | Raise e => Raise e
  end.

Notation "x <- e ;; k" := (bind e (fun x => k))
  (at level 61, e at next level, right associativity).
Notation "' p <- e ;; k" := (bind e (fun x => let p := x in k))
  (at level 61, p pattern, e at next level, right associativity).

Definition is_ok {A : Type} (r : result A) : bool :=
  match r with
  | Ok _ => true
  | Raise _ => false
  end.

(** ** The parsed document (bs4) *)

Module Soup.

(** [Comment] stands for every string bs4 keeps out of [get_text]
    (comments, declarations, doctype). *)
Inductive node : Type :=
| NavigableString (s : string)
| Comment (s : string)
| Tag (name : string) (attrs : list (string * string)) (contents : list node).

(** The children of the [BeautifulSoup] object. *)
Definition document : Type := list node.

Fixpoint attr_get (k : string) (attrs : list (string * string)) : option string :=
  match attrs with
  | [] => None
  | (k', v) :: rest => if String.eqb k k' then Some v else attr_get k rest
  end.

(** [attrs={'id': 'meta'}]: every requested attribute is present with the
    requested value ([id] and [data-stat] are single-valued attributes). *)
Definition attrs_match (want have : list (string * string)) : bool :=
  forallb (fun kv => match attr_get (fst kv) have with
                     | Some v => String.eqb v (snd kv)
                     | None => false
                     end) want.

Definition tag_matches (name : string) (want : list (string * string)) (n : node) : bool :=
  match n with
  | Tag nm attrs _ => String.eqb nm name && attrs_match want attrs
  | _ => false
  end.

(** [n] and its descendants that match, in document order. *)
Fixpoint select (name : string) (want : list (string * string)) (n : node) : list node :=
  match n with
  | Tag _ _ contents =>
      (if tag_matches name want n then [n] else [])
        ++ flat_map (select name want) contents
  | _ => []
  end.

(** [soup.find_all(name, attrs)]: the matching descendants, in document order. *)
Definition find_all (name : string) (want : list (string * string)) (d : document) : list node :=
  flat_map (select name want) d.

(** [soup.find(name, attrs)]: the first match or [None]. *)
Definition find (name : string) (want : list (string * string)) (d : document) : option node :=
  hd_error (find_all name want d).

Definition contents_of (n : node) : document :=
  match n with
  | Tag _ _ contents => contents
  | _ => []
  end.

(** [tag.find(...)] and [tag.find_all(...)] search below the tag. *)
Definition tag_find (name : string) (want : list (string * string)) (t : node) : option node :=
  find name want (contents_of t).

Definition tag_find_all (name : string) (want : list (string * string)) (t : node) : list node :=
  find_all name want (contents_of t).

(** [tag.get_text()] and [tag.text]: the strings below the tag, concatenated. *)
Fixpoint get_text (n : node) : string :=
  match n with
  | NavigableString s => s
  | Comment _ => EmptyString
  | Tag _ _ contents => String.concat EmptyString (map get_text contents)
  end.

End Soup.
Import Soup.

(** ** Characters, [re] and the numeric constructors *)

Module Py.

Definition code (c : ascii) : nat := nat_of_ascii c.

Definition between (lo hi : nat) (c : ascii) : bool :=
  Nat.leb lo (code c) && Nat.leb (code c) hi.

Definition is_digit (c : ascii) : bool := between 48 57 c.

(** [\s] for a [str] pattern, on the code points below 256. *)
Definition re_space (c : ascii) : bool :=
  between 9 13 c || between 28 31 c || Nat.eqb (code c) 32
  || Nat.eqb (code c) 133 || Nat.eqb (code c) 160.

(** The white space [int()] and [float()] strip: the ASCII white space of C
    and the non-ASCII Unicode spaces, but not the separators 28..31. *)
Definition num_space (c : ascii) : bool :=
  between 9 13 c || Nat.eqb (code c) 32
  || Nat.eqb (code c) 133 || Nat.eqb (code c) 160.

Definition digit_val (c : ascii) : Z := Z.of_nat (code c - 48).

(** *** Regular expressions: the fragment the program uses *)

Inductive cclass : Type := Digit | Space.

Definition in_class (k : cclass) (c : ascii) : bool :=
  match k with
  | Digit => is_digit c
  | Space => re_space c
  end.

Inductive regex : Type :=
| Lit (c : ascii)              (* a literal character *)
| Plus (k : cclass)            (* \d+ or \s+, greedy *)
| Cat (r1 r2 : regex)          (* concatenation *)
| Group (r : regex).           (* a capturing group *)

(** Length of the longest prefix of [s] inside the class. *)
Fixpoint span (k : cclass) (s : string) : nat :=
  match s with
  | String c s' => if in_class k c then S (span k s') else 0
  | EmptyString => 0
  end.

Fixpoint drop (n : nat) (s : string) : string :=
  match n, s with
  | S m, String _ s' => drop m s'
  | _, _ => s
  end.

Fixpoint take (n : nat) (s : string) : string :=
  match n, s with
  | S m, String c s' => String c (take m s')
  | _, _ => EmptyString
  end.

Section Matcher.
Variable R : Type.

(** Greedy repetition with backtracking: the longest run first, then one
    character less, down to a single character. *)
Fixpoint try_lengths (n : nat) (s : string) (k : string -> option R) : option R :=
  match n with
  | O => None
  | S m => match k (drop (S m) s) with
           | Some r => Some r
           | None => try_lengths m s k
           end
  end.

(** [re_match r s caps k]: match [r] at the head of [s], then hand the rest
    of the text and the groups closed so far to [k].  Groups are listed in
    the order they close, which is their number when none is nested. *)
Fixpoint re_match (r : regex) (s : string) (caps : list string)
         (k : string -> list string -> option R) : option R :=
  match r with
  | Lit c =>
      match s with
      | String c' s' => if Ascii.eqb c c' then k s' caps else None
      | EmptyString => None
      end
  | Plus cl => try_lengths (span cl s) s (fun rest => k rest caps)
  | Cat r1 r2 => re_match r1 s caps (fun rest caps' => re_match r2 rest caps' k)
  | Group r1 =>
      re_match r1 s caps
        (fun rest caps' =>
           k rest (caps' ++ [take (String.length s - String.length rest) s]))
  end.
End Matcher.

(** [re.search(r, s)]: the match at the leftmost position that has one;
    the result is the list of its groups. *)
Fixpoint re_search (r : regex) (s : string) : option (list string) :=
  match re_match r s [] (fun _ caps => Some caps) with
  | Some caps => Some caps
  | None =>
      match s with
      | String _ s' => re_search r s'
      | EmptyString => None
      end
  end.

(** [m.group(i)] for [i >= 1]. *)
Definition group (m : list string) (i : nat) : string := nth (i - 1) m EmptyString.

(** [re.sub(k+, repl, s)]: every maximal run of the class becomes [repl]. *)
Fixpoint re_sub_plus_aux (k : cclass) (repl : string) (in_run : bool) (s : string) : string :=
  match s with
  | EmptyString => EmptyString
  | String c s' =>
      if in_class k c
      then (if in_run then re_sub_plus_aux k repl true s'
            else repl ++ re_sub_plus_aux k repl true s')
      else String c (re_sub_plus_aux k repl false s')
  end.

Definition re_sub_plus (k : cclass) (repl s : string) : string :=
  re_sub_plus_aux k repl false s.

(** *** [int(str)] *)

Fixpoint lstrip (s : string) : string :=
  match s with
  | String c s' => if num_space c then lstrip s' else s
  | EmptyString => EmptyString
  end.

Fixpoint all_space (s : string) : bool :=
  match s with
  | String c s' => num_space c && all_space s'
  | EmptyString => true
  end.

(** Digits after a first digit, with single underscores between digits:
    the value, the number of digits read and the rest of the text. *)
Fixpoint more_digits (s : string) (acc : Z) (n : Z) : option (Z * Z * string) :=
  match s with
  | String c s' =>
      if is_digit c then more_digits s' (10 * acc + digit_val c)%Z (n + 1)%Z
      else if Ascii.eqb c "_" then
        match s' with
        | String d s'' =>
            if is_digit d then more_digits s'' (10 * acc + digit_val d)%Z (n + 1)%Z
            else None
        | EmptyString => None
        end
      else Some (acc, n, s)
  | EmptyString => Some (acc, n, s)
  end.

(** A digit part continuing the value [acc]: one digit at least. *)
Definition digitpart (s : string) (acc : Z) : option (Z * Z * string) :=
  match s with
  | String c s' => if is_digit c then more_digits s' (10 * acc + digit_val c)%Z 1%Z else None
  | EmptyString => None
  end.

(** An optional sign: [true] for a minus. *)
Definition sign (s : string) : bool * string :=
  match s with
  | String c s' =>
      if Ascii.eqb c "-" then (true, s')
      else if Ascii.eqb c "+" then (false, s')
      else (false, s)
  | EmptyString => (false, s)
  end.

Definition py_int (s : string) : result Z :=
  let (neg, s1) := sign (lstrip s) in
  match digitpart s1 0%Z with
  | Some (v, _, rest) =>
      if all_space rest then Ok (if neg then (- v)%Z else v) else Raise ValueError
  | None => Raise ValueError
  end.

(** *** [float(str)]

    The value is kept as the decimal the text denotes, [digits * 10 ^ exp10];
    the rounding to a double is not modelled. *)

Inductive pyfloat : Type :=
| Finite (negative : bool) (digits : Z) (exp10 : Z)
| Infinity (negative : bool)
| NaN.

Definition lower (c : ascii) : ascii :=
  if between 65 90 c then ascii_of_nat (code c + 32) else c.

Fixpoint lower_string (s : string) : string :=
  match s with
  | String c s' => String (lower c) (lower_string s')
  | EmptyString => EmptyString
  end.

Fixpoint rstrip_aux (s : string) : string :=
  match s with
  | String c s' =>
      match rstrip_aux s' with
      | EmptyString => if num_space c then EmptyString else String c EmptyString
      | t => String c t
      end
  | EmptyString => EmptyString
  end.

Definition strip (s : string) : string := rstrip_aux (lstrip s).

(** The exponent part, if any; the text must end after it. *)
Definition exponent (s : string) : option Z :=
  match s with
  | EmptyString => Some 0%Z
  | String c s' =>
      if Ascii.eqb (lower c) "e" then
        let (neg, s1) := sign s' in
        match digitpart s1 0%Z with
        | Some (e, _, EmptyString) => Some (if neg then (- e)%Z else e)
        | _ => None
        end
      else None
  end.

(** [digits [. [digits]] [exponent]] or [. digits [exponent]]. *)
Definition decimal (neg : bool) (s : string) : option pyfloat :=
  match s with
  | String "." s' =>
      match digitpart s' 0%Z with
      | Some (m, n, rest) =>
          option_map (fun e => Finite neg m (e - n)%Z) (exponent rest)
      | None => None
      end
  | _ =>
      match digitpart s 0%Z with
      | Some (m, _, String "." rest) =>
          match rest with
          | String c _ =>
              if is_digit c then
                match digitpart rest m with
                | Some (m', n, rest') =>
                    option_map (fun e => Finite neg m' (e - n)%Z) (exponent rest')
                | None => None
                end
              else option_map (fun e => Finite neg m e) (exponent rest)
          | EmptyString => Some (Finite neg m 0%Z)
          end
      | Some (m, _, rest) => option_map (fun e => Finite neg m e) (exponent rest)
      | None => None
      end
  end.

Definition py_float (s : string) : result pyfloat :=
  let (neg, s1) := sign (strip s) in
  let w := lower_string s1 in
  if String.eqb w "inf" || String.eqb w "infinity" then Ok (Infinity neg)
  else if String.eqb w "nan" then Ok NaN
  else match decimal neg s1 with
       | Some f => Ok f
       | None => Raise ValueError
       end.

End Py.
Import Py.

(** ** Values, local variables and field statements *)

Inductive value : Type :=
| VNone
| VInt (z : Z)
| VFloat (f : pyfloat)
| VStr (s : string).

(** The local variables, newest binding first. *)
Definition store : Type := list (string * value).

Definition assign (x : string) (v : value) (st : store) : store := (x, v) :: st.

Fixpoint lookup (x : string) (st : store) : option value :=
  match st with
  | [] => None
  | (y, v) :: rest => if String.eqb x y then Some v else lookup x rest
  end.

(** Reading a local variable; an unbound one raises (UnboundLocalError is a
    NameError). *)
Definition rd (x : string) (st : store) : result value :=
  match lookup x st with
  | Some v => Ok v
  | None => Raise NameError
  end.

(** What a field statement does with the text of its cell:
    [int(text)], [float(text)], the text itself, or
    [0 if text == '' else int(text)] (the games-started cells of the
    games-played tables, lines 158-161 and 175-178). *)
Inductive conv : Type := CInt | CFloat | CText | CIntBlank.

Definition coerce (c : conv) (text : string) : result value :=
  match c with
  | CInt => z <- py_int text ;; Ok (VInt z)
  | CFloat => f <- py_float text ;; Ok (VFloat f)
  | CText => Ok (VStr text)
  | CIntBlank => if String.eqb text EmptyString then Ok (VInt 0) else z <- py_int text ;; Ok (VInt z)
  end.

(** One field statement of the source:
[[
    tmp = TABLE.find('tfoot').find_all('td', {'data-stat': KEY})
    if tmp is not None and len(tmp) > 0:
        VAR = CONV(tmp[0].get_text())
]] *)
Record field : Type := F { var : string; key : string; how : conv }.

(** [TABLE.find('tfoot').find_all('td', {'data-stat': KEY})]; a table with
    no footer makes it [None.find_all]. *)
Definition cells (table : node) (k : string) : result (list node) :=
  match tag_find "tfoot" [] table with
  | None => Raise AttributeError
  | Some tfoot => Ok (tag_find_all "td" [("data-stat", k)] tfoot)
  end.

Definition field_stmt (table : node) (f : field) (st : store) : result store :=
  tmp <- cells table (key f) ;;
  match tmp with
  | [] => Ok st
  | c :: _ => v <- coerce (how f) (get_text c) ;; Ok (assign (var f) v st)
  end.

Fixpoint run_fields (table : node) (fs : list field) (st : store) : result store :=
  match fs with
  | [] => Ok st
  | f :: fs' => st' <- field_stmt table f st ;; run_fields table fs' st'
  end.

(** One category block of the source: the [VAR = 0] lines, the table
    variable, and the field statements under [if TABLE is not None]. *)
Record block : Type := Block {
  inits : list string;
  table : option node;
  fields : list field
}.

Definition init_vars (xs : list string) (st : store) : store :=
  fold_left (fun s x => assign x (VInt 0) s) xs st.

Definition run_block (b : block) (st : store) : result store :=
  let st := init_vars (inits b) st in
  match table b with
  | None => Ok st
  | Some t => run_fields t (fields b) st
  end.

Fixpoint run_blocks (bs : list block) (st : store) : result store :=
  match bs with
  | [] => Ok st
  | b :: bs' => st' <- run_block b st ;; run_blocks bs' st'
  end.

Fixpoint mapM {A B : Type} (f : A -> result B) (l : list A) : result (list B) :=
  match l with
  | [] => Ok []
  | a :: l' => b <- f a ;; bs <- mapM f l' ;; Ok (b :: bs)
  end.

(** [max([...])] over the games counters.  Every operand is an [int] there
    (see [games_operands_int]); other operands are outside the model. *)
Definition as_int (v : value) : result Z :=
  match v with
  | VInt z => Ok z
  | _ => Raise TypeError
  end.

Definition max_list (zs : list Z) : result Z :=
  match zs with
  | [] => Raise ValueError
  | z :: zs' => Ok (fold_left Z.max zs' z)
  end.

Definition py_max (vs : list value) : result value :=
  zs <- mapM as_int vs ;;
  m <- max_list zs ;;
  Ok (VInt m).

(** [TARGET = max([OPERANDS])], lines 1055-1058. *)
Definition reconcile (target : string) (operands : list string) (st : store) : result store :=
  vs <- mapM (fun x => rd x st) operands ;;
  m <- py_max vs ;;
  Ok (assign target m st).

(** The dict literal of lines 1060-1225: key by key, the value of a local
    variable. *)
Definition build_dict (layout : list (string * string)) (st : store)
  : result (list (string * value)) :=
  mapM (fun kx => v <- rd (snd kx) st ;; Ok (fst kx, v)) layout.

(** ** The field tables of [parse_player_stats_page], in source order *)

Definition games_reg_inits : list string :=
  [ "player_games_reg_g";
    "player_games_started_reg_g" ].

Definition games_reg_fields : list field :=
  [ F "player_games_reg_g" "g" CInt;
    F "player_games_started_reg_g" "gs" CIntBlank ].

Definition games_post_inits : list string :=
  [ "player_games_post_g";
    "player_games_started_post_g" ].

Definition games_post_fields : list field :=
  [ F "player_games_post_g" "g" CInt;
    F "player_games_started_post_g" "gs" CIntBlank ].

Definition passing_reg_inits : list string :=
  [ "player_games_reg_p";
    "player_games_started_reg_p";
    "player_qb_rec_reg";
    "player_pass_cmp_reg";
    "player_pass_att_reg";
    "player_pass_cmp_pct_reg";
    "player_pass_yds_reg";
    "player_pass_td_reg";
    "player_pass_td_pct_reg";
    "player_pass_int_reg";
    "player_pass_int_pct_reg";
    "player_pass_first_down_reg";
    "player_pass_success_reg";
    "player_pass_long_reg";
    "player_pass_yds_per_att_reg";
    "player_pass_adj_yds_per_att_reg";
    "player_pass_yds_per_cmp_reg";
    "player_pass_yds_per_g_reg";
    "player_pass_rating_reg";
    "player_pass_sacked_reg";
    "player_pass_sacked_yds_reg";
    "player_pass_sacked_pct_reg";
    "player_pass_net_yds_per_att_reg";
    "player_pass_adj_net_yds_per_att_reg";
    "player_comebacks_reg";
    "player_gwd_reg" ].

Definition passing_reg_fields : list field :=
  [ F "player_games_reg_p" "games" CInt;
    F "player_games_started_reg_p" "games_started" CInt;
    F "player_qb_rec_reg" "qb_rec" CText;
    F "player_pass_cmp_reg" "pass_cmp" CInt;
    F "player_pass_att_reg" "pass_att" CInt;
    F "player_pass_cmp_pct_reg" "pass_cmp_pct" CFloat;
    F "player_pass_yds_reg" "pass_yds" CInt;
    F "player_pass_td_reg" "pass_td" CInt;
    F "player_pass_td_pct_reg" "pass_td_pct" CFloat;
    F "player_pass_int_reg" "pass_int" CInt;
    F "player_pass_int_pct_reg" "pass_int_pct" CFloat;
    F "player_pass_first_down_reg" "pass_first_down" CInt;
    F "player_pass_success_reg" "pass_success" CFloat;
    F "player_pass_long_reg" "pass_long" CInt;
    F "player_pass_yds_per_att_reg" "pass_yds_per_att" CFloat;
    F "player_pass_adj_yds_per_att_reg" "pass_adj_yds_per_att" CFloat;
    F "player_pass_yds_per_cmp_reg" "pass_yds_per_cmp" CFloat;
    F "player_pass_yds_per_g_reg" "pass_yds_per_g" CFloat;
    F "player_pass_rating_reg" "pass_rating" CFloat;
    F "player_pass_sacked_reg" "pass_sacked" CInt;
    F "player_pass_sacked_yds_reg" "pass_sacked_yds" CInt;
    F "player_pass_sacked_pct_reg" "pass_sacked_pct" CFloat;
    F "player_pass_net_yds_per_att_reg" "pass_net_yds_per_att" CFloat;
    F "player_pass_adj_net_yds_per_att_reg" "pass_adj_net_yds_per_att" CFloat;
    F "player_pass_adj_net_yds_per_att_reg" "pass_adj_net_yds_per_att" CFloat;
    F "player_comebacks_reg" "comebacks" CInt;
    F "player_gwd_reg" "gwd" CInt ].

Definition passing_post_inits : list string :=
  [ "player_games_post_p";
    "player_games_started_post_p";
    "player_qb_rec_post";
    "player_pass_cmp_post";
    "player_pass_att_post";
    "player_pass_cmp_pct_post";
    "player_pass_yds_post";
    "player_pass_td_post";
    "player_pass_td_pct_post";
    "player_pass_int_post";
    "player_pass_int_pct_post";
    "player_pass_first_down_post";
    "player_pass_success_post";
    "player_pass_long_post";
    "player_pass_yds_per_att_post";
    "player_pass_adj_yds_per_att_post";
    "player_pass_yds_per_cmp_post";
    "player_pass_yds_per_g_post";
    "player_pass_rating_post";
    "player_pass_sacked_post";
    "player_pass_sacked_yds_post";
    "player_pass_sacked_pct_post";
    "player_pass_net_yds_per_att_post";
    "player_pass_adj_net_yds_per_att_post";
    "player_comebacks_post";
    "player_gwd_post" ].

Definition passing_post_fields : list field :=
  [ F "player_games_post_p" "games" CInt;
    F "player_games_started_post_p" "games_started" CInt;
    F "player_qb_rec_post" "qb_rec" CText;
    F "player_pass_cmp_post" "pass_cmp" CInt;
    F "player_pass_att_post" "pass_att" CInt;
    F "player_pass_cmp_pct_post" "pass_cmp_pct" CFloat;
    F "player_pass_yds_post" "pass_yds" CInt;
    F "player_pass_td_post" "pass_td" CInt;
    F "player_pass_td_pct_post" "pass_td_pct" CFloat;
    F "player_pass_int_post" "pass_int" CInt;
    F "player_pass_int_pct_post" "pass_int_pct" CFloat;
    F "player_pass_first_down_post" "pass_first_down" CInt;
    F "player_pass_success_post" "pass_success" CFloat;
    F "player_pass_long_post" "pass_long" CInt;
    F "player_pass_yds_per_att_post" "pass_yds_per_att" CFloat;
    F "player_pass_adj_yds_per_att_post" "pass_adj_yds_per_att" CFloat;
    F "player_pass_yds_per_cmp_post" "pass_yds_per_cmp" CFloat;
    F "player_pass_yds_per_g_post" "pass_yds_per_g" CFloat;
    F "player_pass_rating_post" "pass_rating" CFloat;
    F "player_pass_sacked_post" "pass_sacked" CInt;
    F "player_pass_sacked_yds_post" "pass_sacked_yds" CInt;
    F "player_pass_sacked_pct_post" "pass_sacked_pct" CFloat;
    F "player_pass_net_yds_per_att_post" "pass_net_yds_per_att" CFloat;
    F "player_pass_adj_net_yds_per_att_post" "pass_adj_net_yds_per_att" CFloat;
    F "player_pass_adj_net_yds_per_att_post" "pass_adj_net_yds_per_att" CFloat;
    F "player_comebacks_post" "comebacks" CInt;
    F "player_gwd_post" "gwd" CInt ].

Definition rushing_and_receiving_reg_inits : list string :=
  [ "player_games_reg_rr";
    "player_games_started_reg_rr";
    "player_rush_att_reg";
    "player_rush_yds_reg";
    "player_rush_td_reg";
    "player_rush_first_down_reg";
    "player_rush_success_reg";
    "player_rush_long_reg";
    "player_rush_yds_per_att_reg";
    "player_rush_yds_per_g_reg";
    "player_rush_att_per_g_reg";
    "player_targets_reg";
    "player_rec_reg";
    "player_rec_yds_reg";
    "player_rec_yds_per_rec_reg";
    "player_rec_td_reg";
    "player_rec_first_down_reg";
    "player_rec_success_reg";
    "player_rec_long_reg";
    "player_rec_per_g_reg";
    "player_rec_yds_per_g_reg";
    "player_catch_pct_reg";
    "player_rec_yds_per_tgt_reg";
    "player_touches_reg";
    "player_yds_per_touch_reg";
    "player_rush_receive_td_reg" ].

Definition rushing_and_receiving_reg_fields : list field :=
  [ F "player_games_reg_rr" "games" CInt;
    F "player_games_started_reg_rr" "games_started" CInt;
    F "player_rush_att_reg" "rush_att" CInt;
    F "player_rush_yds_reg" "rush_yds" CInt;
    F "player_rush_td_reg" "rush_td" CInt;
    F "player_rush_first_down_reg" "rush_first_down" CInt;
    F "player_rush_success_reg" "rush_success" CFloat;
    F "player_rush_long_reg" "rush_long" CInt;
    F "player_rush_yds_per_att_reg" "rush_yds_per_att" CFloat;
    F "player_rush_yds_per_g_reg" "rush_yds_per_g" CFloat;
    F "player_rush_att_per_g_reg" "rush_att_per_g" CFloat;
    F "player_targets_reg" "targets" CInt;
    F "player_rec_reg" "rec" CInt;
    F "player_rec_yds_reg" "rec_yds" CInt;
    F "player_rec_yds_per_rec_reg" "rec_yds_per_rec" CFloat;
    F "player_rec_td_reg" "rec_td" CInt;
    F "player_rec_first_down_reg" "rec_first_down" CInt;
    F "player_rec_success_reg" "rec_success" CFloat;
    F "player_rec_long_reg" "rec_long" CInt;
    F "player_rec_per_g_reg" "rec_per_g" CFloat;
    F "player_rec_yds_per_g_reg" "rec_yds_per_g" CFloat;
    F "player_catch_pct_reg" "catch_pct" CFloat;
    F "player_rec_yds_per_tgt_reg" "rec_yds_per_tgt" CFloat;
    F "player_touches_reg" "touches" CInt;
    F "player_yds_per_touch_reg" "yds_per_touch" CFloat;
    F "player_rush_receive_td_reg" "rush_receive_td" CInt ].

Definition rushing_and_receiving_post_inits : list string :=
  [ "player_games_post_rr";
    "player_games_started_post_rr";
    "player_rush_att_post";
    "player_rush_yds_post";
    "player_rush_td_post";
    "player_rush_first_down_post";
    "player_rush_success_post";
    "player_rush_long_post";
    "player_rush_yds_per_att_post";
    "player_rush_yds_per_g_post";
    "player_rush_att_per_g_post";
    "player_targets_post";
    "player_rec_post";
    "player_rec_yds_post";
    "player_rec_yds_per_rec_post";
    "player_rec_td_post";
    "player_rec_first_down_post";
    "player_rec_success_post";
    "player_rec_long_post";
    "player_rec_per_g_post";
    "player_rec_yds_per_g_post";
    "player_catch_pct_post";
    "player_rec_yds_per_tgt_post";
    "player_touches_post";
    "player_yds_per_touch_post";
    "player_rush_receive_td_post" ].

Definition rushing_and_receiving_post_fields : list field :=
  [ F "player_games_post_rr" "games" CInt;
    F "player_games_started_post_rr" "games_started" CInt;
    F "player_rush_att_post" "rush_att" CInt;
    F "player_rush_yds_post" "rush_yds" CInt;
    F "player_rush_td_post" "rush_td" CInt;
    F "player_rush_first_down_post" "rush_first_down" CInt;
    F "player_rush_success_post" "rush_success" CFloat;
    F "player_rush_long_post" "rush_long" CInt;
    F "player_rush_yds_per_att_post" "rush_yds_per_att" CFloat;
    F "player_rush_yds_per_g_post" "rush_yds_per_g" CFloat;
    F "player_rush_att_per_g_post" "rush_att_per_g" CFloat;
    F "player_targets_post" "targets" CInt;
    F "player_rec_post" "rec" CInt;
    F "player_rec_yds_post" "rec_yds" CInt;
    F "player_rec_yds_per_rec_post" "rec_yds_per_rec" CFloat;
    F "player_rec_td_post" "rec_td" CInt;
    F "player_rec_first_down_post" "rec_first_down" CInt;
    F "player_rec_success_post" "rec_success" CFloat;
    F "player_rec_long_post" "rec_long" CInt;
    F "player_rec_per_g_post" "rec_per_g" CFloat;
    F "player_rec_yds_per_g_post" "rec_yds_per_g" CFloat;
    F "player_catch_pct_post" "catch_pct" CFloat;
    F "player_rec_yds_per_tgt_post" "rec_yds_per_tgt" CFloat;
    F "player_touches_post" "touches" CInt;
    F "player_yds_per_touch_post" "yds_per_touch" CFloat;
    F "player_rush_receive_td_post" "rush_receive_td" CInt ].

Definition defense_reg_inits : list string :=
  [ "player_games_reg_d";
    "player_games_started_reg_d";
    "player_def_int_reg";
    "player_def_int_yds_reg";
    "player_def_int_td_reg";
    "player_def_int_long_reg";
    "player_pass_defended_reg";
    "player_fumbles_forced_reg";
    "player_fumbles_reg_d";
    "player_fumbles_rec_reg";
    "player_fumbles_rec_yds_reg";
    "player_fumbles_rec_td_reg";
    "player_sacks_reg";
    "player_tackles_combined_reg";
    "player_tackles_solo_reg";
    "player_tackles_assists_reg";
    "player_tackles_loss_reg";
    "player_qb_hits_reg";
    "player_safety_md_reg" ].

Definition defense_reg_fields : list field :=
  [ F "player_games_reg_d" "games" CInt;
    F "player_games_started_reg_d" "games_started" CInt;
    F "player_def_int_reg" "def_int" CInt;
    F "player_def_int_yds_reg" "def_int_yds" CInt;
    F "player_def_int_td_reg" "def_int_td" CInt;
    F "player_def_int_long_reg" "def_int_long" CInt;
    F "player_pass_defended_reg" "pass_defended" CInt;
    F "player_fumbles_forced_reg" "fumbles_forced" CInt;
    F "player_fumbles_reg_d" "fumbles" CInt;
    F "player_fumbles_rec_reg" "fumbles_rec" CInt;
    F "player_fumbles_rec_yds_reg" "fumbles_rec_yds" CInt;
    F "player_fumbles_rec_td_reg" "fumbles_rec_td" CInt;
    F "player_sacks_reg" "sacks" CFloat;
    F "player_tackles_combined_reg" "tackles_combined" CInt;
    F "player_tackles_solo_reg" "tackles_solo" CInt;
    F "player_tackles_assists_reg" "tackles_assists" CInt;
    F "player_tackles_loss_reg" "tackles_loss" CInt;
    F "player_qb_hits_reg" "qb_hits" CInt;
    F "player_safety_md_reg" "safety_md" CInt ].

Definition defense_post_inits : list string :=
  [ "player_games_post_d";
    "player_games_started_post_d";
    "player_def_int_post";
    "player_def_int_yds_post";
    "player_def_int_td_post";
    "player_def_int_long_post";
    "player_pass_defended_post";
    "player_fumbles_forced_post";
    "player_fumbles_post_d";
    "player_fumbles_rec_post";
    "player_fumbles_rec_yds_post";
    "player_fumbles_rec_td_post";
    "player_sacks_post";
    "player_tackles_combined_post";
    "player_tackles_solo_post";
    "player_tackles_assists_post";
    "player_tackles_loss_post";
    "player_qb_hits_post";
    "player_safety_md_post" ].

Definition defense_post_fields : list field :=
  [ F "player_games_post_d" "games" CInt;
    F "player_games_started_post_d" "games_started" CInt;
    F "player_def_int_post" "def_int" CInt;
    F "player_def_int_yds_post" "def_int_yds" CInt;
    F "player_def_int_td_post" "def_int_td" CInt;
    F "player_def_int_long_post" "def_int_long" CInt;
    F "player_pass_defended_post" "pass_defended" CInt;
    F "player_fumbles_forced_post" "fumbles_forced" CInt;
    F "player_fumbles_post_d" "fumbles" CInt;
    F "player_fumbles_rec_post" "fumbles_rec" CInt;
    F "player_fumbles_rec_yds_post" "fumbles_rec_yds" CInt;
    F "player_fumbles_rec_td_post" "fumbles_rec_td" CInt;
    F "player_sacks_post" "sacks" CFloat;
    F "player_tackles_combined_post" "tackles_combined" CInt;
    F "player_tackles_solo_post" "tackles_solo" CInt;
    F "player_tackles_assists_post" "tackles_assists" CInt;
    F "player_tackles_loss_post" "tackles_loss" CInt;
    F "player_qb_hits_post" "qb_hits" CInt;
    F "player_safety_md_post" "safety_md" CInt ].

Definition returns_reg_inits : list string :=
  [ "player_games_reg_ret";
    "player_games_started_reg_ret";
    "player_punt_ret_reg";
    "player_punt_ret_yds_reg";
    "player_punt_ret_td_reg";
    "player_punt_ret_long_reg";
    "player_punt_ret_yds_per_ret_reg";
    "player_kick_ret_reg";
    "player_kick_ret_yds_reg";
    "player_kick_ret_td_reg";
    "player_kick_ret_long_reg";
    "player_kick_ret_yds_per_ret_reg" ].

Definition returns_reg_fields : list field :=
  [ F "player_games_reg_ret" "games" CInt;
    F "player_games_started_reg_ret" "games_started" CInt;
    F "player_punt_ret_reg" "punt_ret" CInt;
    F "player_punt_ret_yds_reg" "punt_ret_yds" CInt;
    F "player_punt_ret_td_reg" "punt_ret_td" CInt;
    F "player_punt_ret_long_reg" "punt_ret_long" CInt;
    F "player_punt_ret_yds_per_ret_reg" "punt_ret_yds_per_ret" CFloat;
    F "player_kick_ret_reg" "kick_ret" CInt;
    F "player_kick_ret_yds_reg" "kick_ret_yds" CInt;
    F "player_kick_ret_td_reg" "kick_ret_td" CInt;
    F "player_kick_ret_long_reg" "kick_ret_long" CInt;
    F "player_kick_ret_yds_per_ret_reg" "kick_ret_yds_per_ret" CFloat ].

Definition returns_post_inits : list string :=
  [ "player_games_post_ret";
    "player_games_started_post_ret";
    "player_punt_ret_post";
    "player_punt_ret_yds_post";
    "player_punt_ret_td_post";
    "player_punt_ret_long_post";
    "player_punt_ret_yds_per_ret_post";
    "player_kick_ret_post";
    "player_kick_ret_yds_post";
    "player_kick_ret_td_post";
    "player_kick_ret_long_post";
    "player_kick_ret_yds_per_ret_post" ].

Definition returns_post_fields : list field :=
  [ F "player_games_post_ret" "games" CInt;
    F "player_games_started_post_ret" "games_started" CInt;
    F "player_punt_ret_post" "punt_ret" CInt;
    F "player_punt_ret_yds_post" "punt_ret_yds" CInt;
    F "player_punt_ret_td_post" "punt_ret_td" CInt;
    F "player_punt_ret_long_post" "punt_ret_long" CInt;
    F "player_punt_ret_yds_per_ret_post" "punt_ret_yds_per_ret" CFloat;
    F "player_kick_ret_post" "kick_ret" CInt;
    F "player_kick_ret_yds_post" "kick_ret_yds" CInt;
    F "player_kick_ret_td_post" "kick_ret_td" CInt;
    F "player_kick_ret_long_post" "kick_ret_long" CInt;
    F "player_kick_ret_yds_per_ret_post" "kick_ret_yds_per_ret" CFloat ].

Definition player_stats_layout : list (string * string) :=
  [ ("height", "height");
    ("weight", "weight");
    ("games_reg", "player_games_reg");
    ("games_started_reg", "player_games_started_reg");
    ("games_post", "player_games_post");
    ("games_started_post", "player_games_started_post");
    ("qb_record_reg", "player_qb_rec_reg");
    ("pass_cmp_reg", "player_pass_cmp_reg");
    ("pass_att_reg", "player_pass_att_reg");
    ("pass_cmp_pct_reg", "player_pass_cmp_pct_reg");
    ("pass_yds_reg", "player_pass_yds_reg");
    ("pass_td_reg", "player_pass_td_reg");
    ("pass_td_pct_reg", "player_pass_td_pct_reg");
    ("pass_int_reg", "player_pass_int_reg");
    ("pass_int_pct_reg", "player_pass_int_pct_reg");
    ("pass_first_down_reg", "player_pass_first_down_reg");
    ("pass_success_reg", "player_pass_success_reg");
    ("pass_long_reg", "player_pass_long_reg");
    ("pass_yds_per_att_reg", "player_pass_yds_per_att_reg");
    ("pass_adj_yds_per_att_reg", "player_pass_adj_yds_per_att_reg");
    ("pass_yds_per_cmp_reg", "player_pass_yds_per_cmp_reg");
    ("pass_yds_per_g_reg", "player_pass_yds_per_g_reg");
    ("pass_rating_reg", "player_pass_rating_reg");
    ("pass_sacked_reg", "player_pass_sacked_reg");
    ("pass_sacked_yds_reg", "player_pass_sacked_yds_reg");
    ("pass_sacked_pct_reg", "player_pass_sacked_pct_reg");
    ("pass_net_yds_per_att_reg", "player_pass_net_yds_per_att_reg");
    ("pass_adj_net_yds_per_att_reg", "player_pass_adj_net_yds_per_att_reg");
    ("comebacks_reg", "player_comebacks_reg");
    ("gwd_reg", "player_gwd_reg");
    ("qb_record_post", "player_qb_rec_post");
    ("pass_cmp_post", "player_pass_cmp_post");
    ("pass_att_post", "player_pass_att_post");
    ("pass_cmp_pct_post", "player_pass_cmp_pct_post");
    ("pass_yds_post", "player_pass_yds_post");
    ("pass_td_post", "player_pass_td_post");
    ("pass_td_pct_post", "player_pass_td_pct_post");
    ("pass_int_post", "player_pass_int_post");
    ("pass_int_pct_post", "player_pass_int_pct_post");
    ("pass_first_down_post", "player_pass_first_down_post");
    ("pass_success_post", "player_pass_success_post");
    ("pass_long_post", "player_pass_long_post");
    ("pass_yds_per_att_post", "player_pass_yds_per_att_post");
    ("pass_adj_yds_per_att_post", "player_pass_adj_yds_per_att_post");
    ("pass_yds_per_cmp_post", "player_pass_yds_per_cmp_post");
    ("pass_yds_per_g_post", "player_pass_yds_per_g_post");
    ("pass_rating_post", "player_pass_rating_post");
    ("pass_sacked_post", "player_pass_sacked_post");
    ("pass_sacked_yds_post", "player_pass_sacked_yds_post");
    ("pass_sacked_pct_post", "player_pass_sacked_pct_post");
    ("pass_net_yds_per_att_post", "player_pass_net_yds_per_att_post");
    ("pass_adj_net_yds_per_att_post", "player_pass_adj_net_yds_per_att_post");
    ("comebacks_post", "player_comebacks_post");
    ("gwd_post", "player_gwd_post");
    ("rush_att_reg", "player_rush_att_reg");
    ("rush_yds_reg", "player_rush_yds_reg");
    ("rush_td_reg", "player_rush_td_reg");
    ("rush_first_down_reg", "player_rush_first_down_reg");
    ("rush_success_reg", "player_rush_success_reg");
    ("rush_long_reg", "player_rush_long_reg");
    ("rush_yds_per_att_reg", "player_rush_yds_per_att_reg");
    ("rush_yds_per_g_reg", "player_rush_yds_per_g_reg");
    ("rush_att_per_g_reg", "player_rush_att_per_g_reg");
    ("targets_reg", "player_targets_reg");
    ("rec_reg", "player_rec_reg");
    ("rec_yds_reg", "player_rec_yds_reg");
    ("rec_yds_per_rec_reg", "player_rec_yds_per_rec_reg");
    ("rec_td_reg", "player_rec_td_reg");
    ("rec_first_down_reg", "player_rec_first_down_reg");
    ("rec_success_reg", "player_rec_success_reg");
    ("rec_long_reg", "player_rec_long_reg");
    ("rec_per_g_reg", "player_rec_per_g_reg");
    ("rec_yds_per_g_reg", "player_rec_yds_per_g_reg");
    ("catch_pct_reg", "player_catch_pct_reg");
    ("rec_yds_per_tgt_reg", "player_rec_yds_per_tgt_reg");
    ("touches_reg", "player_touches_reg");
    ("yds_per_touch_reg", "player_yds_per_touch_reg");
    ("rush_receive_td_reg", "player_rush_receive_td_reg");
    ("rush_att_post", "player_rush_att_post");
    ("rush_yds_post", "player_rush_yds_post");
    ("rush_td_post", "player_rush_td_post");
    ("rush_first_down_post", "player_rush_first_down_post");
    ("rush_success_post", "player_rush_success_post");
    ("rush_long_post", "player_rush_long_post");
    ("rush_yds_per_att_post", "player_rush_yds_per_att_post");
    ("rush_yds_per_g_post", "player_rush_yds_per_g_post");
    ("rush_att_per_g_post", "player_rush_att_per_g_post");
    ("targets_post", "player_targets_post");
    ("rec_post", "player_rec_post");
    ("rec_yds_post", "player_rec_yds_post");
    ("rec_yds_per_rec_post", "player_rec_yds_per_rec_post");
    ("rec_td_post", "player_rec_td_post");
    ("rec_first_down_post", "player_rec_first_down_post");
    ("rec_success_post", "player_rec_success_post");
    ("rec_long_post", "player_rec_long_post");
    ("rec_per_g_post", "player_rec_per_g_post");
    ("rec_yds_per_g_post", "player_rec_yds_per_g_post");
    ("catch_pct_post", "player_catch_pct_post");
    ("rec_yds_per_tgt_post", "player_rec_yds_per_tgt_post");
    ("touches_post", "player_touches_post");
    ("yds_per_touch_post", "player_yds_per_touch_post");
    ("rush_receive_td_post", "player_rush_receive_td_post");
    ("def_int_reg", "player_def_int_reg");
    ("def_int_yds_reg", "player_def_int_yds_reg");
    ("def_int_td_reg", "player_def_int_td_reg");
    ("def_int_long_reg", "player_def_int_long_reg");
    ("pass_defended_reg", "player_pass_defended_reg");
    ("fumbles_forced_reg", "player_fumbles_forced_reg");
    ("fumbles_reg", "player_fumbles_reg_d");
    ("fumbles_rec_reg", "player_fumbles_rec_reg");
    ("fumbles_rec_yds_reg", "player_fumbles_rec_yds_reg");
    ("fumbles_rec_td_reg", "player_fumbles_rec_td_reg");
    ("sacks_reg", "player_sacks_reg");
    ("tackles_combined_reg", "player_tackles_combined_reg");
    ("tackles_solo_reg", "player_tackles_solo_reg");
    ("tackles_assists_reg", "player_tackles_assists_reg");
    ("tackles_loss_reg", "player_tackles_loss_reg");
    ("qb_hits_reg", "player_qb_hits_reg");
    ("safety_md_reg", "player_safety_md_reg");
    ("def_int_post", "player_def_int_post");
    ("def_int_yds_post", "player_def_int_yds_post");
    ("def_int_td_post", "player_def_int_td_post");
    ("def_int_long_post", "player_def_int_long_post");
    ("pass_defended_post", "player_pass_defended_post");
    ("fumbles_forced_post", "player_fumbles_forced_post");
    ("fumbles_post", "player_fumbles_post_d");
    ("fumbles_rec_post", "player_fumbles_rec_post");
    ("fumbles_rec_yds_post", "player_fumbles_rec_yds_post");
    ("fumbles_rec_td_post", "player_fumbles_rec_td_post");
    ("sacks_post", "player_sacks_post");
    ("tackles_combined_post", "player_tackles_combined_post");
    ("tackles_solo_post", "player_tackles_solo_post");
    ("tackles_assists_post", "player_tackles_assists_post");
    ("tackles_loss_post", "player_tackles_loss_post");
    ("qb_hits_post", "player_qb_hits_post");
    ("safety_md_post", "player_safety_md_post");
    ("punt_ret_reg", "player_punt_ret_reg");
    ("punt_ret_yds_reg", "player_punt_ret_yds_reg");
    ("punt_ret_td_reg", "player_punt_ret_td_reg");
    ("punt_ret_long_reg", "player_punt_ret_long_reg");
    ("punt_ret_yds_per_ret_reg", "player_punt_ret_yds_per_ret_reg");
    ("kick_ret_reg", "player_kick_ret_reg");
    ("kick_ret_yds_reg", "player_kick_ret_yds_reg");
    ("kick_ret_td_reg", "player_kick_ret_td_reg");
    ("kick_ret_long_reg", "player_kick_ret_long_reg");
    ("kick_ret_yds_per_ret_reg", "player_kick_ret_yds_per_ret_reg");
    ("punt_ret_post", "player_punt_ret_post");
    ("punt_ret_yds_post", "player_punt_ret_yds_post");
    ("punt_ret_td_post", "player_punt_ret_td_post");
    ("punt_ret_long_post", "player_punt_ret_long_post");
    ("punt_ret_yds_per_ret_post", "player_punt_ret_yds_per_ret_post");
    ("kick_ret_post", "player_kick_ret_post");
    ("kick_ret_yds_post", "player_kick_ret_yds_post");
    ("kick_ret_td_post", "player_kick_ret_td_post");
    ("kick_ret_long_post", "player_kick_ret_long_post");
    ("kick_ret_yds_per_ret_post", "player_kick_ret_yds_per_ret_post") ].

(** ** [parse_player_stats_page] *)

(** A [requests] response: its status and the tree its [content] parses to. *)
Record Response : Type := { status_code : Z; content : document }.

(** The module globals the function reads: the name [response] (line 131),
    bound by the main program at line 1245 and unbound otherwise. *)
Record globals : Type := { g_response : option Response }.

(** [r"(\d+-\d+), (\d+lb)"] *)
Definition pattern : regex :=
  Cat (Group (Cat (Plus Digit) (Cat (Lit "-") (Plus Digit))))
      (Cat (Lit ",") (Cat (Lit " ")
         (Group (Cat (Plus Digit) (Cat (Lit "l") (Lit "b")))))).

(** Lines 118-129, and again 133-144: the height and the weight out of the
    text of [<div id="meta">]. *)
Definition height_weight (soup : document) : result (value * value) :=
  match find "div" [("id", "meta")] soup with
  | None => Raise AttributeError
  | Some meta =>
      let meta_info := get_text meta in
      let clean_meta_info := re_sub_plus Space " " meta_info in
      match re_search pattern clean_meta_info with
      | Some m => Ok (VStr (group m 1), VStr (group m 2))
      | None => Ok (VNone, VNone)
      end
  end.

Definition find_table (soup : document) (id : string) : option node :=
  find "table" [("id", id)] soup.

(** The ten category blocks are one per category and season type. *)
Inductive category : Type := Games | Passing | RushRec | Defense | Returns.
Inductive season : Type := Regular | Post.

Definition categories : list category := [Games; Passing; RushRec; Defense; Returns].

(** Lines 483-485. *)
Definition rushing_and_receiving_reg (soup : document) : option node :=
  let rushing_and_receiving_reg := find_table soup "rushing_and_receiving" in
  match rushing_and_receiving_reg with
  | None => find_table soup "receiving_and_rushing"
  | Some _ => rushing_and_receiving_reg
  end.

(** Lines 619-621; line 620 tests [rushing_and_receiving_reg]. *)
Definition rushing_and_receiving_post (soup : document) : option node :=
  let rushing_and_receiving_post := find_table soup "rushing_and_receiving_post" in
  match rushing_and_receiving_reg soup with
  | None => find_table soup "receiving_and_rushing_post"
  | Some _ => rushing_and_receiving_post
  end.

(** The table variable each block tests.  Looking a table up has no effect,
    so each is a function of the document. *)
Definition table_of (soup : document) (c : category) (s : season) : option node :=
  match c, s with
  | Games, Regular => find_table soup "games_played"
  | Games, Post => find_table soup "games_played_playoffs"
  | Passing, Regular => find_table soup "passing"
  | Passing, Post => find_table soup "passing_post"
  | RushRec, Regular => rushing_and_receiving_reg soup
  | RushRec, Post => rushing_and_receiving_post soup
  | Defense, Regular => find_table soup "defense"
  | Defense, Post => find_table soup "defense_post"
  | Returns, Regular => find_table soup "returns"
  | Returns, Post => find_table soup "returns_post"
  end.

Definition inits_of (c : category) (s : season) : list string :=
  match c, s with
  | Games, Regular => games_reg_inits
  | Games, Post => games_post_inits
  | Passing, Regular => passing_reg_inits
  | Passing, Post => passing_post_inits
  | RushRec, Regular => rushing_and_receiving_reg_inits
  | RushRec, Post => rushing_and_receiving_post_inits
  | Defense, Regular => defense_reg_inits
  | Defense, Post => defense_post_inits
  | Returns, Regular => returns_reg_inits
  | Returns, Post => returns_post_inits
  end.

Definition fields_of (c : category) (s : season) : list field :=
  match c, s with
  | Games, Regular => games_reg_fields
  | Games, Post => games_post_fields
  | Passing, Regular => passing_reg_fields
  | Passing, Post => passing_post_fields
  | RushRec, Regular => rushing_and_receiving_reg_fields
  | RushRec, Post => rushing_and_receiving_post_fields
  | Defense, Regular => defense_reg_fields
  | Defense, Post => defense_post_fields
  | Returns, Regular => returns_reg_fields
  | Returns, Post => returns_post_fields
  end.

Definition block_of (soup : document) (c : category) (s : season) : block :=
  Block (inits_of c s) (table_of soup c s) (fields_of c s).

(** Lines 146-1052, in source order. *)
Definition program_order : list (category * season) :=
  [ (Games, Regular); (Games, Post);
    (Passing, Regular); (Passing, Post);
    (RushRec, Regular); (RushRec, Post);
    (Defense, Regular); (Defense, Post);
    (Returns, Regular); (Returns, Post) ].

Definition category_blocks (soup : document) : list block :=
  map (fun cs => block_of soup (fst cs) (snd cs)) program_order.

(** Lines 1055-1058. *)
Definition games_reg_operands : list string :=
  [ "player_games_reg_g"; "player_games_reg_p"; "player_games_reg_rr";
    "player_games_reg_d"; "player_games_reg_ret" ].

Definition games_started_reg_operands : list string :=
  [ "player_games_started_reg_g"; "player_games_started_reg_p";
    "player_games_started_reg_rr"; "player_games_started_reg_d";
    "player_games_started_reg_ret" ].

Definition games_post_operands : list string :=
  [ "player_games_post_g"; "player_games_post_p"; "player_games_post_rr";
    "player_games_post_d"; "player_games_post_ret" ].

Definition games_started_post_operands : list string :=
  [ "player_games_started_post_g"; "player_games_started_post_p";
    "player_games_started_post_rr"; "player_games_started_post_d";
    "player_games_started_post_ret" ].

Definition reconcile_games (st : store) : result store :=
  st <- reconcile "player_games_reg" games_reg_operands st ;;
  st <- reconcile "player_games_started_reg" games_started_reg_operands st ;;
  st <- reconcile "player_games_post" games_post_operands st ;;
  reconcile "player_games_started_post" games_started_post_operands st.

(** Lines 146-1227, from the document the statistics are read from and the
    two biometric values. *)
Definition player_stats (soup : document) (height weight : value)
  : result (list (string * value)) :=
  let st := assign "weight" weight (assign "height" height []) in
  st <- run_blocks (category_blocks soup) st ;;
  st <- reconcile_games st ;;
  build_dict player_stats_layout st.

Definition parse_player_stats_page (g : globals) (player_page : Response)
  : result (list (string * value)) :=
  (* lines 116-129 *)
  let soup := content player_page in
  _ <- height_weight soup ;;
  (* line 131: soup = BeautifulSoup(response.content, 'html.parser') *)
  response <- match g_response g with
              | Some r => Ok r
              | None => Raise NameError
              end ;;
  let soup := content response in
  (* lines 133-144 *)
  hw <- height_weight soup ;;
  (* lines 146-1227 *)
  player_stats soup (fst hw) (snd hw).

(** The call of the main program, lines 1245-1247:
[[
    response = scrape_page(player_url)
    if response is not None:
        player_stats = parse_player_stats_page(response)
]]
    The global [response] is the page that is passed. *)
Definition extract_player_record (page : Response) : result (list (string * value)) :=
  parse_player_stats_page {| g_response := Some page |} page.

(** ** [scrape_page] *)

(** [e] is caught by [except requests.exceptions.RequestException]. *)
Definition is_request_exception (e : exn) : bool :=
  match e with
  | RequestException _ => true
  | _ => false
  end.

(** [response.raise_for_status()]: HTTPError on 400..599. *)
Definition raise_for_status (response : Response) : result unit :=
  if ((400 <=? status_code response) && (status_code response <? 600))%Z
  then Raise (RequestException HTTPError)
  else Ok tt.

(** Lines 26-55.  [session_get url] is what
    [session.get(url, headers = headers, timeout = timeout)] does on the
    mounted retrying adapter: it returns a response or raises.  [None] is the
    Python [None]. *)
Definition scrape_page (session_get : string -> result Response) (url : string)
  : result (option Response) :=
  match (response <- session_get url ;;
         _ <- raise_for_status response ;;
         Ok response) with
  | Ok response => Ok (Some response)
  | Raise e => if is_request_exception e then Ok None else Raise e
  end.

(** ** The main program, lines 1239-1264 *)

Definition PLAYER_LIST_PATH : string := "data/player_list.csv".
Definition PLAYER_STATS_PATH : string := "data/player_stats.csv".

(** [BASE_URL.format(link)] *)
Definition BASE_URL (link : string) : string :=
  "https://www.pro-football-reference.com/" ++ link.

(** One row of the roster table. *)
Record roster_entry : Type := {
  player_id : Z;
  link : string;
  name : string;
  position : string;
  career_begin : Z;
  career_end : Z;
  active : bool;
  scraped : bool
}.

(** A CSV file is its rows (the header line is left out): roster rows, or
    statistics rows made of the six roster columns of [player_stats_dict]
    followed by the parsed record.  No key of the record is one of the six,
    so [update] appends. *)
Inductive csv_row : Type :=
| RosterRow (e : roster_entry)
| StatsRow (player_id : Z) (name position : string) (career_begin career_end : Z)
           (active : bool) (player_stats : list (string * value)).

Definition file : Type := list csv_row.

(** The files by path. *)
Definition filesystem : Type := string -> option file.

Definition write_file (path : string) (f : file) (fs : filesystem) : filesystem :=
  fun p => if String.eqb p path then Some f else fs p.

(** [pd.read_csv(path)] for a roster file. *)
Fixpoint roster_rows (f : file) : result (list roster_entry) :=
  match f with
  | [] => Ok []
  | RosterRow e :: f' => es <- roster_rows f' ;; Ok (e :: es)
  | StatsRow _ _ _ _ _ _ _ :: _ => Raise KeyError
  end.

Definition read_csv (path : string) (fs : filesystem) : result (list roster_entry) :=
  match fs path with
  | Some f => roster_rows f
  | None => Raise FileNotFoundError
  end.

(** [row.to_csv(path, mode='a', header=not os.path.exists(path), index=False)] *)
Definition append_csv (path : string) (row : csv_row) (fs : filesystem) : filesystem :=
  match fs path with
  | Some f => write_file path (f ++ [row]) fs
  | None => write_file path [row] fs
  end.

(** [df.to_csv(path, index=False)] for the roster. *)
Definition to_csv (path : string) (df : list roster_entry) (fs : filesystem) : filesystem :=
  write_file path (map RosterRow df) fs.

(** [df[column][label]] on the default index: the row at that position. *)
Definition at_label (df : list roster_entry) (label : Z) : result roster_entry :=
  if (label <? 0)%Z then Raise KeyError
  else match nth_error df (Z.to_nat label) with
       | Some e => Ok e
       | None => Raise KeyError
       end.

(** [df.loc[df['player_id'] == i, 'scraped'] = True] *)
Definition mark_scraped (i : Z) (df : list roster_entry) : list roster_entry :=
  map (fun e =>
         if (player_id e =? i)%Z
         then {| player_id := player_id e; link := link e; name := name e;
                 position := position e; career_begin := career_begin e;
                 career_end := career_end e; active := active e;
                 scraped := true |}
         else e) df.

(** The body of the loop, lines 1242-1264, for the player id [i]. *)
Definition loop_body (session_get : string -> result Response) (i : Z)
           (player_list_df : list roster_entry) (fs : filesystem)
  : result (list roster_entry * filesystem) :=
  row <- at_label player_list_df (i - 1) ;;
  if negb (scraped row) then
    let player_url := BASE_URL (link row) in
    response <- scrape_page session_get player_url ;;
    match response with
    | Some response =>
        player_stats <- parse_player_stats_page {| g_response := Some response |} response ;;
        let player_stats_dict :=
          StatsRow i (name row) (position row) (career_begin row) (career_end row)
                   (active row) player_stats in
        let fs := append_csv PLAYER_STATS_PATH player_stats_dict fs in
        let player_list_df := mark_scraped i player_list_df in
        let fs := to_csv "player_list.csv" player_list_df fs in
        Ok (player_list_df, fs)
    | None => Ok (player_list_df, fs)
    end
  else Ok (player_list_df, fs).

(** [for i in player_list_df['player_id']]: an exception ends the program and
    leaves the files as they are at that point. *)
Fixpoint for_each_player (session_get : string -> result Response) (ids : list Z)
         (player_list_df : list roster_entry) (fs : filesystem)
  : filesystem * result unit :=
  match ids with
  | [] => (fs, Ok tt)
  | i :: ids' =>
      match loop_body session_get i player_list_df fs with
      | Ok (player_list_df', fs') => for_each_player session_get ids' player_list_df' fs'
      | Raise e => (fs, Raise e)
      end
  end.

(** Lines 1239-1264: the program once the roster file exists (lines 1231-1237
    build it on the first run).  The result is the files the run leaves and
    how it ended. *)
Definition main (session_get : string -> result Response) (fs : filesystem)
  : filesystem * result unit :=
  match read_csv PLAYER_LIST_PATH fs with
  | Ok player_list_df =>
      for_each_player session_get (map player_id player_list_df) player_list_df fs
  | Raise e => (fs, Raise e)
  end.

(** ** Static checks on the field tables and views of a block *)

Definition mem (x : string) (l : list string) : bool := existsb (String.eqb x) l.

Definition keys (st : store) : list string := map fst st.

(** The variables a block may assign. *)
Definition block_vars (b : block) : list string := inits b ++ map var (fields b).

(** No variable a block initialises is assigned by a later block. *)
Fixpoint owned_ok (bs : list (list string * list string)) : bool :=
  match bs with
  | [] => true
  | (ini, _) :: rest =>
      forallb (fun x => forallb (fun b => negb (mem x (snd b))) rest) ini
      && owned_ok rest
  end.

Definition block_sig (b : block) : list string * list string :=
  (inits b, block_vars b).

Definition int_like (c : conv) : bool :=
  match c with
  | CInt | CIntBlank => true
  | _ => false
  end.

(** Every statement of [fs] that assigns [x] assigns an [int]. *)
Definition int_var (x : string) (fs : list field) : bool :=
  forallb (fun f => if String.eqb (var f) x then int_like (how f) else true) fs.

(** The statements of [fs] that assign [x]. *)
Definition writers (x : string) (fs : list field) : list field :=
  filter (fun f => String.eqb (var f) x) fs.

(** What a block leaves in [x] when it runs on its own. *)
Definition reported (x : string) (b : block) : result value :=
  d <- run_block b [] ;; rd x d.

(** The text of the cell a field statement reads, when there is one. *)
Definition cell_text (t : node) (k : string) : option string :=
  match cells t k with
  | Ok (c :: _) => Some (get_text c)
  | _ => None
  end.

(** The local variable the dict literal stores under a key. *)
Fixpoint var_of_key (k : string) (layout : list (string * string)) : option string :=
  match layout with
  | [] => None
  | (k', x) :: rest => if String.eqb k k' then Some x else var_of_key k rest
  end.

(** The counter a block reports in [x], and 0 when it reports none. *)
Definition counter (x : string) (b : block) : Z :=
  match reported x b with
  | Ok (VInt z) => z
  | _ => 0%Z
  end.

(** Every variable the ten blocks initialise. *)
Definition all_inits : list string :=
  concat (map (fun cs => inits_of (fst cs) (snd cs)) program_order).

(** The variables of each block, in program order. *)
Definition program_vars : list (list string) :=
  map (fun cs => inits_of (fst cs) (snd cs) ++ map var (fields_of (fst cs) (snd cs)))
      program_order.

Definition reconciled_vars : list string :=
  [ "player_games_started_post"; "player_games_post";
    "player_games_started_reg"; "player_games_reg" ].

(** The per-category counters that lines 1055-1058 reconcile. *)
Definition suffix (c : category) : string :=
  match c with
  | Games => "g"
  | Passing => "p"
  | RushRec => "rr"
  | Defense => "d"
  | Returns => "ret"
  end.

Definition season_tag (s : season) : string :=
  match s with
  | Regular => "reg"
  | Post => "post"
  end.

Definition games_var (s : season) (c : category) : string :=
  "player_games_" ++ season_tag s ++ "_" ++ suffix c.

Definition started_var (s : season) (c : category) : string :=
  "player_games_started_" ++ season_tag s ++ "_" ++ suffix c.

Definition games_key (s : season) : string := "games_" ++ season_tag s.
Definition started_key (s : season) : string := "games_started_" ++ season_tag s.

(** The games and games-started counts a category reports for a season. *)
Definition games_count (soup : document) (s : season) (c : category) : Z :=
  counter (games_var s c) (block_of soup c s).

Definition started_count (soup : document) (s : season) (c : category) : Z :=
  counter (started_var s c) (block_of soup c s).

(** The quarterback record: its key in the dict and its local variable. *)
Definition qb_key (s : season) : string := "qb_record_" ++ season_tag s.
Definition qb_var (s : season) : string := "player_qb_rec_" ++ season_tag s.

(** The maximum of a counter over the five categories. *)
Definition max5 (f : category -> Z) : Z :=
  Z.max (Z.max (Z.max (Z.max (f Games) (f Passing)) (f RushRec)) (f Defense)) (f Returns).

(** The store after lines 1055-1058, from the store [st] the blocks leave. *)
Definition final_store (soup : document) (st : store) : store :=
  assign "player_games_started_post" (VInt (max5 (started_count soup Post)))
    (assign "player_games_post" (VInt (max5 (games_count soup Post)))
       (assign "player_games_started_reg" (VInt (max5 (started_count soup Regular)))
          (assign "player_games_reg" (VInt (max5 (games_count soup Regular))) st))).

(** The store the blocks start from, lines 125-129 and 140-144. *)
Definition initial_store (height weight : value) : store :=
  assign "weight" weight (assign "height" height []).

(** [v] is a text value or the unset sentinel, not a number. *)
Definition is_text (v : value) : bool :=
  match v with
  | VStr _ | VNone => true
  | _ => false
  end.

(** ** Example pages *)

Module Examples.

Definition td (k text : string) : node :=
  Tag "td" [("data-stat", k)] [NavigableString text].

(** [<td data-stat="k"></td>] *)
Definition td_empty (k : string) : node := Tag "td" [("data-stat", k)] [].

Definition stats_table (id : string) (row : list node) : node :=
  Tag "table" [("class", "stats_table"); ("id", id)]
      [Tag "tbody" [] []; Tag "tfoot" [] [Tag "tr" [] row]].

Definition meta_div (text : string) : node :=
  Tag "div" [("id", "meta")] [Tag "p" [] [NavigableString text]].

Definition page (d : document) : Response := {| status_code := 200; content := d |}.

(** A quarterback page with a height and a weight and no statistics. *)
Definition bare : Response := page [meta_div "QB 6-2, 215lb (188cm)"].

(** A page whose metadata has no height and weight. *)
Definition no_biometrics : Response := page [meta_div "Position: K"].

(** A page without the metadata container. *)
Definition no_meta : Response :=
  page [stats_table "defense" [td "games" "16"]].

(** A defender: seven games in the games table, sixteen in the defense one. *)
Definition defender : Response :=
  page [Tag "html" [] [Tag "body" []
    [ meta_div "DB 5-11, 190lb";
      stats_table "games_played" [td "g" "7"; td_empty "gs"];
      stats_table "defense" [td "games" "16"; td "games_started" "3";
                             td "sacks" "4.5"] ]]].

(** A passing footer with an empty attempts cell. *)
Definition empty_cell : Response :=
  page [meta_div "QB 6-2, 215lb"; stats_table "passing" [td_empty "pass_att"]].

(** A passing footer with a malformed attempts cell. *)
Definition malformed_cell : Response :=
  page [meta_div "QB 6-2, 215lb"; stats_table "passing" [td "pass_att" "n/a"]].

(** Regular season under the primary id, postseason under the alternate. *)
Definition mixed_ids : Response :=
  page [ meta_div "RB 6-0, 220lb";
         stats_table "rushing_and_receiving" [td "rush_att" "9"];
         stats_table "receiving_and_rushing_post" [td "rush_att" "5"] ].

(** Postseason under the primary id and no regular-season table. *)
Definition post_only : Response :=
  page [ meta_div "RB 6-0, 220lb";
         stats_table "rushing_and_receiving_post" [td "rush_att" "5"] ].

(** Another player's page. *)
Definition other : Response := page [meta_div "K 5-9, 180lb"].

(** A roster of one player who has not been scraped, and a network that
    serves the page [bare] for every address. *)
Definition roster1 : list roster_entry :=
  [ {| player_id := 1; link := "/players/A/AaaaBb00.htm"; name := "Bb Aaaa";
       position := "QB"; career_begin := 2001; career_end := 2005;
       active := false; scraped := false |} ].

Definition disk1 : filesystem :=
  write_file PLAYER_LIST_PATH (map RosterRow roster1) (fun _ => None).

Definition serve_bare : string -> result Response := fun _ => Ok bare.

(** The record of a page when the call returns one. *)
Definition record_of (p : Response) : list (string * value) :=
  match extract_player_record p with
  | Ok r => r
  | Raise _ => []
  end.

Definition bare_record : list (string * value) := Eval vm_compute in record_of bare.
Definition defender_record : list (string * value) := Eval vm_compute in record_of defender.
Definition no_biometrics_record : list (string * value) :=
  Eval vm_compute in record_of no_biometrics.
Definition mixed_ids_record : list (string * value) := Eval vm_compute in record_of mixed_ids.
Definition post_only_record : list (string * value) := Eval vm_compute in record_of post_only.
Definition other_record : list (string * value) := Eval vm_compute in record_of other.

(** The roster [roster1] with its player marked. *)
Definition roster1_done : list roster_entry := mark_scraped 1 roster1.

(** The statistics row of that player. *)
Definition row1 : csv_row := StatsRow 1 "Bb Aaaa" "QB" 2001 2005 false bare_record.

(** Every field statement of the program. *)
Definition all_fields : list field :=
  concat (map (fun cs => fields_of (fst cs) (snd cs)) program_order).

Definition guarded (f : field) : bool :=
  match how f with
  | CIntBlank => true
  | _ => false
  end.

Definition unguarded_numeric (f : field) : bool :=
  match how f with
  | CInt | CFloat => true
  | _ => false
  end.

End Examples.

(** ** [parse_player_list_page], lines 78-108 *)

Module Str.

(** [s.split(c)] for a separator of one character: never an empty list. *)
Fixpoint split (c : ascii) (s : string) : list string :=
  match s with
  | EmptyString => [EmptyString]
  | String a s' =>
      if Ascii.eqb a c then EmptyString :: split c s'
      else match split c s' with
           | h :: t => String a h :: t
           | [] => [String a EmptyString]
           end
  end.

(** [l[0]] and [l[-1]] of the list [split] returns. *)
Definition first (l : list string) : string := hd EmptyString l.
Definition final (l : list string) : string := last l EmptyString.

(** [s.strip()]: the white space of [str.isspace], which is [re_space]. *)
Fixpoint lstrip (s : string) : string :=
  match s with
  | String c s' => if re_space c then lstrip s' else s
  | EmptyString => EmptyString
  end.

Fixpoint rstrip (s : string) : string :=
  match s with
  | String c s' =>
      match rstrip s' with
      | EmptyString => if re_space c then EmptyString else String c EmptyString
      | t => String c t
      end
  | EmptyString => EmptyString
  end.

Definition strip (s : string) : string := rstrip (lstrip s).

(** [c] does not occur in [s]. *)
Fixpoint lacks (c : ascii) (s : string) : bool :=
  match s with
  | String a s' => negb (Ascii.eqb a c) && lacks c s'
  | EmptyString => true
  end.

End Str.

(** One row of the listing table: the columns of line 106 and the
    [scraped] column of line 107. *)
Record listing_row : Type := {
  row_link : string;
  row_name : string;
  row_position : string;
  row_career_begin : Z;
  row_career_end : Z;
  row_active : bool;
  row_scraped : bool
}.

Definition attrs_of (n : node) : list (string * string) :=
  match n with
  | Tag _ attrs _ => attrs
  | _ => []
  end.

(** Line 100: [career_begin, career_end = map(int, years_text.split('-'))].
    A conversion that fails and a number of parts other than two both raise
    ValueError. *)
Definition career_years (years_text : string) : result (Z * Z) :=
  match Str.split "-" years_text with
  | [a; b] => x <- py_int a ;; y <- py_int b ;; Ok (x, y)
  | _ => Raise ValueError
  end.

(** Lines 90-104, for one [<p>] entry. *)
Definition parse_entry (entry : node) : result listing_row :=
  match tag_find "a" [] entry with
  | None => Raise TypeError                       (* None['href'] *)
  | Some a_tag =>
      match attr_get "href" (attrs_of a_tag) with
      | None => Raise KeyError
      | Some link =>
          let name := get_text a_tag in
          let position :=
            Str.final (Str.split "(" (Str.first (Str.split ")" (get_text entry)))) in
          let years_text := Str.strip (Str.final (Str.split ")" (get_text entry))) in
          years <- career_years years_text ;;
          let active := match tag_find "b" [] entry with
                        | Some _ => true
                        | None => false
                        end in
          Ok {| row_link := link; row_name := name; row_position := position;
                row_career_begin := fst years; row_career_end := snd years;
                row_active := active; row_scraped := false |}
      end
  end.

Definition parse_player_list_page (player_list_page : Response)
  : result (list listing_row) :=
  let soup := content player_list_page in
  match find "div" [("id", "div_players")] soup with
  | None => Raise AttributeError
  | Some div => mapM parse_entry (tag_find_all "p" [] div)
  end.

(** ** [scrape_player_lists], lines 57-76 *)

(** What ends a run of the functions below: an exception of [exn], or the
    division by zero of line 66. *)
Inductive raised : Type :=
| ZeroDivisionError
| Raised (e : exn).

Inductive outcome (A : Type) : Type :=
| Returned (a : A)
| Failed (r : raised).

Arguments Returned {A} a.
Arguments Failed {A} r.

Definition outcome_of {A : Type} (r : result A) : outcome A :=
  match r with
  | Ok a => Returned a
  | Raise e => Failed (Raised e)
  end.

Definition SCRAPING_RATE : Z := 10.

(** The loop of lines 67-75.  [delay] is [60 / max_pages_per_minute], so
    [time.sleep(delay)] raises ValueError when [max_pages_per_minute] is
    negative.  The first component counts the calls of [time.sleep] that
    returned. *)
Fixpoint lists_loop (session_get : string -> result Response) (max_pages_per_minute : Z)
         (urls : list string) (data : list (list listing_row)) (slept : nat)
  : nat * result (list (list listing_row)) :=
  match urls with
  | [] => (slept, Ok data)
  | url :: urls' =>
      match (response <- scrape_page session_get url ;;
             match response with
             | Some response =>
                 player_data <- parse_player_list_page response ;;
                 Ok (data ++ [player_data])
             | None => Ok data
             end) with
      | Raise e => (slept, Raise e)
      | Ok data' =>
          if (max_pages_per_minute <? 0)%Z then (slept, Raise ValueError)
          else lists_loop session_get max_pages_per_minute urls' data' (S slept)
      end
  end.

Definition scrape_player_lists (session_get : string -> result Response)
           (urls : list string) (max_pages_per_minute : Z)
  : nat * outcome (list (list listing_row)) :=
  if (max_pages_per_minute =? 0)%Z then (O, Failed ZeroDivisionError)
  else let run := lists_loop session_get max_pages_per_minute urls [] O in
       (fst run, outcome_of (snd run)).

(** ** The main program, lines 1231-1237 and the whole *)

(** [PLAYER_LIST_URL.format(letter)] *)
Definition PLAYER_LIST_URL (letter : string) : string :=
  "https://www.pro-football-reference.com/players/" ++ letter.

(** [string.ascii_uppercase], letter by letter. *)
Definition ascii_uppercase : list string :=
  [ "A"; "B"; "C"; "D"; "E"; "F"; "G"; "H"; "I"; "J"; "K"; "L"; "M";
    "N"; "O"; "P"; "Q"; "R"; "S"; "T"; "U"; "V"; "W"; "X"; "Y"; "Z" ].

(** Line 1236: the column [player_id] with the values [i], [i + 1], ... *)
Fixpoint number_from (i : Z) (rows : list listing_row) : list roster_entry :=
  match rows with
  | [] => []
  | r :: rows' =>
      {| player_id := i; link := row_link r; name := row_name r;
         position := row_position r; career_begin := row_career_begin r;
         career_end := row_career_end r; active := row_active r;
         scraped := row_scraped r |} :: number_from (i + 1) rows'
  end.

(** Lines 1231-1237: the roster file, built when it does not exist.
    [pd.concat] of an empty list raises ValueError.  Directories are not
    modelled. *)
Definition build_roster (session_get : string -> result Response) (fs : filesystem)
  : nat * (filesystem * outcome unit) :=
  match fs PLAYER_LIST_PATH with
  | Some _ => (O, (fs, Returned tt))
  | None =>
      let urls := map PLAYER_LIST_URL ascii_uppercase in
      let run := scrape_player_lists session_get urls SCRAPING_RATE in
      match snd run with
      | Failed r => (fst run, (fs, Failed r))
      | Returned [] => (fst run, (fs, Failed (Raised ValueError)))
      | Returned all_data =>
          let player_list_df := number_from 1 (concat all_data) in
          (fst run, (to_csv PLAYER_LIST_PATH player_list_df fs, Returned tt))
      end
  end.

(** Lines 1231-1264. *)
Definition program (session_get : string -> result Response) (fs : filesystem)
  : nat * (filesystem * outcome unit) :=
  let built := build_roster session_get fs in
  match snd (snd built) with
  | Returned _ =>
      let run := main session_get (fst (snd built)) in
      (fst built, (fst run, outcome_of (snd run)))
  | Failed r => built
  end.

(** ** Views for the properties of the main loop *)

Definition set_scraped (e : roster_entry) : roster_entry :=
  {| player_id := player_id e; link := link e; name := name e;
     position := position e; career_begin := career_begin e;
     career_end := career_end e; active := active e; scraped := true |}.

(** The ids of the roster count its rows from [i]. *)
Fixpoint numbered_from (i : Z) (df : list roster_entry) : Prop :=
  match df with
  | [] => True
  | e :: df' => player_id e = i /\ numbered_from (i + 1) df'
  end.

(** What the loop does for one roster row, from the row alone: nothing for a
    flagged player or a page that is not retrieved, else the statistics row. *)
Definition player_outcome (session_get : string -> result Response) (e : roster_entry)
  : result (option csv_row) :=
  if scraped e then Ok None
  else
    response <- scrape_page session_get (BASE_URL (link e)) ;;
    match response with
    | None => Ok None
    | Some response =>
        player_stats <- parse_player_stats_page {| g_response := Some response |} response ;;
        Ok (Some (StatsRow (player_id e) (name e) (position e) (career_begin e)
                           (career_end e) (active e) player_stats))
    end.

(** The rows a run adds for the roster, and the roster it ends with, when
    no player raises. *)
Definition new_rows (session_get : string -> result Response) (df : list roster_entry)
  : list csv_row :=
  flat_map (fun e => match player_outcome session_get e with
                     | Ok (Some row) => [row]
                     | _ => []
                     end) df.

Definition final_entry (session_get : string -> result Response) (e : roster_entry)
  : roster_entry :=
  match player_outcome session_get e with
  | Ok (Some _) => set_scraped e
  | _ => e
  end.

(** The content of a file after rows are appended to it. *)
Definition appended (o : option file) (rows : file) : option file :=
  match rows with
  | [] => o
  | _ => Some (match o with
               | Some old => old
               | None => []
               end ++ rows)
  end.

(** The pages of the listing that a run of [scrape_player_lists] keeps. *)
Definition fetched_lists (session_get : string -> result Response) (urls : list string)
  : list (list listing_row) :=
  flat_map (fun url => match scrape_page session_get url with
                       | Ok (Some response) =>
                           match parse_player_list_page response with
                           | Ok player_data => [player_data]
                           | Raise _ => []
                           end
                       | _ => []
                       end) urls.

(** The language of a regular expression: the text it matches and the groups
    it captures, in closing order. *)
Inductive Matches : regex -> string -> list string -> Prop :=
| MLit (c : ascii) : Matches (Lit c) (String c EmptyString) []
| MPlus (k : cclass) (s : string) :
    s <> EmptyString -> span k s = String.length s -> Matches (Plus k) s []
| MCat (r1 r2 : regex) (s1 s2 : string) (g1 g2 : list string) :
    Matches r1 s1 g1 -> Matches r2 s2 g2 ->
    Matches (Cat r1 r2) (s1 ++ s2)%string (g1 ++ g2)
| MGroup (r : regex) (s : string) (g : list string) :
    Matches r s g -> Matches (Group r) s (g ++ [s]).

(** A non-empty run of decimal digits. *)
Definition digits (s : string) : Prop :=
  s <> EmptyString /\ span Digit s = String.length s.

(** [t] occurs in [s]. *)
Definition occurs (t s : string) : Prop :=
  exists before after, s = (before ++ t ++ after)%string.

(** ** Example listings *)

Module Listing.

(** [<p><a href="l">n</a> (pos) years</p>], in bold for an active player. *)
Definition entry (l n tail : string) : node :=
  Tag "p" [] [Tag "a" [("href", l)] [NavigableString n]; NavigableString tail].

Definition active_entry (l n tail : string) : node :=
  Tag "p" [] [Tag "b" [] [Tag "a" [("href", l)] [NavigableString n];
                          NavigableString tail]].

Definition listing (entries : list node) : Response :=
  {| status_code := 200; content := [Tag "div" [("id", "div_players")] entries] |}.

Definition letter_a : Response :=
  listing [ entry "/players/A/AaaaBb00.htm" "Bb Aaaa" " (QB) 2001-2005";
            active_entry "/players/A/AbcdEf00.htm" "Ef Abcd" " (WR-TE) 2019-2024" ].

Definition broken : Response :=
  listing [ entry "/players/A/AaaaBb00.htm" "Bb Aaaa" " (QB) 2001-2005";
            entry "/players/A/AxxxYy00.htm" "Yy Axxx" " (RB) 1999" ].

(** A network with one listing page, for the letter A, and the page
    [Examples.bare] for its first player. *)
Definition serve (url : string) : result Response :=
  if String.eqb url (PLAYER_LIST_URL "A") then Ok letter_a
  else if String.eqb url (BASE_URL "/players/A/AaaaBb00.htm") then Ok Examples.bare
  else Raise (RequestException ConnectionError).

Definition nothing_served : string -> result Response :=
  fun _ => Raise (RequestException Timeout).

Definition two_players : list roster_entry :=
  [ {| player_id := 1; link := "/players/A/AaaaBb00.htm"; name := "Bb Aaaa";
       position := "QB"; career_begin := 2001; career_end := 2005;
       active := false; scraped := false |};
    {| player_id := 2; link := "/players/A/AbcdEf00.htm"; name := "Ef Abcd";
       position := "WR-TE"; career_begin := 2019; career_end := 2024;
       active := true; scraped := true |} ].

Definition disk2 : filesystem :=
  write_file PLAYER_LIST_PATH (map RosterRow two_players) (fun _ => None).

Definition empty_disk : filesystem := fun _ => None.

End Listing.

(** ** Static checks for the field statements *)

Definition conv_eqb (a b : conv) : bool :=
  match a, b with
  | CInt, CInt | CFloat, CFloat | CText, CText | CIntBlank, CIntBlank => true
  | _, _ => false
  end.

Definition field_eqb (f g : field) : bool :=
  String.eqb (var f) (var g) && String.eqb (key f) (key g) && conv_eqb (how f) (how g).

(** Every statement of a block assigns a variable the block initialises, a
    variable that lines 1055-1058 do not assign, and the statements that
    assign the same variable are the same statement. *)
Definition fields_check (c : category) (s : season) : bool :=
  forallb (fun f => mem (var f) (inits_of c s)
                    && negb (mem (var f) reconciled_vars)
                    && forallb (field_eqb f) (writers (var f) (fields_of c s)))
          (fields_of c s)
  && forallb (fun x => negb (mem x reconciled_vars)) (inits_of c s)
  && negb (Nat.eqb (length (fields_of c s)) 0).

(** ** An example page with a line break in its metadata *)

Module Biometrics.

(** The white space between the comma and the weight: a line break, a tab
    and two blanks. *)
Definition gap : string := String "010" (String "009" "  ").

(** A page whose height and weight stand on two lines. *)
Definition spaced : Response :=
  Examples.page [Examples.meta_div ("QB 6-2," ++ gap ++ "215lb (188cm)")%string].

Definition spaced_record : list (string * value) :=
  Eval vm_compute in Examples.record_of spaced.

End Biometrics.

(** ** An example run that a page interrupts *)

Module Interrupted.

(** Two players still to be scraped. *)
Definition first_player : roster_entry :=
  {| player_id := 1; link := "/players/A/AaaaBb00.htm"; name := "Bb Aaaa";
     position := "QB"; career_begin := 2001; career_end := 2005;
     active := false; scraped := false |}.

Definition second_player : roster_entry :=
  {| player_id := 2; link := "/players/A/AbcdEf00.htm"; name := "Ef Abcd";
     position := "QB"; career_begin := 2019; career_end := 2024;
     active := true; scraped := false |}.

Definition third_player : roster_entry :=
  {| player_id := 3; link := "/players/A/AaaaBb00.htm"; name := "Bb Aaaa";
     position := "QB"; career_begin := 1980; career_end := 1985;
     active := false; scraped := false |}.

Definition roster : list roster_entry := [first_player; second_player; third_player].

(** The page of the second player has an empty attempts cell. *)
Definition serve (url : string) : result Response :=
  if String.eqb url (BASE_URL "/players/A/AaaaBb00.htm") then Ok Examples.bare
  else if String.eqb url (BASE_URL "/players/A/AbcdEf00.htm") then Ok Examples.empty_cell
  else Raise (RequestException ConnectionError).

Definition disk : filesystem :=
  write_file PLAYER_LIST_PATH (map RosterRow roster) (fun _ => None).

End Interrupted.

(** ** The kinds of value a record holds *)

Definition is_number (v : value) : bool :=
  match v with
  | VInt _ | VFloat _ => true
  | _ => false
  end.

(** The local variables that may hold something else than a number, and the
    keys the dict literal stores them under. *)
Definition text_vars : list string :=
  [ "height"; "weight"; "player_qb_rec_reg"; "player_qb_rec_post" ].

Definition text_keys : list string :=
  [ "height"; "weight"; "qb_record_reg"; "qb_record_post" ].

(** A statement that keeps the text of its cell assigns one of [text_vars]. *)
Definition field_typed (f : field) : bool :=
  match how f with
  | CText => mem (var f) text_vars
  | _ => true
  end.

(** Every variable of the store outside [text_vars] holds a number. *)
Definition typed_store (st : store) : Prop :=
  forall x v, lookup x st = Some v -> mem x text_vars = false -> is_number v = true.

(** ** What a key of the record holds *)

(** The variables that lines 1055-1058 assign. *)
Definition total_var (s : season) : string := "player_games_" ++ season_tag s.
Definition total_started_var (s : season) : string :=
  "player_games_started_" ++ season_tag s.

(** [held soup k v]: [v] is what the code gives the key [k] on the document
    [soup], by the variable the dict literal reads for [k].  The value is
    the declared default of that variable ([None] for the height and the
    weight when the pattern is not found; [0] for a variable of a block
    whose table is absent or has no cell for it), or a value parsed from the
    document (a group of the pattern; the conversion of the text of the
    first cell; for the four games counts, the maximum over the categories
    of what each reports). *)
Inductive held (soup : document) (k : string) : value -> Prop :=
| default_biometric (x : string) (meta : node) :
    var_of_key k player_stats_layout = Some x ->
    In x ["weight"; "height"] ->
    find "div" [("id", "meta")] soup = Some meta ->
    re_search pattern (re_sub_plus Space " " (get_text meta)) = None ->
    held soup k VNone
| parsed_height (meta : node) (m : list string) :
    var_of_key k player_stats_layout = Some "height" ->
    find "div" [("id", "meta")] soup = Some meta ->
    re_search pattern (re_sub_plus Space " " (get_text meta)) = Some m ->
    held soup k (VStr (group m 1))
| parsed_weight (meta : node) (m : list string) :
    var_of_key k player_stats_layout = Some "weight" ->
    find "div" [("id", "meta")] soup = Some meta ->
    re_search pattern (re_sub_plus Space " " (get_text meta)) = Some m ->
    held soup k (VStr (group m 2))
| reconciled_games (s : season) :
    var_of_key k player_stats_layout = Some (total_var s) ->
    held soup k (VInt (max5 (games_count soup s)))
| reconciled_started (s : season) :
    var_of_key k player_stats_layout = Some (total_started_var s) ->
    held soup k (VInt (max5 (started_count soup s)))
| default_no_table (c : category) (s : season) (x : string) :
    var_of_key k player_stats_layout = Some x ->
    In x (inits_of c s) ->
    table_of soup c s = None ->
    held soup k (VInt 0)
| default_no_cell (c : category) (s : season) (x : string) (t : node) :
    var_of_key k player_stats_layout = Some x ->
    In x (inits_of c s) ->
    table_of soup c s = Some t ->
    Forall (fun f => cells t (key f) = Ok []) (writers x (fields_of c s)) ->
    held soup k (VInt 0)
| parsed_cell (c : category) (s : season) (f : field) (t : node) (text : string)
              (v : value) :
    var_of_key k player_stats_layout = Some (var f) ->
    In f (fields_of c s) ->
    table_of soup c s = Some t ->
    cell_text t (key f) = Some text ->
    coerce (how f) text = Ok v ->
    held soup k v.

(** ** Example pages with a malformed cell in the postseason rushing table *)

Module Unread.

(** A postseason rushing table whose attempts cell reads [n/a]. *)
Definition post_table (id : string) : node :=
  Examples.stats_table id [Examples.td "rush_att" "n/a"].

(** Regular season under the primary id, that table under the alternate
    postseason id. *)
Definition alternate_id : Response :=
  Examples.page [ Examples.meta_div "RB 6-0, 220lb";
                  Examples.stats_table "rushing_and_receiving" [Examples.td "rush_att" "9"];
                  post_table "receiving_and_rushing_post" ].

(** The same page with that table under the primary postseason id. *)
Definition primary_id : Response :=
  Examples.page [ Examples.meta_div "RB 6-0, 220lb";
                  Examples.stats_table "rushing_and_receiving" [Examples.td "rush_att" "9"];
                  post_table "rushing_and_receiving_post" ].

Definition alternate_id_record : list (string * value) :=
  Eval vm_compute in Examples.record_of alternate_id.

End Unread.

(** * Properties *)

Unset Implicit Arguments.

(** ** The error monad and the store *)

Lemma bind_ok {A B : Type} (r : result A) (k : A -> result B) (b : B) :
  bind r k = Ok b -> exists a, r = Ok a /\ k a = Ok b.
Proof.
  destruct r as [a|e]; simpl; intros H; [eauto | discriminate].
Qed.

Lemma bind_raise {A B : Type} (r : result A) (k : A -> result B) (e : exn) :
  r = Raise e -> bind r k = Raise e.
Proof. intros ->; reflexivity. Qed.

Lemma is_ok_bind {A B : Type} (r : result A) (k : A -> result B) :
  is_ok (bind r k) = match r with Ok a => is_ok (k a) | Raise _ => false end.
Proof. destruct r; reflexivity. Qed.

Lemma mem_In (x : string) (l : list string) : mem x l = true <-> In x l.
Proof.
  unfold mem; rewrite existsb_exists; split.
  - intros [y [Hy He]]; apply String.eqb_eq in He; subst; assumption.
  - intros H; exists x; split; [assumption | apply String.eqb_refl].
Qed.

Lemma mem_false (x : string) (l : list string) : mem x l = false -> ~ In x l.
Proof.
  intros H Hin; apply mem_In in Hin; congruence.
Qed.

Lemma lookup_app (x : string) (d st : store) :
  lookup x (d ++ st) = match lookup x d with
                       | Some v => Some v
                       | None => lookup x st
                       end.
Proof.
  induction d as [|[y v] d IH]; simpl; [reflexivity|].
  destruct (String.eqb x y); [reflexivity | exact IH].
Qed.

Lemma lookup_none (x : string) (d : store) : ~ In x (keys d) -> lookup x d = None.
Proof.
  induction d as [|[y v] d IH]; simpl; intros H; [reflexivity|].
  destruct (String.eqb_spec x y) as [->|Hne]; [tauto|].
  apply IH; tauto.
Qed.

Lemma lookup_some (x : string) (d : store) :
  In x (keys d) -> exists v, lookup x d = Some v.
Proof.
  induction d as [|[y v] d IH]; simpl; intros H; [contradiction|].
  destruct (String.eqb_spec x y) as [->|Hne]; [eauto|].
  apply IH; destruct H as [H|H]; [congruence | assumption].
Qed.

Lemma lookup_in_keys (x : string) (d : store) (v : value) :
  lookup x d = Some v -> In x (keys d).
Proof.
  induction d as [|[y w] d IH]; simpl; [discriminate|].
  destruct (String.eqb_spec x y) as [->|Hne]; intros H; [left; reflexivity|].
  right; apply IH; assumption.
Qed.

Lemma rd_ok (x : string) (st : store) (v : value) :
  rd x st = Ok v <-> lookup x st = Some v.
Proof.
  unfold rd; destruct (lookup x st); split; intros H; congruence.
Qed.

(** ** One block: what it adds to the store *)

Lemma init_vars_app (xs : list string) (st : store) :
  init_vars xs st = rev (map (fun x => (x, VInt 0)) xs) ++ st.
Proof.
  unfold init_vars; revert st.
  induction xs as [|x xs IH]; intros st; simpl; [reflexivity|].
  rewrite IH; unfold assign; rewrite <- app_assoc; reflexivity.
Qed.

Lemma keys_init_vars (xs : list string) :
  keys (init_vars xs []) = rev xs.
Proof.
  rewrite init_vars_app, app_nil_r; unfold keys.
  rewrite map_rev, map_map; simpl; rewrite map_id; reflexivity.
Qed.

Lemma lookup_init_vars (x : string) (xs : list string) :
  In x xs -> lookup x (init_vars xs []) = Some (VInt 0).
Proof.
  rewrite init_vars_app, app_nil_r; intros H.
  apply in_rev in H; revert H.
  rewrite <- map_rev.
  induction (rev xs) as [|y l IH]; simpl; intros H; [contradiction|].
  destruct (String.eqb_spec x y) as [->|Hne]; [reflexivity|].
  apply IH; destruct H as [H|H]; [congruence | assumption].
Qed.

(** A field statement does not read the store: it only puts bindings in
    front of it. *)
Lemma field_stmt_prefix (t : node) (f : field) (d st : store) :
  field_stmt t f (d ++ st)
  = match field_stmt t f d with
    | Ok d' => Ok (d' ++ st)
    | Raise e => Raise e
    end.
Proof.
  unfold field_stmt.
  destruct (cells t (key f)) as [[|c l]|e]; simpl; try reflexivity.
  destruct (coerce (how f) (get_text c)); reflexivity.
Qed.

Lemma run_fields_prefix (t : node) (fs : list field) (d st : store) :
  run_fields t fs (d ++ st)
  = match run_fields t fs d with
    | Ok d' => Ok (d' ++ st)
    | Raise e => Raise e
    end.
Proof.
  revert d; induction fs as [|f fs IH]; intros d; simpl; [reflexivity|].
  rewrite field_stmt_prefix.
  destruct (field_stmt t f d) as [d'|e]; simpl; [apply IH | reflexivity].
Qed.

Lemma run_block_prefix (b : block) (st : store) :
  run_block b st
  = match run_block b [] with
    | Ok d => Ok (d ++ st)
    | Raise e => Raise e
    end.
Proof.
  unfold run_block.
  rewrite (init_vars_app (inits b) st), (init_vars_app (inits b) []), app_nil_r.
  destruct (table b) as [t|]; [apply run_fields_prefix | reflexivity].
Qed.

(** The bindings a run of field statements adds are all for variables of
    the statements, and the older bindings stay. *)
Lemma run_fields_keys (t : node) (fs : list field) (d d' : store) :
  run_fields t fs d = Ok d' ->
  incl (keys d) (keys d') /\ incl (keys d') (map var fs ++ keys d).
Proof.
  revert d; induction fs as [|f fs IH]; intros d; simpl.
  - intros H; injection H as <-; split; intros x Hx; assumption.
  - intros H; apply bind_ok in H; destruct H as [d1 [H1 H2]].
    apply IH in H2; destruct H2 as [Ha Hb].
    unfold field_stmt in H1.
    destruct (cells t (key f)) as [[|c l]|e]; simpl in H1; try discriminate.
    + injection H1 as <-; split; [assumption|].
      intros x Hx; apply Hb in Hx; apply in_app_or in Hx.
      right; apply in_or_app; tauto.
    + destruct (coerce (how f) (get_text c)) as [v|e]; simpl in H1; [|discriminate].
      injection H1 as <-; split.
      * intros x Hx; apply Ha; simpl; right; assumption.
      * intros x Hx; apply Hb in Hx; apply in_app_or in Hx; simpl in Hx.
        destruct Hx as [Hx|[Hx|Hx]].
        -- right; apply in_or_app; left; assumption.
        -- left; assumption.
        -- right; apply in_or_app; right; assumption.
Qed.

Lemma run_block_keys (b : block) (d : store) :
  run_block b [] = Ok d ->
  incl (inits b) (keys d) /\ incl (keys d) (block_vars b).
Proof.
  unfold run_block, block_vars; intros H.
  destruct (table b) as [t|].
  - apply run_fields_keys in H; destruct H as [Ha Hb].
    rewrite keys_init_vars in Ha, Hb; split.
    + intros x Hx; apply Ha; apply -> in_rev; assumption.
    + intros x Hx; apply Hb in Hx; apply in_app_or in Hx; apply in_or_app.
      destruct Hx as [Hx|Hx]; [right; assumption | left; apply in_rev; assumption].
  - injection H as <-; rewrite keys_init_vars; split.
    + intros x Hx; apply -> in_rev; assumption.
    + intros x Hx; apply in_or_app; left; apply in_rev; assumption.
Qed.

Lemma coerce_int_like (c : conv) (text : string) (v : value) :
  int_like c = true -> coerce c text = Ok v -> exists z, v = VInt z.
Proof.
  destruct c; simpl; try discriminate; intros _ H.
  - apply bind_ok in H; destruct H as [z [_ H]]; injection H as <-; eauto.
  - destruct (String.eqb text EmptyString).
    + injection H as <-; eauto.
    + apply bind_ok in H; destruct H as [z [_ H]]; injection H as <-; eauto.
Qed.

(** A variable whose writers are all integer conversions stays an [int]. *)
Lemma run_fields_int (t : node) (x : string) (fs : list field) (d d' : store) :
  run_fields t fs d = Ok d' ->
  int_var x fs = true ->
  (exists z, lookup x d = Some (VInt z)) ->
  exists z, lookup x d' = Some (VInt z).
Proof.
  revert d; induction fs as [|f fs IH]; intros d; simpl.
  - intros H _ Hz; injection H as <-; assumption.
  - intros H Hi Hz; apply andb_prop in Hi; destruct Hi as [Hf Hi].
    apply bind_ok in H; destruct H as [d1 [H1 H2]].
    apply (IH d1 H2 Hi); clear IH H2.
    unfold field_stmt in H1.
    destruct (cells t (key f)) as [[|c l]|e]; simpl in H1; try discriminate.
    + injection H1 as <-; assumption.
    + destruct (coerce (how f) (get_text c)) as [v|e] eqn:Hc; simpl in H1; [|discriminate].
      injection H1 as <-; unfold assign; simpl.
      destruct (String.eqb_spec x (var f)) as [->|Hne]; [|assumption].
      rewrite String.eqb_refl in Hf.
      destruct (coerce_int_like _ _ _ Hf Hc) as [z ->]; eauto.
Qed.

(** A variable keeps its value when none of its writers finds a cell. *)
Lemma run_fields_untouched (t : node) (x : string) (fs : list field) (d d' : store) :
  run_fields t fs d = Ok d' ->
  Forall (fun f => cells t (key f) = Ok []) (writers x fs) ->
  lookup x d' = lookup x d.
Proof.
  revert d; induction fs as [|f fs IH]; intros d; simpl.
  - intros H _; injection H as <-; reflexivity.
  - intros H Hw; apply bind_ok in H; destruct H as [d1 [H1 H2]].
    assert (Hrest : Forall (fun f => cells t (key f) = Ok []) (writers x fs)).
    { unfold writers in *; simpl in Hw.
      destruct (String.eqb (var f) x); [inversion Hw; assumption | assumption]. }
    rewrite (IH d1 H2 Hrest); clear IH H2.
    unfold field_stmt in H1.
    destruct (cells t (key f)) as [[|c l]|e] eqn:Hc; simpl in H1; try discriminate.
    + injection H1 as <-; reflexivity.
    + destruct (coerce (how f) (get_text c)) as [v|e]; simpl in H1; [|discriminate].
      injection H1 as <-; unfold assign; simpl.
      destruct (String.eqb_spec x (var f)) as [->|Hne]; [|reflexivity].
      unfold writers in Hw; simpl in Hw; rewrite String.eqb_refl in Hw.
      inversion Hw; congruence.
Qed.

(** A field statement whose conversion raises makes the run raise. *)
Lemma run_fields_raise (t : node) (f : field) (fs : list field) (d : store)
      (c : node) (l : list node) (e : exn) :
  In f fs ->
  cells t (key f) = Ok (c :: l) ->
  coerce (how f) (get_text c) = Raise e ->
  exists e', run_fields t fs d = Raise e'.
Proof.
  intros Hin Hc He; revert d.
  induction fs as [|f0 fs IH]; intros d; [contradiction|]; simpl.
  destruct Hin as [->|Hin].
  - unfold field_stmt; rewrite Hc; simpl; rewrite He; simpl; eauto.
  - destruct (field_stmt t f0 d) as [d1|e1]; simpl; [apply IH; assumption | eauto].
Qed.

Lemma run_block_int (b : block) (x : string) (d : store) :
  run_block b [] = Ok d ->
  In x (inits b) ->
  int_var x (fields b) = true ->
  exists z, lookup x d = Some (VInt z).
Proof.
  unfold run_block; intros H Hin Hi.
  destruct (table b) as [t|].
  - apply (run_fields_int _ _ _ _ _ H Hi).
    exists 0%Z; apply lookup_init_vars; assumption.
  - injection H as <-; exists 0%Z; apply lookup_init_vars; assumption.
Qed.

(** An absent table leaves every variable of the block at 0. *)
Lemma run_block_absent (b : block) :
  table b = None -> run_block b [] = Ok (init_vars (inits b) []).
Proof. unfold run_block; intros ->; reflexivity. Qed.

Lemma reported_absent (b : block) (x : string) :
  table b = None -> In x (inits b) -> reported x b = Ok (VInt 0).
Proof.
  intros Ht Hin; unfold reported; rewrite (run_block_absent _ Ht); simpl.
  unfold rd; rewrite (lookup_init_vars _ _ Hin); reflexivity.
Qed.

(** ** The sequence of blocks *)

Lemma run_block_split (b : block) (st st' : store) :
  run_block b st = Ok st' ->
  exists d, run_block b [] = Ok d /\ st' = d ++ st.
Proof.
  rewrite run_block_prefix.
  destruct (run_block b []) as [d|e]; intros H; [|discriminate].
  injection H as <-; eauto.
Qed.

Lemma run_blocks_frame (bs : list block) (x : string) (st st' : store) :
  run_blocks bs st = Ok st' ->
  forallb (fun b => negb (mem x (block_vars b))) bs = true ->
  lookup x st' = lookup x st.
Proof.
  revert st; induction bs as [|b bs IH]; intros st; simpl.
  - intros H _; injection H as <-; reflexivity.
  - intros H Hd; apply andb_prop in Hd; destruct Hd as [Hb Hd].
    apply bind_ok in H; destruct H as [st1 [H1 H2]].
    rewrite (IH _ H2 Hd).
    apply run_block_split in H1; destruct H1 as [d [Hd1 ->]].
    rewrite lookup_app, lookup_none; [reflexivity|].
    intros Hk; apply (run_block_keys _ _ Hd1) in Hk.
    apply negb_true_iff in Hb; apply mem_false in Hb; contradiction.
Qed.

Lemma forallb_sig (x : string) (bs : list block) :
  forallb (fun b => negb (mem x (snd b))) (map block_sig bs)
  = forallb (fun b => negb (mem x (block_vars b))) bs.
Proof. induction bs as [|b bs IH]; simpl; [reflexivity | rewrite IH; reflexivity]. Qed.

(** Under [owned_ok], a variable a block initialises holds at the end what
    that block leaves in it when it runs on its own. *)
Lemma run_blocks_owner (bs : list block) (b : block) (x : string) (st st' : store) :
  owned_ok (map block_sig bs) = true ->
  run_blocks bs st = Ok st' ->
  In b bs -> In x (inits b) ->
  exists d, run_block b [] = Ok d /\ lookup x st' = lookup x d.
Proof.
  revert st; induction bs as [|b0 bs IH]; intros st Ho H Hb Hx; [contradiction|].
  simpl in Ho, H.
  apply andb_prop in Ho; destruct Ho as [Ho0 Ho].
  apply bind_ok in H; destruct H as [st1 [H1 H2]].
  destruct Hb as [->|Hb]; [|eapply IH; eassumption].
  apply run_block_split in H1; destruct H1 as [d [Hd ->]].
  exists d; split; [assumption|].
  rewrite forallb_forall in Ho0; specialize (Ho0 x Hx).
  rewrite forallb_sig in Ho0.
  rewrite (run_blocks_frame _ _ _ _ H2 Ho0), lookup_app.
  destruct (lookup_some x d) as [v ->]; [|reflexivity].
  apply (run_block_keys _ _ Hd); assumption.
Qed.

(** The blocks succeed together exactly when each succeeds on its own. *)
Lemma run_blocks_is_ok (bs : list block) (st : store) :
  is_ok (run_blocks bs st) = forallb (fun b => is_ok (run_block b [])) bs.
Proof.
  revert st; induction bs as [|b bs IH]; intros st; simpl; [reflexivity|].
  rewrite run_block_prefix.
  destruct (run_block b []) as [d|e]; simpl; [apply IH | reflexivity].
Qed.

Lemma run_blocks_keys (bs : list block) (st st' : store) :
  run_blocks bs st = Ok st' ->
  incl (keys st) (keys st') /\ incl (concat (map inits bs)) (keys st').
Proof.
  revert st; induction bs as [|b bs IH]; intros st; simpl.
  - intros H; injection H as <-; split; intros x Hx; [assumption | contradiction].
  - intros H; apply bind_ok in H; destruct H as [st1 [H1 H2]].
    apply IH in H2; destruct H2 as [Ha Hb].
    apply run_block_split in H1; destruct H1 as [d [Hd ->]].
    unfold keys in Ha; rewrite map_app in Ha; fold (keys d) (keys st) in Ha.
    split.
    + intros x Hx; apply Ha; apply in_or_app; right; assumption.
    + intros x Hx; apply in_app_or in Hx; destruct Hx as [Hx|Hx].
      * apply Ha; apply in_or_app; left; apply (run_block_keys _ _ Hd); assumption.
      * apply Hb; assumption.
Qed.

(** ** The program's tables *)

Lemma owned_ok_program (soup : document) :
  owned_ok (map block_sig (category_blocks soup)) = true.
Proof. reflexivity. Qed.

Lemma inits_program (soup : document) :
  concat (map inits (category_blocks soup)) = all_inits.
Proof. reflexivity. Qed.

Lemma block_of_in (soup : document) (c : category) (s : season) :
  In (block_of soup c s) (category_blocks soup).
Proof. destruct c, s; simpl; tauto. Qed.

Lemma operands_by_category :
  games_reg_operands = map (games_var Regular) categories
  /\ games_started_reg_operands = map (started_var Regular) categories
  /\ games_post_operands = map (games_var Post) categories
  /\ games_started_post_operands = map (started_var Post) categories.
Proof. repeat split. Qed.

Lemma counters_static (s : season) (c : category) :
  mem (games_var s c) (inits_of c s) = true
  /\ int_var (games_var s c) (fields_of c s) = true
  /\ mem (started_var s c) (inits_of c s) = true
  /\ int_var (started_var s c) (fields_of c s) = true.
Proof. destruct s, c; vm_compute; repeat split. Qed.

(** A counter of a block: an [int] at the end of the blocks, the one the
    block reports on its own. *)
Lemma counter_at_end (soup : document) (c : category) (s : season) (x : string)
      (st0 st : store) :
  mem x (inits_of c s) = true ->
  int_var x (fields_of c s) = true ->
  run_blocks (category_blocks soup) st0 = Ok st ->
  lookup x st = Some (VInt (counter x (block_of soup c s)))
  /\ reported x (block_of soup c s) = Ok (VInt (counter x (block_of soup c s))).
Proof.
  intros Hm Hi H; apply mem_In in Hm.
  destruct (run_blocks_owner _ (block_of soup c s) x _ _
              (owned_ok_program soup) H (block_of_in soup c s) Hm) as [d [Hd Hl]].
  destruct (run_block_int _ x _ Hd Hm Hi) as [z Hz].
  assert (Hr : reported x (block_of soup c s) = Ok (VInt z)).
  { unfold reported; rewrite Hd; simpl; unfold rd; rewrite Hz; reflexivity. }
  unfold counter; rewrite Hr; split; [congruence | reflexivity].
Qed.

Lemma games_at_end (soup : document) (s : season) (c : category) (st0 st : store) :
  run_blocks (category_blocks soup) st0 = Ok st ->
  lookup (games_var s c) st = Some (VInt (games_count soup s c))
  /\ lookup (started_var s c) st = Some (VInt (started_count soup s c)).
Proof.
  intros H; destruct (counters_static s c) as [H1 [H2 [H3 H4]]]; split.
  - apply (counter_at_end soup c s _ st0 st H1 H2 H).
  - apply (counter_at_end soup c s _ st0 st H3 H4 H).
Qed.

(** ** Lines 1055-1058 *)

Lemma reconcile_max5 (target : string) (v : category -> string) (f : category -> Z)
      (st : store) :
  (forall c, lookup (v c) st = Some (VInt (f c))) ->
  reconcile target (map v categories) st = Ok (assign target (VInt (max5 f)) st).
Proof.
  intros H; unfold reconcile, categories; simpl; unfold rd.
  rewrite !H; reflexivity.
Qed.

Lemma lookup_assign_ne (x y : string) (v : value) (st : store) :
  String.eqb x y = false -> lookup x (assign y v st) = lookup x st.
Proof. intros H; unfold assign; simpl; rewrite H; reflexivity. Qed.

Lemma lookup_assign_eq (x : string) (v : value) (st : store) :
  lookup x (assign x v st) = Some v.
Proof. unfold assign; simpl; rewrite String.eqb_refl; reflexivity. Qed.

Lemma reconcile_games_spec (soup : document) (st0 st : store) :
  run_blocks (category_blocks soup) st0 = Ok st ->
  reconcile_games st = Ok (final_store soup st).
Proof.
  intros H; unfold reconcile_games, final_store.
  destruct operands_by_category as [-> [-> [-> ->]]].
  rewrite (reconcile_max5 _ _ (games_count soup Regular));
    [| intros c; apply (games_at_end soup Regular c st0 st H)].
  cbn [bind].
  rewrite (reconcile_max5 _ _ (started_count soup Regular));
    [| intros c; destruct c; rewrite !lookup_assign_ne by reflexivity;
       apply (games_at_end soup Regular _ st0 st H)].
  cbn [bind].
  rewrite (reconcile_max5 _ _ (games_count soup Post));
    [| intros c; destruct c; rewrite !lookup_assign_ne by reflexivity;
       apply (games_at_end soup Post _ st0 st H)].
  cbn [bind].
  rewrite (reconcile_max5 _ _ (started_count soup Post));
    [| intros c; destruct c; rewrite !lookup_assign_ne by reflexivity;
       apply (games_at_end soup Post _ st0 st H)].
  reflexivity.
Qed.

(** ** The dict literal *)

Lemma build_dict_keys (layout : list (string * string)) (st : store)
      (r : list (string * value)) :
  build_dict layout st = Ok r -> map fst r = map fst layout.
Proof.
  unfold build_dict; revert r.
  induction layout as [|kx layout IH]; intros r; simpl.
  - intros H; injection H as <-; reflexivity.
  - intros H; apply bind_ok in H; destruct H as [kv [H1 H2]].
    apply bind_ok in H1; destruct H1 as [v [_ H1]]; injection H1 as <-.
    apply bind_ok in H2; destruct H2 as [r' [H2 H3]]; injection H3 as <-.
    simpl; rewrite (IH r' H2); reflexivity.
Qed.

Lemma build_dict_lookup (layout : list (string * string)) (st : store)
      (r : list (string * value)) (k x : string) :
  build_dict layout st = Ok r ->
  var_of_key k layout = Some x ->
  lookup k r = lookup x st.
Proof.
  unfold build_dict; revert r.
  induction layout as [|[k0 x0] layout IH]; intros r; simpl; [discriminate|].
  intros H Hk; apply bind_ok in H; destruct H as [kv [H1 H2]].
  apply bind_ok in H1; destruct H1 as [v [Hv H1]]; injection H1 as <-.
  apply bind_ok in H2; destruct H2 as [r' [H2 H3]]; injection H3 as <-.
  simpl in *; destruct (String.eqb k k0).
  - injection Hk as <-; apply rd_ok in Hv; congruence.
  - apply IH; assumption.
Qed.

Lemma build_dict_total (layout : list (string * string)) (st : store) :
  (forall kx, In kx layout -> In (snd kx) (keys st)) ->
  exists r, build_dict layout st = Ok r.
Proof.
  unfold build_dict; induction layout as [|kx layout IH]; intros H; simpl.
  - eauto.
  - destruct (lookup_some (snd kx) st) as [v Hv]; [apply H; left; reflexivity|].
    destruct IH as [r Hr]; [intros kx' Hin; apply H; right; assumption|].
    rewrite Hr; unfold rd; rewrite Hv; simpl; eauto.
Qed.

Lemma layout_bound :
  forallb (fun kx => mem (snd kx) (reconciled_vars ++ all_inits ++ ["weight"; "height"]))
          player_stats_layout = true.
Proof. vm_compute; reflexivity. Qed.

(** ** [player_stats]: lines 146-1227 as a whole *)

(** Once the ten blocks have run, nothing below them raises. *)
Lemma player_stats_after_blocks (soup : document) (height weight : value) (st : store) :
  run_blocks (category_blocks soup) (initial_store height weight) = Ok st ->
  exists r, player_stats soup height weight = Ok r
            /\ build_dict player_stats_layout (final_store soup st) = Ok r.
Proof.
  intros H.
  destruct (build_dict_total player_stats_layout (final_store soup st)) as [r Hr].
  - intros kx Hin.
    pose proof layout_bound as Hb; rewrite forallb_forall in Hb.
    specialize (Hb kx Hin); apply mem_In in Hb.
    destruct (run_blocks_keys _ _ _ H) as [Ha Hi]; rewrite inits_program in Hi.
    change (keys (final_store soup st)) with (reconciled_vars ++ keys st).
    apply in_app_or in Hb; apply in_or_app.
    destruct Hb as [Hb|Hb]; [left; assumption | right].
    apply in_app_or in Hb; destruct Hb as [Hb|Hb];
      [apply Hi; assumption | apply Ha; exact Hb].
  - exists r; split; [|assumption].
    unfold player_stats; fold (initial_store height weight).
    rewrite H; cbn [bind].
    rewrite (reconcile_games_spec soup _ st H); cbn [bind]; assumption.
Qed.

Lemma player_stats_inv (soup : document) (height weight : value)
      (r : list (string * value)) :
  player_stats soup height weight = Ok r ->
  exists st, run_blocks (category_blocks soup) (initial_store height weight) = Ok st
             /\ build_dict player_stats_layout (final_store soup st) = Ok r.
Proof.
  intros H.
  destruct (run_blocks (category_blocks soup) (initial_store height weight))
    as [st|e] eqn:Hb.
  - destruct (player_stats_after_blocks soup height weight st Hb) as [r' [H1 H2]].
    exists st; split; [reflexivity | congruence].
  - unfold player_stats in H; fold (initial_store height weight) in H.
    rewrite Hb in H; discriminate.
Qed.

Lemma player_stats_is_ok (soup : document) (height weight : value) :
  is_ok (player_stats soup height weight)
  = forallb (fun b => is_ok (run_block b [])) (category_blocks soup).
Proof.
  rewrite <- (run_blocks_is_ok _ (initial_store height weight)).
  destruct (run_blocks (category_blocks soup) (initial_store height weight))
    as [st|e] eqn:Hb.
  - destruct (player_stats_after_blocks soup height weight st Hb) as [r [-> _]].
    reflexivity.
  - unfold player_stats; fold (initial_store height weight); rewrite Hb; reflexivity.
Qed.

(** The call of the main program, once the metadata container is there. *)
Lemma extract_with_meta (page : Response) (hw : value * value) :
  height_weight (content page) = Ok hw ->
  extract_player_record page = player_stats (content page) (fst hw) (snd hw).
Proof.
  intros H; unfold extract_player_record, parse_player_stats_page; simpl.
  rewrite H; reflexivity.
Qed.

Lemma extract_inv (page : Response) (r : list (string * value)) :
  extract_player_record page = Ok r ->
  exists hw, height_weight (content page) = Ok hw
             /\ player_stats (content page) (fst hw) (snd hw) = Ok r.
Proof.
  intros H.
  destruct (height_weight (content page)) as [hw|e] eqn:Hm.
  - exists hw; split; [reflexivity|].
    rewrite (extract_with_meta page hw Hm) in H; assumption.
  - unfold extract_player_record, parse_player_stats_page in H; simpl in H.
    rewrite Hm in H; discriminate.
Qed.

(** * The claims *)

(** ** C4: the reconciled games counts *)

Lemma max5_zero : max5 (fun _ => 0%Z) = 0%Z.
Proof. reflexivity. Qed.

Lemma max5_ext (f g : category -> Z) : (forall c, f c = g c) -> max5 f = max5 g.
Proof. intros H; unfold max5; rewrite !H; reflexivity. Qed.

Lemma max5_upper (f : category -> Z) (c : category) : (f c <= max5 f)%Z.
Proof. unfold max5; destruct c; lia. Qed.

Lemma max5_attained (f : category -> Z) : exists c, max5 f = f c.
Proof.
  unfold max5.
  destruct (Z.max_spec (Z.max (Z.max (Z.max (f Games) (f Passing)) (f RushRec)) (f Defense))
                       (f Returns)) as [[_ ->]|[_ ->]]; [exists Returns; reflexivity|].
  destruct (Z.max_spec (Z.max (Z.max (f Games) (f Passing)) (f RushRec)) (f Defense))
    as [[_ ->]|[_ ->]]; [exists Defense; reflexivity|].
  destruct (Z.max_spec (Z.max (f Games) (f Passing)) (f RushRec))
    as [[_ ->]|[_ ->]]; [exists RushRec; reflexivity|].
  destruct (Z.max_spec (f Games) (f Passing)) as [[_ ->]|[_ ->]];
    [exists Passing | exists Games]; reflexivity.
Qed.

Lemma key_vars :
  var_of_key "games_reg" player_stats_layout = Some "player_games_reg"
  /\ var_of_key "games_started_reg" player_stats_layout = Some "player_games_started_reg"
  /\ var_of_key "games_post" player_stats_layout = Some "player_games_post"
  /\ var_of_key "games_started_post" player_stats_layout = Some "player_games_started_post"
  /\ var_of_key "height" player_stats_layout = Some "height"
  /\ var_of_key "weight" player_stats_layout = Some "weight"
  /\ var_of_key "qb_record_reg" player_stats_layout = Some "player_qb_rec_reg"
  /\ var_of_key "qb_record_post" player_stats_layout = Some "player_qb_rec_post".
Proof. vm_compute; repeat split. Qed.

Lemma counts_absent (soup : document) (s : season) (c : category) :
  table_of soup c s = None ->
  games_count soup s c = 0%Z /\ started_count soup s c = 0%Z.
Proof.
  intros Ht; destruct (counters_static s c) as [H1 [_ [H3 _]]].
  apply mem_In in H1; apply mem_In in H3.
  unfold games_count, started_count, counter.
  rewrite (reported_absent (block_of soup c s) _ Ht H1).
  rewrite (reported_absent (block_of soup c s) _ Ht H3).
  split; reflexivity.
Qed.

(** C4.  When the call returns a record, its games and games-started values
    of each season type are each the maximum of the five values the
    categories report (games-played, passing, rushing/receiving, defense,
    returns), every one of which is an integer that its own block yields
    independently of the others; a category whose table is absent reports 0,
    so with all five absent both values are 0; and the maximum of
    [7, 0, 16, 0, 0] is 16. *)
Theorem games_are_max_of_categories (page : Response) (r : list (string * value)) :
  extract_player_record page = Ok r ->
  forall s : season,
    let soup := content page in
    (forall c,
        reported (games_var s c) (block_of soup c s) = Ok (VInt (games_count soup s c))
        /\ reported (started_var s c) (block_of soup c s)
           = Ok (VInt (started_count soup s c)))
    /\ lookup (games_key s) r = Some (VInt (max5 (games_count soup s)))
    /\ lookup (started_key s) r = Some (VInt (max5 (started_count soup s)))
    /\ (forall c, table_of soup c s = None ->
                  games_count soup s c = 0%Z /\ started_count soup s c = 0%Z)
    /\ ((forall c, table_of soup c s = None) ->
        lookup (games_key s) r = Some (VInt 0)
        /\ lookup (started_key s) r = Some (VInt 0))
    /\ py_max (map VInt [7; 0; 16; 0; 0]%Z) = Ok (VInt 16)
    /\ py_max (map VInt [0; 0; 0; 0; 0]%Z) = Ok (VInt 0).
Proof.
  intros H s soup.
  destruct (extract_inv page r H) as [hw [_ Hp]].
  destruct (player_stats_inv _ _ _ _ Hp) as [st [Hb Hd]]; fold soup in Hb, Hd.
  destruct key_vars as [K1 [K2 [K3 [K4 _]]]].
  assert (Hg : lookup (games_key s) r = Some (VInt (max5 (games_count soup s)))).
  { destruct s.
    - change (games_key Regular) with "games_reg".
      rewrite (build_dict_lookup _ _ _ _ _ Hd K1); unfold final_store.
      rewrite !lookup_assign_ne by reflexivity; apply lookup_assign_eq.
    - change (games_key Post) with "games_post".
      rewrite (build_dict_lookup _ _ _ _ _ Hd K3); unfold final_store.
      rewrite !lookup_assign_ne by reflexivity; apply lookup_assign_eq. }
  assert (Hs : lookup (started_key s) r = Some (VInt (max5 (started_count soup s)))).
  { destruct s.
    - change (started_key Regular) with "games_started_reg".
      rewrite (build_dict_lookup _ _ _ _ _ Hd K2); unfold final_store.
      rewrite !lookup_assign_ne by reflexivity; apply lookup_assign_eq.
    - change (started_key Post) with "games_started_post".
      rewrite (build_dict_lookup _ _ _ _ _ Hd K4); unfold final_store.
      apply lookup_assign_eq. }
  split; [|split; [exact Hg|split; [exact Hs|split; [|split; [|split]]]]].
  - intros c; destruct (counters_static s c) as [H1 [H2 [H3 H4]]]; split.
    + apply (counter_at_end soup c s _ _ st H1 H2 Hb).
    + apply (counter_at_end soup c s _ _ st H3 H4 Hb).
  - intros c; apply counts_absent.
  - intros Hnone; rewrite Hg, Hs.
    rewrite (max5_ext (games_count soup s) (fun _ => 0%Z))
      by (intros c; apply (counts_absent soup s c (Hnone c))).
    rewrite (max5_ext (started_count soup s) (fun _ => 0%Z))
      by (intros c; apply (counts_absent soup s c (Hnone c))).
    split; reflexivity.
  - reflexivity.
  - reflexivity.
Qed.

Lemma games_are_max_of_categories_witness :
  extract_player_record Examples.defender = Ok Examples.defender_record
  /\ lookup "games_reg" Examples.defender_record = Some (VInt 16)
  /\ lookup "games_started_reg" Examples.defender_record = Some (VInt 3).
Proof.
  assert (H : extract_player_record Examples.defender = Ok Examples.defender_record)
    by (vm_compute; reflexivity).
  split; [exact H|].
  destruct (games_are_max_of_categories _ _ H Regular) as [_ [Hg [Hs _]]].
  split; [exact Hg | exact Hs].
Defined.

(** ** The record behind a returned call, and its keys *)

Lemma parse_inv (g : globals) (page : Response) (r : list (string * value)) :
  parse_player_stats_page g page = Ok r ->
  exists response hw,
    g_response g = Some response
    /\ height_weight (content response) = Ok hw
    /\ player_stats (content response) (fst hw) (snd hw) = Ok r.
Proof.
  unfold parse_player_stats_page; intros H.
  apply bind_ok in H; destruct H as [_ [_ H]].
  destruct (g_response g) as [response|]; [|discriminate].
  simpl in H; apply bind_ok in H; destruct H as [hw [H1 H2]].
  exists response, hw; auto.
Qed.

Lemma layout_keys_nodup : NoDup (map fst player_stats_layout).
Proof.
  assert (H : forall l : list string,
             (fix nd (l : list string) : bool :=
                match l with
                | [] => true
                | x :: l' => negb (mem x l') && nd l'
                end) l = true -> NoDup l).
  { induction l as [|x l IH]; intros H; [constructor|].
    apply andb_prop in H; destruct H as [Hx Hl].
    constructor; [apply mem_false; apply negb_true_iff; assumption | apply IH; assumption]. }
  apply H; vm_compute; reflexivity.
Qed.

(** ** C6: the metadata container and the biometric pattern *)

(** A variable no block assigns keeps its value across the blocks. *)
Lemma blocks_frame (soup : document) (x : string) (st0 st : store) :
  forallb (fun l => negb (mem x l)) program_vars = true ->
  run_blocks (category_blocks soup) st0 = Ok st ->
  lookup x st = lookup x st0.
Proof.
  intros Hm H; apply (run_blocks_frame _ _ _ _ H); exact Hm.
Qed.

Lemma blocks_all_absent (soup : document) :
  (forall c s, table_of soup c s = None) ->
  forallb (fun b => is_ok (run_block b [])) (category_blocks soup) = true.
Proof.
  intros H; apply forallb_forall; intros b Hb.
  apply in_map_iff in Hb; destruct Hb as [[c s] [<- _]].
  rewrite run_block_absent; [reflexivity | apply H].
Qed.

(** C6.  A page without [<div id="meta">] makes the function raise
    (AttributeError), whatever the global [response] is.  On a page that has
    the container and whose metadata text has no height and weight, the
    biometric step yields the pair (None, None) and raises nothing: the call
    returns exactly when every category block does (so it returns when no
    statistics table is present), and the record it returns has [height] and
    [weight] at None. *)
Theorem meta_container_boundary (page : Response) :
  (find "div" [("id", "meta")] (content page) = None ->
   forall g, parse_player_stats_page g page = Raise AttributeError)
  /\ (forall meta,
         find "div" [("id", "meta")] (content page) = Some meta ->
         re_search pattern (re_sub_plus Space " " (get_text meta)) = None ->
         height_weight (content page) = Ok (VNone, VNone)
         /\ is_ok (extract_player_record page)
            = forallb (fun b => is_ok (run_block b [])) (category_blocks (content page))
         /\ ((forall c s, table_of (content page) c s = None) ->
             is_ok (extract_player_record page) = true)
         /\ (forall r, extract_player_record page = Ok r ->
                       lookup "height" r = Some VNone /\ lookup "weight" r = Some VNone)).
Proof.
  split.
  - intros Hm g; unfold parse_player_stats_page, height_weight; simpl.
    rewrite Hm; reflexivity.
  - intros meta Hm Hs.
    assert (Hhw : height_weight (content page) = Ok (VNone, VNone))
      by (unfold height_weight; rewrite Hm; simpl; rewrite Hs; reflexivity).
    pose proof (extract_with_meta page _ Hhw) as He; simpl in He.
    split; [exact Hhw|]; split; [|split].
    + rewrite He; apply player_stats_is_ok.
    + intros Hnone; rewrite He, player_stats_is_ok; apply blocks_all_absent; exact Hnone.
    + intros r Hr; rewrite He in Hr.
      destruct (player_stats_inv _ _ _ _ Hr) as [st [Hb Hd]].
      destruct key_vars as [_ [_ [_ [_ [K5 [K6 _]]]]]].
      rewrite (build_dict_lookup _ _ _ _ _ Hd K5), (build_dict_lookup _ _ _ _ _ Hd K6).
      unfold final_store; rewrite !lookup_assign_ne by reflexivity.
      rewrite (blocks_frame _ "height" _ _ (eq_refl true) Hb).
      rewrite (blocks_frame _ "weight" _ _ (eq_refl true) Hb).
      split; reflexivity.
Qed.

Lemma meta_container_boundary_witness :
  parse_player_stats_page {| g_response := Some Examples.no_meta |} Examples.no_meta
  = Raise AttributeError
  /\ extract_player_record Examples.no_biometrics = Ok Examples.no_biometrics_record
  /\ lookup "height" Examples.no_biometrics_record = Some VNone
  /\ lookup "weight" Examples.no_biometrics_record = Some VNone.
Proof.
  split.
  - apply (proj1 (meta_container_boundary Examples.no_meta)); vm_compute; reflexivity.
  - assert (H : extract_player_record Examples.no_biometrics
                = Ok Examples.no_biometrics_record) by (vm_compute; reflexivity).
    split; [exact H|].
    refine (proj2 (proj2 (proj2 (proj2 (meta_container_boundary Examples.no_biometrics)
              (Tag "div" [("id", "meta")] [Tag "p" [] [NavigableString "Position: K"]])
              _ _))) _ H); vm_compute; reflexivity.
Defined.

(** ** A malformed cell, and C7 *)

Lemma run_block_raise (b : block) (t : node) (f : field) (c : node) (l : list node)
      (e : exn) :
  table b = Some t ->
  In f (fields b) ->
  cells t (key f) = Ok (c :: l) ->
  coerce (how f) (get_text c) = Raise e ->
  is_ok (run_block b []) = false.
Proof.
  intros Ht Hin Hc He; unfold run_block; rewrite Ht.
  destruct (run_fields_raise t f (fields b) (init_vars (inits b) []) c l e Hin Hc He)
    as [e' ->]; reflexivity.
Qed.

Lemma not_ok_raises {A : Type} (r : result A) : is_ok r = false -> exists e, r = Raise e.
Proof. destruct r as [a|e]; [discriminate | eauto]. Qed.

(** X21.  If a table the function reads (for the postseason rushing table,
    the one lines 619-621 select) has, in its footer, a first cell for one of
    the category's fields whose text the field's conversion rejects ([int]
    or [float] raises on it), the call raises: no record is returned, so no
    default stands in for the cell. *)
Theorem malformed_cell_raises (page : Response) (c : category) (s : season)
        (t : node) (f : field) (cell : node) (rest : list node) (e : exn) :
  table_of (content page) c s = Some t ->
  In f (fields_of c s) ->
  cells t (key f) = Ok (cell :: rest) ->
  coerce (how f) (get_text cell) = Raise e ->
  exists e', extract_player_record page = Raise e'.
Proof.
  intros Ht Hin Hc He; apply not_ok_raises.
  destruct (height_weight (content page)) as [hw|e0] eqn:Hm.
  - rewrite (extract_with_meta page hw Hm), player_stats_is_ok.
    apply not_true_is_false; intros Hall; rewrite forallb_forall in Hall.
    specialize (Hall _ (block_of_in (content page) c s)).
    rewrite (run_block_raise (block_of (content page) c s) t f cell rest e Ht Hin Hc He)
      in Hall; discriminate.
  - unfold extract_player_record, parse_player_stats_page; simpl; rewrite Hm; reflexivity.
Qed.

Lemma malformed_cell_raises_witness :
  exists e', extract_player_record Examples.malformed_cell = Raise e'.
Proof.
  apply (malformed_cell_raises Examples.malformed_cell Passing Regular
           (Examples.stats_table "passing" [Examples.td "pass_att" "n/a"])
           (F "player_pass_att_reg" "pass_att" CInt)
           (Examples.td "pass_att" "n/a") [] ValueError).
  - vm_compute; reflexivity.
  - do 4 right; left; reflexivity.
  - vm_compute; reflexivity.
  - vm_compute; reflexivity.
Defined.

(** C7, at the page [Unread.alternate_id].  The page holds a postseason
    rushing table, under the alternate id, whose attempts cell is present,
    not empty and rejected by [int]; the regular-season table has the
    primary id.  Line 620 tests the regular-season variable, so the
    postseason table is never looked up: the call returns a record, and the
    postseason attempts are the default 0.  With the same table under the
    primary id the call raises ValueError, as the claim says. *)
Theorem malformed_cell_of_unread_table_is_defaulted :
  find_table (content Unread.alternate_id) "receiving_and_rushing_post"
  = Some (Unread.post_table "receiving_and_rushing_post")
  /\ existsb (field_eqb (F "player_rush_att_post" "rush_att" CInt))
             (fields_of RushRec Post) = true
  /\ cell_text (Unread.post_table "receiving_and_rushing_post") "rush_att" = Some "n/a"
  /\ coerce CInt "n/a" = Raise ValueError
  /\ table_of (content Unread.alternate_id) RushRec Post = None
  /\ extract_player_record Unread.alternate_id = Ok Unread.alternate_id_record
  /\ lookup "rush_att_post" Unread.alternate_id_record = Some (VInt 0)
  /\ table_of (content Unread.primary_id) RushRec Post
     = Some (Unread.post_table "rushing_and_receiving_post")
  /\ extract_player_record Unread.primary_id = Raise ValueError.
Proof. vm_compute; repeat split. Qed.

(** ** C8: the default of the quarterback record *)

Lemma qb_static (s : season) :
  var_of_key (qb_key s) player_stats_layout = Some (qb_var s)
  /\ mem (qb_var s) (inits_of Passing s) = true
  /\ writers (qb_var s) (fields_of Passing s) = [F (qb_var s) "qb_rec" CText]
  /\ forallb (fun y => negb (String.eqb (qb_var s) y)) reconciled_vars = true.
Proof. destruct s; vm_compute; repeat split. Qed.

(** C8, as the code has it.  When the call returns a record and the passing
    table of a season type is absent, or present with a footer that has no
    [qb_rec] cell, the quarterback record of that season type is the integer
    0, the same default as the numeric fields. *)
Theorem qb_record_defaults_to_zero (page : Response) (r : list (string * value))
        (s : season) :
  extract_player_record page = Ok r ->
  (table_of (content page) Passing s = None
   \/ exists t, table_of (content page) Passing s = Some t
                /\ cells t "qb_rec" = Ok []) ->
  lookup (qb_key s) r = Some (VInt 0).
Proof.
  intros H Habs.
  destruct (extract_inv page r H) as [hw [_ Hp]].
  destruct (player_stats_inv _ _ _ _ Hp) as [st [Hb Hd]].
  destruct (qb_static s) as [K [Hm [Hw Hr]]].
  rewrite (build_dict_lookup _ _ _ _ _ Hd K).
  assert (Hf : lookup (qb_var s) (final_store (content page) st) = lookup (qb_var s) st).
  { unfold final_store; simpl in Hr.
    repeat (apply andb_prop in Hr; destruct Hr as [?H Hr]).
    rewrite !lookup_assign_ne by (apply negb_true_iff; assumption); reflexivity. }
  rewrite Hf; apply mem_In in Hm.
  destruct (run_blocks_owner _ (block_of (content page) Passing s) (qb_var s) _ _
              (owned_ok_program (content page)) Hb
              (block_of_in (content page) Passing s) Hm) as [d [Hd' ->]].
  unfold run_block in Hd'.
  change (table (block_of (content page) Passing s))
    with (table_of (content page) Passing s) in Hd'.
  change (inits (block_of (content page) Passing s)) with (inits_of Passing s) in Hd'.
  change (fields (block_of (content page) Passing s)) with (fields_of Passing s) in Hd'.
  destruct Habs as [Ht|[t [Ht Hc]]]; rewrite Ht in Hd'.
  - injection Hd' as <-; apply lookup_init_vars; assumption.
  - rewrite (run_fields_untouched t (qb_var s) _ _ _ Hd').
    + apply lookup_init_vars; assumption.
    + rewrite Hw; constructor; [exact Hc | constructor].
Qed.

Lemma qb_record_defaults_to_zero_witness :
  lookup "qb_record_reg" Examples.bare_record = Some (VInt 0).
Proof.
  apply (qb_record_defaults_to_zero Examples.bare Examples.bare_record Regular).
  - vm_compute; reflexivity.
  - left; vm_compute; reflexivity.
Defined.

(** C8 as the specification words it fails on the page [bare], which has no
    passing table: the quarterback record of its record is not a text value. *)
Lemma qb_record_default_not_text :
  ~ (forall r,
        extract_player_record Examples.bare = Ok r ->
        table_of (content Examples.bare) Passing Regular = None ->
        exists v, lookup "qb_record_reg" r = Some v /\ is_text v = true).
Proof.
  intros H.
  destruct (H Examples.bare_record) as [v [Hv Ht]]; try (vm_compute; reflexivity).
  vm_compute in Hv; injection Hv as <-; discriminate.
Qed.

(** ** C1: a cell that is present and empty *)

(** C1, at the page [empty_cell].  Its passing table has a footer whose
    [pass_att] cell is present and empty; the function does not put the
    default 0 there, it raises ValueError, because [int('')] and [float('')]
    raise.  Only the two games-started statements of the games-played tables
    test for the empty text (as on the page [defender], which returns); the
    other 168 numeric statements do not. *)
Theorem empty_numeric_cell_raises :
  table_of (content Examples.empty_cell) Passing Regular
  = Some (Examples.stats_table "passing" [Examples.td_empty "pass_att"])
  /\ cell_text (Examples.stats_table "passing" [Examples.td_empty "pass_att"]) "pass_att"
     = Some EmptyString
  /\ extract_player_record Examples.empty_cell = Raise ValueError
  /\ coerce CInt EmptyString = Raise ValueError
  /\ coerce CFloat EmptyString = Raise ValueError
  /\ coerce CIntBlank EmptyString = Ok (VInt 0)
  /\ extract_player_record Examples.defender = Ok Examples.defender_record
  /\ map var (filter Examples.guarded Examples.all_fields)
     = ["player_games_started_reg_g"; "player_games_started_post_g"]
  /\ length (filter Examples.unguarded_numeric Examples.all_fields) = 168.
Proof. vm_compute; repeat split. Qed.

(** ** C2: the alternate table id of the postseason *)

(** C2, at the pages [mixed_ids] and [post_only].  On [mixed_ids] the
    regular-season table has the primary id and the postseason table the
    alternate id: the primary postseason id is absent, and the alternate is
    never looked up because line 620 tests the regular-season variable, so
    the postseason fields stay at 0 although the table holds 5 attempts.  On
    [post_only] no regular-season table exists and the postseason table has
    the primary id: line 621 then replaces the table found by the (absent)
    alternate one, and the fields stay at 0 as well. *)
Theorem postseason_fallback_tests_regular_table :
  (find_table (content Examples.mixed_ids) "rushing_and_receiving_post" = None
   /\ find_table (content Examples.mixed_ids) "receiving_and_rushing_post"
      = Some (Examples.stats_table "receiving_and_rushing_post" [Examples.td "rush_att" "5"])
   /\ table_of (content Examples.mixed_ids) RushRec Post = None
   /\ extract_player_record Examples.mixed_ids = Ok Examples.mixed_ids_record
   /\ lookup "rush_att_reg" Examples.mixed_ids_record = Some (VInt 9)
   /\ lookup "rush_att_post" Examples.mixed_ids_record = Some (VInt 0))
  /\ (find_table (content Examples.post_only) "rushing_and_receiving_post"
      = Some (Examples.stats_table "rushing_and_receiving_post" [Examples.td "rush_att" "5"])
      /\ table_of (content Examples.post_only) RushRec Post = None
      /\ extract_player_record Examples.post_only = Ok Examples.post_only_record
      /\ lookup "rush_att_post" Examples.post_only_record = Some (VInt 0)).
Proof. vm_compute; repeat split. Qed.

(** What does hold of the rushing and receiving tables: the regular season
    falls back to the alternate id, and the postseason does so when the
    regular-season table is absent under both ids. *)
Lemma rushing_tables (soup : document) :
  (find_table soup "rushing_and_receiving" = None ->
   table_of soup RushRec Regular = find_table soup "receiving_and_rushing")
  /\ (table_of soup RushRec Regular = None ->
      table_of soup RushRec Post = find_table soup "receiving_and_rushing_post")
  /\ (table_of soup RushRec Regular <> None ->
      table_of soup RushRec Post = find_table soup "rushing_and_receiving_post").
Proof.
  simpl; unfold rushing_and_receiving_post, rushing_and_receiving_reg.
  split; [intros ->; reflexivity|]; split.
  - intros ->; reflexivity.
  - destruct (find_table soup "rushing_and_receiving");
      [reflexivity|]; destruct (find_table soup "receiving_and_rushing");
      [reflexivity | intros H; contradiction H; reflexivity].
Qed.

(** ** C3: the global [response] *)

(** C3, at the page [bare].  The record depends on the module global
    [response] that line 131 reads: with the global bound to the page that is
    passed the record is that page's, with the global bound to the page
    [other] the record is the one of [other] although [bare] is passed, and
    with the global unbound the function raises NameError. *)
Theorem record_depends_on_global_response :
  parse_player_stats_page {| g_response := Some Examples.bare |} Examples.bare
  = Ok Examples.bare_record
  /\ parse_player_stats_page {| g_response := Some Examples.other |} Examples.bare
     = Ok Examples.other_record
  /\ lookup "height" Examples.bare_record = Some (VStr "6-2")
  /\ lookup "height" Examples.other_record = Some (VStr "5-9")
  /\ Examples.bare_record <> Examples.other_record
  /\ parse_player_stats_page {| g_response := None |} Examples.bare = Raise NameError.
Proof.
  repeat split; try (vm_compute; reflexivity).
  intros H; apply (f_equal (lookup "height")) in H; vm_compute in H; discriminate.
Qed.

(** ** C10: [scrape_page] and retrieval failures *)

Lemma raise_for_status_spec (response : Response) :
  (400 <= status_code response < 600)%Z
  /\ raise_for_status response = Raise (RequestException HTTPError)
  \/ ~ (400 <= status_code response < 600)%Z
     /\ raise_for_status response = Ok tt.
Proof.
  unfold raise_for_status.
  destruct (400 <=? status_code response)%Z eqn:H1;
    destruct (status_code response <? 600)%Z eqn:H2; simpl;
    rewrite ?Z.leb_le, ?Z.leb_gt, ?Z.ltb_lt, ?Z.ltb_ge in *;
    [left | right | right | right]; split; try reflexivity; lia.
Qed.

(** C10.  [scrape_page] returns the response when the request returns one
    whose status is not an error status, and returns None when the response
    has a 4xx or 5xx status (HTTPError out of [raise_for_status]) or when the
    request raises any [requests] exception (timeout, connection error,
    exhausted retries and the rest).  It raises only what the request raises
    outside that family, so None is the one sign of a retrieval failure. *)
Theorem scrape_page_returns_none_on_failure
        (session_get : string -> result Response) (url : string) :
  (forall response,
      session_get url = Ok response ->
      ~ (400 <= status_code response < 600)%Z ->
      scrape_page session_get url = Ok (Some response))
  /\ (forall response,
         session_get url = Ok response ->
         (400 <= status_code response < 600)%Z ->
         scrape_page session_get url = Ok None)
  /\ (forall k,
         session_get url = Raise (RequestException k) ->
         scrape_page session_get url = Ok None)
  /\ (forall e,
         scrape_page session_get url = Raise e ->
         session_get url = Raise e /\ is_request_exception e = false).
Proof.
  unfold scrape_page; repeat split.
  - intros response -> Hs; simpl.
    destruct (raise_for_status_spec response) as [[H _]|[_ ->]]; [contradiction | reflexivity].
  - intros response -> Hs; simpl.
    destruct (raise_for_status_spec response) as [[_ ->]|[H _]]; [reflexivity | contradiction].
  - intros k ->; reflexivity.
  - destruct (session_get url) as [response|e0]; simpl in *.
    + destruct (raise_for_status_spec response) as [[_ Hr]|[_ Hr]];
        rewrite Hr in H; simpl in H; discriminate.
    + destruct (is_request_exception e0); [discriminate | congruence].
  - destruct (session_get url) as [response|e0]; simpl in *.
    + destruct (raise_for_status_spec response) as [[_ Hr]|[_ Hr]];
        rewrite Hr in H; simpl in H; discriminate.
    + destruct (is_request_exception e0) eqn:Hq; [discriminate | congruence].
Qed.

Lemma scrape_page_returns_none_on_failure_witness :
  scrape_page Examples.serve_bare "https://www.pro-football-reference.com/players/A/"
  = Ok (Some Examples.bare)
  /\ scrape_page (fun _ => Ok {| status_code := 503; content := [] |}) "u" = Ok None
  /\ scrape_page (fun _ => Raise (RequestException RetryError)) "u" = Ok None.
Proof.
  split; [|split].
  - apply (proj1 (scrape_page_returns_none_on_failure Examples.serve_bare _)
             Examples.bare); [reflexivity | simpl; lia].
  - apply (proj1 (proj2 (scrape_page_returns_none_on_failure
                           (fun _ => Ok {| status_code := 503; content := [] |}) "u"))
             {| status_code := 503; content := [] |}); [reflexivity | simpl; lia].
  - apply (proj1 (proj2 (proj2 (scrape_page_returns_none_on_failure
                                  (fun _ => Raise (RequestException RetryError)) "u")))
             RetryError); reflexivity.
Defined.

(** ** C9: the processed flag and the roster file *)

Lemma write_file_other (path p : string) (f : file) (fs : filesystem) :
  String.eqb p path = false -> write_file path f fs p = fs p.
Proof. intros H; unfold write_file; rewrite H; reflexivity. Qed.

Lemma append_csv_other (path p : string) (row : csv_row) (fs : filesystem) :
  String.eqb p path = false -> append_csv path row fs p = fs p.
Proof.
  intros H; unfold append_csv; destruct (fs path); apply write_file_other; assumption.
Qed.

Lemma loop_body_keeps_roster_file (session_get : string -> result Response) (i : Z)
      (df df' : list roster_entry) (fs fs' : filesystem) :
  loop_body session_get i df fs = Ok (df', fs') ->
  fs' PLAYER_LIST_PATH = fs PLAYER_LIST_PATH.
Proof.
  unfold loop_body; intros H.
  apply bind_ok in H; destruct H as [row [_ H]].
  destruct (scraped row); simpl in H; [injection H as _ <-; reflexivity|].
  apply bind_ok in H; destruct H as [response [_ H]].
  destruct response as [response|]; [|injection H as _ <-; reflexivity].
  apply bind_ok in H; destruct H as [stats [_ H]]; injection H as _ <-.
  unfold to_csv; rewrite write_file_other by reflexivity.
  apply append_csv_other; reflexivity.
Qed.

Lemma for_each_player_keeps_roster_file (session_get : string -> result Response)
      (ids : list Z) (df : list roster_entry) (fs : filesystem) :
  fst (for_each_player session_get ids df fs) PLAYER_LIST_PATH = fs PLAYER_LIST_PATH.
Proof.
  revert df fs; induction ids as [|i ids IH]; intros df fs; simpl; [reflexivity|].
  destruct (loop_body session_get i df fs) as [[df' fs']|e] eqn:Hb; [|reflexivity].
  rewrite IH; apply (loop_body_keeps_roster_file _ _ _ _ _ _ Hb).
Qed.

(** C9.  The program never writes the roster file it loads at start: after
    any run, [data/player_list.csv] is what it was, because line 1260 writes
    the marked roster to [player_list.csv].  On the disk [disk1], with one
    player to scrape and the page served, the run stores the player's
    statistics row and leaves the flag unset in the file it will load; the
    marked roster is in the other file.  The next run scrapes the player
    again and stores a second row. *)
Theorem roster_file_is_never_updated :
  (forall session_get fs,
      fst (main session_get fs) PLAYER_LIST_PATH = fs PLAYER_LIST_PATH)
  /\ (let run1 := main Examples.serve_bare Examples.disk1 in
      snd run1 = Ok tt
      /\ fst run1 PLAYER_STATS_PATH = Some [Examples.row1]
      /\ fst run1 PLAYER_LIST_PATH = Some (map RosterRow Examples.roster1)
      /\ fst run1 "player_list.csv" = Some (map RosterRow Examples.roster1_done)
      /\ map scraped Examples.roster1 = [false]
      /\ map scraped Examples.roster1_done = [true]
      /\ let run2 := main Examples.serve_bare (fst run1) in
         snd run2 = Ok tt
         /\ fst run2 PLAYER_STATS_PATH = Some [Examples.row1; Examples.row1]).
Proof.
  split.
  - intros session_get fs; unfold main.
    destruct (read_csv PLAYER_LIST_PATH fs) as [df|e]; [|reflexivity].
    apply for_each_player_keeps_roster_file.
  - vm_compute; repeat split.
Qed.

(** * Further properties of the code *)

(** ** The fields of the record *)

Lemma field_eqb_eq (f g : field) : field_eqb f g = true -> f = g.
Proof.
  destruct f as [x k h], g as [x' k' h']; unfold field_eqb; simpl; intros H.
  apply andb_prop in H; destruct H as [H Hh].
  apply andb_prop in H; destruct H as [Hx Hk].
  apply String.eqb_eq in Hx; apply String.eqb_eq in Hk; subst.
  destruct h, h'; try discriminate; reflexivity.
Qed.

Lemma fields_checked (c : category) (s : season) : fields_check c s = true.
Proof. destruct c, s; vm_compute; reflexivity. Qed.

Lemma field_static (c : category) (s : season) (f : field) :
  In f (fields_of c s) ->
  In (var f) (inits_of c s)
  /\ mem (var f) reconciled_vars = false
  /\ Forall (eq f) (writers (var f) (fields_of c s)).
Proof.
  intros Hin; pose proof (fields_checked c s) as H; unfold fields_check in H.
  apply andb_prop in H; destruct H as [H _].
  apply andb_prop in H; destruct H as [H _].
  rewrite forallb_forall in H; specialize (H f Hin).
  apply andb_prop in H; destruct H as [H Hw].
  apply andb_prop in H; destruct H as [Hi Hr].
  split; [apply mem_In; assumption|]; split; [apply negb_true_iff; assumption|].
  apply Forall_forall; intros g Hg.
  rewrite forallb_forall in Hw; apply field_eqb_eq; apply Hw; assumption.
Qed.

Lemma init_static (c : category) (s : season) (x : string) :
  In x (inits_of c s) -> mem x reconciled_vars = false.
Proof.
  intros Hin; pose proof (fields_checked c s) as H; unfold fields_check in H.
  apply andb_prop in H; destruct H as [H _].
  apply andb_prop in H; destruct H as [_ H].
  rewrite forallb_forall in H; apply negb_true_iff; apply H; assumption.
Qed.

Lemma final_store_frame (soup : document) (st : store) (x : string) :
  mem x reconciled_vars = false ->
  lookup x (final_store soup st) = lookup x st.
Proof.
  intros H; unfold mem, reconciled_vars in H; simpl in H.
  repeat (apply orb_false_elim in H; destruct H as [?H H]).
  unfold final_store; rewrite !lookup_assign_ne by assumption; reflexivity.
Qed.

(** The entry of the record for a variable of a block is what the block
    leaves in the variable when it runs on its own. *)
Lemma record_entry (page : Response) (r : list (string * value))
      (c : category) (s : season) (k x : string) :
  extract_player_record page = Ok r ->
  In x (inits_of c s) ->
  var_of_key k player_stats_layout = Some x ->
  exists d, run_block (block_of (content page) c s) [] = Ok d
            /\ lookup k r = lookup x d.
Proof.
  intros H Hx Hk.
  destruct (extract_inv page r H) as [hw [_ Hp]].
  destruct (player_stats_inv _ _ _ _ Hp) as [st [Hb Hd]].
  rewrite (build_dict_lookup _ _ _ _ _ Hd Hk).
  rewrite (final_store_frame _ _ _ (init_static c s x Hx)).
  destruct (run_blocks_owner _ (block_of (content page) c s) x _ _
              (owned_ok_program (content page)) Hb
              (block_of_in (content page) c s) Hx) as [d [Hd' Hl]].
  exists d; split; assumption.
Qed.

Lemma run_block_of (soup : document) (c : category) (s : season) :
  run_block (block_of soup c s) []
  = match table_of soup c s with
    | None => Ok (init_vars (inits_of c s) [])
    | Some t => run_fields t (fields_of c s) (init_vars (inits_of c s) [])
    end.
Proof. reflexivity. Qed.

(** After a run of statements, a variable whose writers are all the
    statement [f], of which one was run on a cell, holds the conversion of
    the text of that cell. *)
Lemma run_fields_written (t : node) (f : field) (fs : list field) (d d' : store)
      (c : node) (l : list node) :
  run_fields t fs d = Ok d' ->
  Forall (eq f) (writers (var f) fs) ->
  cells t (key f) = Ok (c :: l) ->
  In f fs
  \/ (exists v, coerce (how f) (get_text c) = Ok v /\ lookup (var f) d = Some v) ->
  exists v, coerce (how f) (get_text c) = Ok v /\ lookup (var f) d' = Some v.
Proof.
  intros H Hw Hc; revert d H.
  induction fs as [|g fs IH]; intros d H Hstart; simpl in H.
  - injection H as <-; destruct Hstart as [[]|Hv]; assumption.
  - apply bind_ok in H; destruct H as [d1 [H1 H2]].
    assert (Hrest : Forall (eq f) (writers (var f) fs)).
    { unfold writers in *; simpl in Hw.
      destruct (String.eqb (var g) (var f)); [inversion Hw; assumption | assumption]. }
    apply (IH Hrest d1 H2); clear IH H2.
    destruct (String.eqb_spec (var g) (var f)) as [Hgf|Hgf].
    + (* [g] writes the variable: it is [f] *)
      assert (g = f).
      { unfold writers in Hw; simpl in Hw; rewrite Hgf, String.eqb_refl in Hw.
        inversion Hw; congruence. }
      subst g; right.
      unfold field_stmt in H1; rewrite Hc in H1; simpl in H1.
      destruct (coerce (how f) (get_text c)) as [v|e]; simpl in H1; [|discriminate].
      injection H1 as <-; exists v; split; [reflexivity | apply lookup_assign_eq].
    + destruct Hstart as [[->|Hin]|[v [Hv Hl]]].
      * contradiction Hgf; reflexivity.
      * left; assumption.
      * right; exists v; split; [assumption|].
        unfold field_stmt in H1.
        destruct (cells t (key g)) as [[|c' l']|e]; simpl in H1; try discriminate.
        -- injection H1 as <-; assumption.
        -- destruct (coerce (how g) (get_text c')) as [v'|e]; simpl in H1; [|discriminate].
           injection H1 as <-; rewrite lookup_assign_ne; [assumption|].
           apply String.eqb_neq; congruence.
Qed.

(** X1.  When the call returns a record and the table of a category block
    is absent, every key of the record that the dict literal fills from a
    variable of that block holds the integer 0. *)
Theorem absent_table_gives_zeros (page : Response) (r : list (string * value))
        (c : category) (s : season) (k x : string) :
  extract_player_record page = Ok r ->
  table_of (content page) c s = None ->
  In x (inits_of c s) ->
  var_of_key k player_stats_layout = Some x ->
  lookup k r = Some (VInt 0).
Proof.
  intros H Ht Hx Hk.
  destruct (record_entry page r c s k x H Hx Hk) as [d [Hd ->]].
  rewrite run_block_of, Ht in Hd; injection Hd as <-.
  apply lookup_init_vars; assumption.
Qed.

Lemma absent_table_gives_zeros_witness :
  lookup "pass_att_reg" Examples.defender_record = Some (VInt 0).
Proof.
  apply (absent_table_gives_zeros Examples.defender Examples.defender_record
           Passing Regular "pass_att_reg" "player_pass_att_reg").
  - vm_compute; reflexivity.
  - vm_compute; reflexivity.
  - apply mem_In; vm_compute; reflexivity.
  - vm_compute; reflexivity.
Defined.

Lemma cell_text_cells (t : node) (k txt : string) :
  cell_text t k = Some txt ->
  exists c l, cells t k = Ok (c :: l) /\ get_text c = txt.
Proof.
  unfold cell_text; destruct (cells t k) as [[|c l]|e]; try discriminate.
  intros H; injection H as <-; eauto.
Qed.

(** X2.  When the call returns a record, a field statement of a block whose
    table is present and whose cell is found in the footer puts the
    conversion of the text of that cell (of the first such cell) under its
    key of the record. *)
Theorem present_cell_is_converted (page : Response) (r : list (string * value))
        (c : category) (s : season) (t : node) (f : field) (txt k : string) :
  extract_player_record page = Ok r ->
  table_of (content page) c s = Some t ->
  In f (fields_of c s) ->
  cell_text t (key f) = Some txt ->
  var_of_key k player_stats_layout = Some (var f) ->
  exists v, coerce (how f) txt = Ok v /\ lookup k r = Some v.
Proof.
  intros H Ht Hf Hc Hk.
  destruct (field_static c s f Hf) as [Hx [_ Hw]].
  destruct (record_entry page r c s k (var f) H Hx Hk) as [d [Hd ->]].
  rewrite run_block_of, Ht in Hd.
  destruct (cell_text_cells t (key f) txt Hc) as [cell [l [Hcells <-]]].
  apply (run_fields_written t f _ _ d cell l Hd Hw Hcells); left; assumption.
Qed.

Lemma present_cell_is_converted_witness :
  exists v, coerce CFloat "4.5" = Ok v
            /\ lookup "sacks_reg" Examples.defender_record = Some v.
Proof.
  apply (present_cell_is_converted Examples.defender Examples.defender_record
           Defense Regular
           (Examples.stats_table "defense"
              [Examples.td "games" "16"; Examples.td "games_started" "3";
               Examples.td "sacks" "4.5"])
           (F "player_sacks_reg" "sacks" CFloat) "4.5" "sacks_reg").
  - vm_compute; reflexivity.
  - vm_compute; reflexivity.
  - do 12 right; left; reflexivity.
  - vm_compute; reflexivity.
  - vm_compute; reflexivity.
Defined.

(** X3.  When the call returns a record, a field statement of a block whose
    table is present with a footer that has no cell for the statement's key
    leaves the integer 0 under its key of the record. *)
Theorem absent_cell_gives_zero (page : Response) (r : list (string * value))
        (c : category) (s : season) (t : node) (f : field) (k : string) :
  extract_player_record page = Ok r ->
  table_of (content page) c s = Some t ->
  In f (fields_of c s) ->
  cells t (key f) = Ok [] ->
  var_of_key k player_stats_layout = Some (var f) ->
  lookup k r = Some (VInt 0).
Proof.
  intros H Ht Hf Hc Hk.
  destruct (field_static c s f Hf) as [Hx [_ Hw]].
  destruct (record_entry page r c s k (var f) H Hx Hk) as [d [Hd ->]].
  rewrite run_block_of, Ht in Hd.
  rewrite (run_fields_untouched t (var f) _ _ _ Hd).
  - apply lookup_init_vars; assumption.
  - apply Forall_forall; intros g Hg.
    rewrite Forall_forall in Hw; rewrite <- (Hw g Hg); assumption.
Qed.

Lemma absent_cell_gives_zero_witness :
  lookup "def_int_reg" Examples.defender_record = Some (VInt 0).
Proof.
  apply (absent_cell_gives_zero Examples.defender Examples.defender_record
           Defense Regular
           (Examples.stats_table "defense"
              [Examples.td "games" "16"; Examples.td "games_started" "3";
               Examples.td "sacks" "4.5"])
           (F "player_def_int_reg" "def_int" CInt) "def_int_reg").
  - vm_compute; reflexivity.
  - vm_compute; reflexivity.
  - do 2 right; left; reflexivity.
  - vm_compute; reflexivity.
  - vm_compute; reflexivity.
Defined.

(** X4.  A table that a block reads and that has no [tfoot] makes the call
    raise: the first field statement of the block is [None.find_all]. *)
Theorem table_without_footer_raises (page : Response) (c : category) (s : season)
        (t : node) :
  table_of (content page) c s = Some t ->
  tag_find "tfoot" [] t = None ->
  run_block (block_of (content page) c s) [] = Raise AttributeError
  /\ exists e, extract_player_record page = Raise e.
Proof.
  intros Ht Hf.
  assert (Hb : run_block (block_of (content page) c s) [] = Raise AttributeError).
  { rewrite run_block_of, Ht.
    destruct (fields_of c s) as [|f fs] eqn:Hfs;
      [destruct c, s; discriminate|].
    simpl; unfold field_stmt, cells; rewrite Hf; reflexivity. }
  split; [exact Hb|]; apply not_ok_raises.
  destruct (height_weight (content page)) as [hw|e0] eqn:Hm.
  - rewrite (extract_with_meta page hw Hm), player_stats_is_ok.
    apply not_true_is_false; intros Hall; rewrite forallb_forall in Hall.
    specialize (Hall _ (block_of_in (content page) c s)).
    rewrite Hb in Hall; discriminate.
  - unfold extract_player_record, parse_player_stats_page; simpl; rewrite Hm; reflexivity.
Qed.

Lemma table_without_footer_raises_witness :
  exists e,
    extract_player_record
      (Examples.page [Examples.meta_div "K 5-9, 180lb";
                      Tag "table" [("id", "returns")] [Tag "tbody" [] []]])
    = Raise e.
Proof.
  apply (table_without_footer_raises
           (Examples.page [Examples.meta_div "K 5-9, 180lb";
                           Tag "table" [("id", "returns")] [Tag "tbody" [] []]])
           Returns Regular (Tag "table" [("id", "returns")] [Tag "tbody" [] []])).
  - vm_compute; reflexivity.
  - vm_compute; reflexivity.
Defined.

(** X5.  When the page that is passed has the metadata container, the result
    is the result of the call on the page the global [response] is bound to:
    the page that is passed contributes nothing else. *)
Theorem result_is_that_of_global_response (g : globals) (page response : Response) :
  find "div" [("id", "meta")] (content page) <> None ->
  g_response g = Some response ->
  parse_player_stats_page g page = extract_player_record response.
Proof.
  intros Hm Hg; unfold extract_player_record, parse_player_stats_page; simpl.
  rewrite Hg.
  assert (Hp : exists hw, height_weight (content page) = Ok hw).
  { unfold height_weight.
    destruct (find "div" [("id", "meta")] (content page)) as [meta|];
      [|contradiction Hm; reflexivity].
    simpl; destruct (re_search pattern _); eauto. }
  destruct Hp as [hw ->]; simpl.
  destruct (height_weight (content response)); reflexivity.
Qed.

Lemma result_is_that_of_global_response_witness :
  parse_player_stats_page {| g_response := Some Examples.defender |} Examples.bare
  = extract_player_record Examples.defender.
Proof.
  apply (result_is_that_of_global_response
           {| g_response := Some Examples.defender |} Examples.bare Examples.defender).
  - vm_compute; discriminate.
  - reflexivity.
Defined.

(** ** [scrape_page], from its result *)

(** X6.  A response that [scrape_page] returns is the one the request
    returned, and its status is not an error status; when [scrape_page]
    returns None, the request raised an exception of [requests] or returned
    a response with a 4xx or 5xx status. *)
Theorem scrape_page_result_inversion (session_get : string -> result Response)
        (url : string) :
  (forall response,
      scrape_page session_get url = Ok (Some response) ->
      session_get url = Ok response /\ ~ (400 <= status_code response < 600)%Z)
  /\ (scrape_page session_get url = Ok None ->
      (exists k, session_get url = Raise (RequestException k))
      \/ (exists response, session_get url = Ok response
                           /\ (400 <= status_code response < 600)%Z)).
Proof.
  unfold scrape_page; split.
  - intros response H.
    destruct (session_get url) as [r|e]; simpl in H.
    + destruct (raise_for_status_spec r) as [[Hs Hr]|[Hs Hr]]; rewrite Hr in H; simpl in H.
      * discriminate.
      * injection H as <-; split; [reflexivity | assumption].
    + destruct (is_request_exception e); discriminate.
  - intros H.
    destruct (session_get url) as [r|e]; simpl in H.
    + destruct (raise_for_status_spec r) as [[Hs Hr]|[Hs Hr]]; rewrite Hr in H; simpl in H.
      * right; exists r; split; [reflexivity | assumption].
      * discriminate.
    + destruct e; simpl in H; try discriminate; left; eauto.
Qed.

Lemma scrape_page_result_inversion_witness :
  Examples.serve_bare "u" = Ok Examples.bare
  /\ ~ (400 <= status_code Examples.bare < 600)%Z.
Proof.
  apply (proj1 (scrape_page_result_inversion Examples.serve_bare "u") Examples.bare).
  vm_compute; reflexivity.
Defined.

(** ** The main loop and the files *)

Lemma loop_body_other_paths (session_get : string -> result Response) (i : Z)
      (df df' : list roster_entry) (fs fs' : filesystem) (p : string) :
  String.eqb p PLAYER_STATS_PATH = false ->
  String.eqb p "player_list.csv" = false ->
  loop_body session_get i df fs = Ok (df', fs') ->
  fs' p = fs p.
Proof.
  intros Hp1 Hp2; unfold loop_body; intros H.
  apply bind_ok in H; destruct H as [row [_ H]].
  destruct (scraped row); simpl in H; [injection H as _ <-; reflexivity|].
  apply bind_ok in H; destruct H as [response [_ H]].
  destruct response as [response|]; [|injection H as _ <-; reflexivity].
  apply bind_ok in H; destruct H as [stats [_ H]]; injection H as _ <-.
  unfold to_csv; rewrite write_file_other by assumption.
  apply append_csv_other; assumption.
Qed.

(** X7.  A run of the main loop writes two files only: every path other than
    [data/player_stats.csv] and [player_list.csv] holds after the run what
    it held before, however the run ends. *)
Theorem main_touches_two_files_only (session_get : string -> result Response)
        (fs : filesystem) (p : string) :
  p <> PLAYER_STATS_PATH ->
  p <> "player_list.csv" ->
  fst (main session_get fs) p = fs p.
Proof.
  intros Hp1 Hp2; apply String.eqb_neq in Hp1; apply String.eqb_neq in Hp2.
  unfold main; destruct (read_csv PLAYER_LIST_PATH fs) as [df|e]; [|reflexivity].
  generalize (map player_id df) as ids; intros ids; revert df fs.
  induction ids as [|i ids IH]; intros df fs; simpl; [reflexivity|].
  destruct (loop_body session_get i df fs) as [[df' fs']|e] eqn:Hb; [|reflexivity].
  rewrite IH; apply (loop_body_other_paths _ _ _ _ _ _ _ Hp1 Hp2 Hb).
Qed.

Lemma main_touches_two_files_only_witness :
  fst (main Examples.serve_bare Examples.disk1) "data/notes.txt"
  = Examples.disk1 "data/notes.txt".
Proof.
  apply (main_touches_two_files_only Examples.serve_bare Examples.disk1 "data/notes.txt").
  - vm_compute; discriminate.
  - vm_compute; discriminate.
Defined.

Lemma appended_step (o : option file) (row : csv_row) (rows : file) :
  appended (appended o [row]) rows = appended o (row :: rows).
Proof.
  destruct rows as [|r rows]; [reflexivity|].
  destruct o as [old|]; simpl; [rewrite <- app_assoc|]; reflexivity.
Qed.

Lemma append_csv_same (path : string) (row : csv_row) (fs : filesystem) :
  append_csv path row fs path = appended (fs path) [row].
Proof.
  unfold append_csv, appended, write_file.
  destruct (fs path); rewrite String.eqb_refl; reflexivity.
Qed.

Lemma loop_body_stats (session_get : string -> result Response) (i : Z)
      (df df' : list roster_entry) (fs fs' : filesystem) :
  loop_body session_get i df fs = Ok (df', fs') ->
  exists rows, fs' PLAYER_STATS_PATH = appended (fs PLAYER_STATS_PATH) rows.
Proof.
  unfold loop_body; intros H.
  apply bind_ok in H; destruct H as [row [_ H]].
  destruct (scraped row); simpl in H; [injection H as _ <-; exists []; reflexivity|].
  apply bind_ok in H; destruct H as [response [_ H]].
  destruct response as [response|]; [|injection H as _ <-; exists []; reflexivity].
  apply bind_ok in H; destruct H as [stats [_ H]]; injection H as _ <-.
  eexists [_]; unfold to_csv; rewrite write_file_other by reflexivity.
  apply append_csv_same.
Qed.

Lemma appended_app (o : option file) (rows rows' : file) :
  appended (appended o rows) rows' = appended o (rows ++ rows').
Proof.
  destruct rows as [|r rows]; [reflexivity|].
  destruct rows' as [|r' rows']; [rewrite app_nil_r; reflexivity|].
  destruct o as [old|]; simpl; [rewrite <- app_assoc|]; reflexivity.
Qed.

(** X8.  The statistics file only grows: after a run of the main loop,
    however it ends, the file holds the rows it held before, followed by
    the rows the run added; a run never drops or rewrites a stored row. *)
Theorem stats_file_is_append_only (session_get : string -> result Response)
        (fs : filesystem) :
  exists rows,
    fst (main session_get fs) PLAYER_STATS_PATH = appended (fs PLAYER_STATS_PATH) rows.
Proof.
  unfold main; destruct (read_csv PLAYER_LIST_PATH fs) as [df|e];
    [|exists []; reflexivity].
  generalize (map player_id df) as ids; intros ids; revert df fs.
  induction ids as [|i ids IH]; intros df fs; simpl; [exists []; reflexivity|].
  destruct (loop_body session_get i df fs) as [[df' fs']|e] eqn:Hb;
    [|exists []; reflexivity].
  destruct (IH df' fs') as [rows' Hr]; destruct (loop_body_stats _ _ _ _ _ _ Hb) as [rows H1].
  exists (rows ++ rows'); rewrite Hr, H1; apply appended_app.
Qed.

(** ** The main loop on a numbered roster *)

Lemma numbered_ext (i : Z) (df df' : list roster_entry) :
  map player_id df = map player_id df' -> numbered_from i df -> numbered_from i df'.
Proof.
  revert i df'; induction df as [|e df IH]; intros i [|e' df'] H; simpl in *;
    try discriminate; [trivial|].
  injection H as He Hd; intros [Hi Hn]; split; [congruence | eapply IH; eassumption].
Qed.

Lemma numbered_app (i : Z) (pre es : list roster_entry) :
  numbered_from i (pre ++ es) ->
  numbered_from i pre /\ numbered_from (i + Z.of_nat (length pre)) es.
Proof.
  revert i; induction pre as [|e pre IH]; intros i; simpl.
  - intros H; split; [trivial|]; rewrite Z.add_0_r; assumption.
  - intros [Hi H]; apply IH in H; destruct H as [Ha Hb]; repeat split; try assumption.
    replace (i + Z.pos (Pos.of_succ_nat (length pre)))%Z
      with (i + 1 + Z.of_nat (length pre))%Z by lia; assumption.
Qed.

Lemma numbered_above (i j : Z) (df : list roster_entry) :
  (j < i)%Z -> numbered_from i df -> Forall (fun e => player_id e <> j) df.
Proof.
  revert i; induction df as [|e df IH]; intros i Hj; simpl; [constructor|].
  intros [Hi Hn]; constructor; [lia | apply (IH (i + 1)%Z); [lia | assumption]].
Qed.

Lemma numbered_below (i : Z) (df : list roster_entry) :
  numbered_from i df ->
  Forall (fun e => (player_id e < i + Z.of_nat (length df))%Z) df.
Proof.
  revert i; induction df as [|e df IH]; intros i; simpl; [constructor|].
  intros [Hi Hn]; constructor; [lia|].
  apply IH in Hn; revert Hn; apply Forall_impl; intros a Ha; lia.
Qed.

Lemma mark_scraped_none (j : Z) (df : list roster_entry) :
  Forall (fun e => player_id e <> j) df -> mark_scraped j df = df.
Proof.
  unfold mark_scraped; induction 1 as [|e df He _ IH]; simpl; [reflexivity|].
  apply Z.eqb_neq in He; rewrite He, IH; reflexivity.
Qed.

(** On a numbered roster, marking the player of a row changes that row
    only. *)
Lemma mark_scraped_row (i : Z) (pre es : list roster_entry) (e : roster_entry) :
  numbered_from i (pre ++ e :: es) ->
  mark_scraped (player_id e) (pre ++ e :: es) = pre ++ set_scraped e :: es.
Proof.
  intros H; apply numbered_app in H; destruct H as [Hpre [He Hes]].
  unfold mark_scraped; rewrite map_app; simpl; rewrite Z.eqb_refl.
  fold (mark_scraped (player_id e) pre) (mark_scraped (player_id e) es).
  rewrite (mark_scraped_none _ es), (mark_scraped_none _ pre); [reflexivity| |].
  - apply numbered_below in Hpre; revert Hpre; apply Forall_impl; intros a Ha; lia.
  - apply (numbered_above (i + Z.of_nat (length pre) + 1)%Z); [lia | assumption].
Qed.

Lemma at_label_row (pre es : list roster_entry) (e : roster_entry) :
  numbered_from 1 (pre ++ e :: es) ->
  at_label (pre ++ e :: es) (player_id e - 1) = Ok e.
Proof.
  intros H; apply numbered_app in H; destruct H as [_ [He _]].
  unfold at_label; rewrite He.
  replace (1 + Z.of_nat (length pre) - 1)%Z with (Z.of_nat (length pre)) by lia.
  destruct (Z.ltb_spec (Z.of_nat (length pre)) 0); [lia|].
  rewrite Nat2Z.id, nth_error_app2 by lia.
  rewrite Nat.sub_diag; reflexivity.
Qed.

Lemma final_entry_id (session_get : string -> result Response) (df : list roster_entry) :
  map player_id (map (final_entry session_get) df) = map player_id df.
Proof.
  induction df as [|e df IH]; simpl; [reflexivity|]; rewrite IH; f_equal.
  unfold final_entry; destruct (player_outcome session_get e) as [[row|]|]; reflexivity.
Qed.

Lemma final_entry_unchanged (session_get : string -> result Response)
      (df : list roster_entry) :
  new_rows session_get df = [] -> map (final_entry session_get) df = df.
Proof.
  induction df as [|e df IH]; simpl; [reflexivity|]; intros H.
  apply app_eq_nil in H; destruct H as [He Hd]; rewrite (IH Hd); f_equal.
  unfold final_entry; destruct (player_outcome session_get e) as [[row|]|];
    [discriminate | reflexivity | reflexivity].
Qed.

(** The body of the loop for a row of a numbered roster, from the row. *)
Lemma loop_body_outcome (session_get : string -> result Response)
      (pre es : list roster_entry) (e : roster_entry) (fs : filesystem) :
  numbered_from 1 (pre ++ e :: es) ->
  loop_body session_get (player_id e) (pre ++ e :: es) fs
  = match player_outcome session_get e with
    | Ok None => Ok (pre ++ e :: es, fs)
    | Ok (Some row) =>
        Ok (pre ++ set_scraped e :: es,
            to_csv "player_list.csv" (pre ++ set_scraped e :: es)
                   (append_csv PLAYER_STATS_PATH row fs))
    | Raise err => Raise err
    end.
Proof.
  intros Hn; unfold loop_body, player_outcome.
  rewrite (at_label_row _ _ _ Hn); cbn [bind].
  destruct (scraped e); cbn [negb]; [reflexivity|].
  destruct (scrape_page session_get (BASE_URL (link e))) as [[response|]|err];
    cbn [bind]; try reflexivity.
  destruct (parse_player_stats_page {| g_response := Some response |} response)
    as [stats|err]; cbn [bind]; [|reflexivity].
  rewrite (mark_scraped_row 1 _ _ _ Hn); reflexivity.
Qed.

(** The loop, from any point of a numbered roster on: [pre] are the rows
    already handled, [es] the rows still to come. *)
Lemma loop_on_numbered (session_get : string -> result Response)
      (es pre : list roster_entry) (fs : filesystem) :
  numbered_from 1 (pre ++ es) ->
  Forall (fun e => is_ok (player_outcome session_get e) = true) es ->
  let run := for_each_player session_get (map player_id es)
                             (map (final_entry session_get) pre ++ es) fs in
  snd run = Ok tt
  /\ fst run PLAYER_STATS_PATH
     = appended (fs PLAYER_STATS_PATH) (new_rows session_get es)
  /\ (new_rows session_get es <> [] ->
      fst run "player_list.csv"
      = Some (map RosterRow (map (final_entry session_get) (pre ++ es))))
  /\ (new_rows session_get es = [] -> forall p, fst run p = fs p).
Proof.
  revert pre fs; induction es as [|e es IH]; intros pre fs Hn Hok.
  - simpl; split; [reflexivity|]; split; [reflexivity|]; split.
    + intros H; contradiction H; reflexivity.
    + intros _ p; reflexivity.
  - inversion Hok as [|e0 es0 He Hes]; subst.
    assert (Hn' : numbered_from 1 (map (final_entry session_get) pre ++ e :: es)).
    { apply (numbered_ext 1 (pre ++ e :: es)); [|assumption].
      rewrite !map_app, final_entry_id; reflexivity. }
    assert (Hpre : pre ++ e :: es = (pre ++ [e]) ++ es)
      by (rewrite <- app_assoc; reflexivity).
    assert (Hmap : map (final_entry session_get) (pre ++ [e]) ++ es
                   = map (final_entry session_get) pre ++ final_entry session_get e :: es)
      by (rewrite map_app, <- app_assoc; reflexivity).
    rewrite Hpre in Hn.
    cbn zeta; cbn [map for_each_player].
    rewrite (loop_body_outcome _ _ _ _ _ Hn').
    unfold new_rows; cbn [flat_map]; fold (new_rows session_get es).
    destruct (player_outcome session_get e) as [[row|]|err] eqn:Ho; [| |discriminate].
    + (* a statistics row is stored *)
      set (fs' := to_csv "player_list.csv"
                         (map (final_entry session_get) pre ++ set_scraped e :: es)
                         (append_csv PLAYER_STATS_PATH row fs)).
      assert (Hfe : final_entry session_get e = set_scraped e)
        by (unfold final_entry; rewrite Ho; reflexivity).
      specialize (IH (pre ++ [e]) fs' Hn Hes); cbn zeta in IH.
      rewrite Hmap, Hfe in IH.
      destruct IH as [I1 [I2 [I3 I4]]].
      assert (Hfs' : fs' PLAYER_STATS_PATH = appended (fs PLAYER_STATS_PATH) [row]).
      { unfold fs', to_csv; rewrite write_file_other by reflexivity.
        apply append_csv_same. }
      split; [exact I1|]; split; [|split].
      * rewrite I2, Hfs'; apply appended_step.
      * intros _.
        destruct (new_rows session_get es) as [|r rows] eqn:Hrows.
        -- rewrite (I4 eq_refl); unfold fs', to_csv, write_file.
           rewrite String.eqb_refl; do 2 f_equal.
           rewrite map_app; cbn [map]; rewrite Hfe.
           rewrite (final_entry_unchanged _ es Hrows); reflexivity.
        -- rewrite I3 by discriminate; rewrite <- Hpre; reflexivity.
      * intros H; discriminate.
    + (* nothing is stored for the row *)
      assert (Hfe : final_entry session_get e = e)
        by (unfold final_entry; rewrite Ho; reflexivity).
      specialize (IH (pre ++ [e]) fs Hn Hes); cbn zeta in IH.
      rewrite Hmap, Hfe in IH.
      rewrite <- Hpre in IH; exact IH.
Qed.

(** X9.  On a roster whose ids count its rows from 1, when no player makes
    the run raise, the run ends normally and its effect is what each row says
    on its own, whatever was marked before it in the same run: the
    statistics file gains one row for each player that is not flagged and
    whose page is retrieved, in roster order; if there is such a player,
    [player_list.csv] holds the roster with exactly those players flagged;
    if there is none, no file changes. *)
Theorem run_over_numbered_roster (session_get : string -> result Response)
        (fs : filesystem) (df : list roster_entry) :
  read_csv PLAYER_LIST_PATH fs = Ok df ->
  numbered_from 1 df ->
  Forall (fun e => is_ok (player_outcome session_get e) = true) df ->
  let run := main session_get fs in
  snd run = Ok tt
  /\ fst run PLAYER_STATS_PATH
     = appended (fs PLAYER_STATS_PATH) (new_rows session_get df)
  /\ (new_rows session_get df <> [] ->
      fst run "player_list.csv"
      = Some (map RosterRow (map (final_entry session_get) df)))
  /\ (new_rows session_get df = [] -> forall p, fst run p = fs p).
Proof.
  intros Hr Hn Hok; unfold main; rewrite Hr.
  exact (loop_on_numbered session_get df [] fs Hn Hok).
Qed.

Lemma run_over_numbered_roster_witness :
  snd (main Listing.serve Listing.disk2) = Ok tt
  /\ fst (main Listing.serve Listing.disk2) PLAYER_STATS_PATH
     = appended (Listing.disk2 PLAYER_STATS_PATH)
                (new_rows Listing.serve Listing.two_players).
Proof.
  assert (Hr : read_csv PLAYER_LIST_PATH Listing.disk2 = Ok Listing.two_players)
    by (vm_compute; reflexivity).
  assert (Hn : numbered_from 1 Listing.two_players)
    by (simpl; repeat split; reflexivity).
  assert (Hok : Forall (fun e => is_ok (player_outcome Listing.serve e) = true)
                       Listing.two_players)
    by (repeat constructor; vm_compute; reflexivity).
  destruct (run_over_numbered_roster Listing.serve Listing.disk2 Listing.two_players
              Hr Hn Hok) as [H1 [H2 _]].
  split; [exact H1 | exact H2].
Defined.

(** X10.  A run with nothing to do changes nothing: on a roster whose ids
    count its rows from 1, if every player is flagged or has a page that
    [scrape_page] cannot retrieve, the run ends normally, every file holds
    what it held, and no flag is set. *)
Theorem run_with_nothing_to_do (session_get : string -> result Response)
        (fs : filesystem) (df : list roster_entry) :
  read_csv PLAYER_LIST_PATH fs = Ok df ->
  numbered_from 1 df ->
  Forall (fun e => scraped e = true
                   \/ scrape_page session_get (BASE_URL (link e)) = Ok None) df ->
  snd (main session_get fs) = Ok tt
  /\ forall p, fst (main session_get fs) p = fs p.
Proof.
  intros Hr Hn Hall.
  assert (Hout : Forall (fun e => player_outcome session_get e = Ok None) df).
  { revert Hall; apply Forall_impl; intros e [He|He]; unfold player_outcome.
    - rewrite He; reflexivity.
    - destruct (scraped e); [reflexivity | rewrite He; reflexivity]. }
  assert (Hok : Forall (fun e => is_ok (player_outcome session_get e) = true) df)
    by (revert Hout; apply Forall_impl; intros e ->; reflexivity).
  assert (Hnew : new_rows session_get df = []).
  { clear - Hout; unfold new_rows; induction Hout as [|e df He _ IH]; simpl;
      [reflexivity | rewrite He, IH; reflexivity]. }
  unfold main; rewrite Hr.
  destruct (loop_on_numbered session_get df [] fs Hn Hok) as [H1 [_ [_ H4]]].
  split; [exact H1 | exact (H4 Hnew)].
Qed.

Lemma run_with_nothing_to_do_witness :
  snd (main Listing.nothing_served Listing.disk2) = Ok tt
  /\ forall p, fst (main Listing.nothing_served Listing.disk2) p = Listing.disk2 p.
Proof.
  apply (run_with_nothing_to_do Listing.nothing_served Listing.disk2 Listing.two_players).
  - vm_compute; reflexivity.
  - simpl; repeat split; reflexivity.
  - constructor; [right; vm_compute; reflexivity|].
    constructor; [left; reflexivity | constructor].
Defined.

(** ** The listing pages *)

Lemma mapM_raise {A B : Type} (f : A -> result B) (l : list A) (a : A) (e : exn) :
  In a l -> f a = Raise e -> exists e', mapM f l = Raise e'.
Proof.
  intros Hin He; induction l as [|a0 l IH]; [contradiction|]; simpl.
  destruct Hin as [->|Hin].
  - rewrite He; simpl; eauto.
  - destruct (f a0) as [b|e0]; simpl; [|eauto].
    destruct (IH Hin) as [e' ->]; simpl; eauto.
Qed.

Lemma mapM_ok {A B : Type} (f : A -> result B) (l : list A) (bs : list B) :
  mapM f l = Ok bs -> Forall2 (fun a b => f a = Ok b) l bs.
Proof.
  revert bs; induction l as [|a l IH]; intros bs; simpl.
  - intros H; injection H as <-; constructor.
  - intros H; apply bind_ok in H; destruct H as [b [Hb H]].
    apply bind_ok in H; destruct H as [bs' [Hbs H]]; injection H as <-.
    constructor; [assumption | apply IH; assumption].
Qed.

Lemma parse_entry_unflagged (entry : node) (row : listing_row) :
  parse_entry entry = Ok row -> row_scraped row = false.
Proof.
  unfold parse_entry.
  destruct (tag_find "a" [] entry) as [a_tag|]; [|discriminate].
  destruct (attr_get "href" (attrs_of a_tag)) as [l|]; [|discriminate].
  intros H; apply bind_ok in H; destruct H as [years [_ H]].
  injection H as <-; reflexivity.
Qed.

(** X11.  A listing page is parsed whole or not at all: without the
    container [div_players] the function raises AttributeError, and one
    entry that cannot be parsed (no anchor, no [href], no two years) makes
    the function raise, whatever the other entries are. *)
Theorem listing_page_fails_on_one_entry (page : Response) :
  (find "div" [("id", "div_players")] (content page) = None ->
   parse_player_list_page page = Raise AttributeError)
  /\ (forall div entry e,
         find "div" [("id", "div_players")] (content page) = Some div ->
         In entry (tag_find_all "p" [] div) ->
         parse_entry entry = Raise e ->
         exists e', parse_player_list_page page = Raise e').
Proof.
  unfold parse_player_list_page; split.
  - intros ->; reflexivity.
  - intros div entry e -> Hin He; apply (mapM_raise _ _ entry e Hin He).
Qed.

Lemma listing_page_fails_on_one_entry_witness :
  exists e', parse_player_list_page Listing.broken = Raise e'.
Proof.
  apply (proj2 (listing_page_fails_on_one_entry Listing.broken)
           (Tag "div" [("id", "div_players")]
                [ Listing.entry "/players/A/AaaaBb00.htm" "Bb Aaaa" " (QB) 2001-2005";
                  Listing.entry "/players/A/AxxxYy00.htm" "Yy Axxx" " (RB) 1999" ])
           (Listing.entry "/players/A/AxxxYy00.htm" "Yy Axxx" " (RB) 1999")
           ValueError).
  - vm_compute; reflexivity.
  - right; left; reflexivity.
  - vm_compute; reflexivity.
Defined.

(** X12.  When a listing page is parsed, the table has one row for each
    [<p>] below the container, in document order, each the parse of its
    entry, and every row has its [scraped] flag unset. *)
Theorem listing_rows_follow_entries (page : Response) (rows : list listing_row) :
  parse_player_list_page page = Ok rows ->
  exists div,
    find "div" [("id", "div_players")] (content page) = Some div
    /\ Forall2 (fun entry row => parse_entry entry = Ok row)
               (tag_find_all "p" [] div) rows
    /\ length rows = length (tag_find_all "p" [] div)
    /\ Forall (fun row => row_scraped row = false) rows.
Proof.
  unfold parse_player_list_page.
  destruct (find "div" [("id", "div_players")] (content page)) as [div|]; [|discriminate].
  intros H; apply mapM_ok in H; exists div; split; [reflexivity|]; split; [exact H|].
  split; [symmetry; apply (Forall2_length H)|].
  induction H as [|entry row ps rows Hr _ IH]; constructor;
    [apply (parse_entry_unflagged entry row Hr) | exact IH].
Qed.

Lemma listing_rows_follow_entries_witness :
  exists rows, parse_player_list_page Listing.letter_a = Ok rows /\ length rows = 2.
Proof.
  assert (H : parse_player_list_page Listing.letter_a
              = Ok (match parse_player_list_page Listing.letter_a with
                    | Ok rows => rows
                    | Raise _ => []
                    end)) by (vm_compute; reflexivity).
  eexists; split; [exact H|].
  destruct (listing_rows_follow_entries _ _ H) as [div [Hd [_ [Hl _]]]].
  vm_compute in Hd; injection Hd as <-; exact Hl.
Defined.

(** ** One entry of the listing *)

Lemma split_not_nil (c : ascii) (s : string) : Str.split c s <> [].
Proof.
  destruct s as [|a s]; simpl; [discriminate|].
  destruct (Ascii.eqb a c); [discriminate|].
  destruct (Str.split c s); discriminate.
Qed.

(** A text without the separator is its only piece. *)
Lemma split_lacks (c : ascii) (s : string) :
  Str.lacks c s = true -> Str.split c s = [s].
Proof.
  induction s as [|a s IH]; simpl; [reflexivity|]; intros H.
  apply andb_prop in H; destruct H as [Ha Hs].
  apply negb_true_iff in Ha; rewrite Ha, (IH Hs); reflexivity.
Qed.

(** The first piece ends at the first separator. *)
Lemma split_at_first (c : ascii) (a b : string) :
  Str.lacks c a = true ->
  Str.split c (a ++ String c b)%string = a :: Str.split c b.
Proof.
  induction a as [|x a IH]; simpl; intros H.
  - rewrite Ascii.eqb_refl; reflexivity.
  - apply andb_prop in H; destruct H as [Hx Ha].
    apply negb_true_iff in Hx; rewrite Hx, (IH Ha); reflexivity.
Qed.

Lemma last_cons_not_nil {A : Type} (x : A) (l : list A) (d : A) :
  l <> [] -> last (x :: l) d = last l d.
Proof. destruct l; [intros H; contradiction H; reflexivity | reflexivity]. Qed.

(** The last piece starts after the last separator. *)
Lemma split_final (c : ascii) (a b : string) :
  Str.final (Str.split c (a ++ String c b)%string) = Str.final (Str.split c b).
Proof.
  unfold Str.final.
  assert (G : exists h t, t <> []
                          /\ Str.split c (a ++ String c b)%string = h :: t
                          /\ last t EmptyString = last (Str.split c b) EmptyString).
  { induction a as [|x a IH]; simpl.
    - rewrite Ascii.eqb_refl; exists EmptyString, (Str.split c b).
      split; [apply split_not_nil | split; reflexivity].
    - destruct IH as [h [t [Ht [Hs Hl]]]]; rewrite Hs.
      destruct (Ascii.eqb x c).
      + exists EmptyString, (h :: t); split; [discriminate|]; split; [reflexivity|].
        rewrite last_cons_not_nil by assumption; assumption.
      + exists (String x h), t; auto. }
  destruct G as [h [t [Ht [-> Hl]]]].
  rewrite last_cons_not_nil by assumption; assumption.
Qed.

Lemma string_app_assoc (a b c : string) :
  ((a ++ b) ++ c)%string = (a ++ b ++ c)%string.
Proof. induction a as [|x a IH]; simpl; [reflexivity | rewrite IH; reflexivity]. Qed.

Lemma lacks_app (c : ascii) (a b : string) :
  Str.lacks c (a ++ b)%string = Str.lacks c a && Str.lacks c b.
Proof.
  induction a as [|x a IH]; simpl; [reflexivity|].
  rewrite IH, andb_assoc; reflexivity.
Qed.

Lemma career_years_of (y1 y2 : string) (b e : Z) :
  Str.lacks "-" y1 = true ->
  Str.lacks "-" y2 = true ->
  py_int y1 = Ok b ->
  py_int y2 = Ok e ->
  career_years (y1 ++ String "-" y2)%string = Ok (b, e).
Proof.
  intros H1 H2 Hb He; unfold career_years.
  rewrite (split_at_first _ _ _ H1), (split_lacks _ _ H2), Hb, He; reflexivity.
Qed.

(** X13.  An entry with an anchor that has an [href], and whose text reads
    [pre ( pos ) post], where [pre] has no closing parenthesis, [pos] has no
    parenthesis, [post] has no closing parenthesis and, once stripped, is
    two integers around one hyphen, is parsed to the row with the link and
    the text of the anchor, the position [pos], the two years, the active
    flag set exactly when the entry holds a [<b>], and the [scraped] flag
    unset. *)
Theorem entry_is_parsed (entry a_tag : node) (l pre pos post y1 y2 : string)
        (b e : Z) :
  tag_find "a" [] entry = Some a_tag ->
  attr_get "href" (attrs_of a_tag) = Some l ->
  get_text entry = (pre ++ String "(" (pos ++ String ")" post))%string ->
  Str.lacks ")" pre = true ->
  Str.lacks "(" pos = true ->
  Str.lacks ")" pos = true ->
  Str.lacks ")" post = true ->
  Str.strip post = (y1 ++ String "-" y2)%string ->
  Str.lacks "-" y1 = true ->
  Str.lacks "-" y2 = true ->
  py_int y1 = Ok b ->
  py_int y2 = Ok e ->
  parse_entry entry
  = Ok {| row_link := l; row_name := get_text a_tag; row_position := pos;
          row_career_begin := b; row_career_end := e;
          row_active := match tag_find "b" [] entry with
                        | Some _ => true
                        | None => false
                        end;
          row_scraped := false |}.
Proof.
  intros Ha Hl Ht Hpre Hpos1 Hpos2 Hpost Hy Hy1 Hy2 Hb He.
  unfold parse_entry; rewrite Ha, Hl, Ht.
  assert (Hsplit : Str.split ")" (pre ++ String "(" (pos ++ String ")" post))%string
                   = [(pre ++ String "(" pos)%string; post]).
  { replace (pre ++ String "(" (pos ++ String ")" post))%string
      with ((pre ++ String "(" pos) ++ String ")" post)%string
      by (rewrite string_app_assoc; reflexivity).
    rewrite split_at_first, (split_lacks _ _ Hpost); [reflexivity|].
    rewrite lacks_app; simpl; rewrite Hpre, Hpos2; reflexivity. }
  rewrite Hsplit; cbn [Str.first hd].
  change (Str.final [(pre ++ String "(" pos)%string; post]) with post.
  rewrite split_final, (split_lacks _ _ Hpos1), Hy.
  rewrite (career_years_of y1 y2 b e Hy1 Hy2 Hb He); reflexivity.
Qed.

Lemma entry_is_parsed_witness :
  parse_entry (Listing.entry "/players/A/AaaaBb00.htm" "Bb Aaaa" " (QB) 2001-2005")
  = Ok {| row_link := "/players/A/AaaaBb00.htm"; row_name := "Bb Aaaa";
          row_position := "QB"; row_career_begin := 2001; row_career_end := 2005;
          row_active := false; row_scraped := false |}.
Proof.
  apply (entry_is_parsed
           (Listing.entry "/players/A/AaaaBb00.htm" "Bb Aaaa" " (QB) 2001-2005")
           (Tag "a" [("href", "/players/A/AaaaBb00.htm")] [NavigableString "Bb Aaaa"])
           "/players/A/AaaaBb00.htm" "Bb Aaaa " "QB" " 2001-2005" "2001" "2005"
           2001 2005); vm_compute; reflexivity.
Defined.

(** ** [scrape_player_lists] *)

Lemma lists_loop_returns (session_get : string -> result Response) (max : Z)
      (urls : list string) (data data' : list (list listing_row)) (slept n : nat) :
  lists_loop session_get max urls data slept = (n, Ok data') ->
  n = slept + length urls /\ data' = data ++ fetched_lists session_get urls.
Proof.
  revert data slept; induction urls as [|url urls IH]; intros data slept; simpl.
  - intros H; injection H as <- <-; rewrite app_nil_r; split; [lia | reflexivity].
  - destruct (scrape_page session_get url) as [[response|]|e]; cbn [bind].
    + destruct (parse_player_list_page response) as [player_data|e]; cbn [bind].
      * destruct (max <? 0)%Z; [discriminate|].
        intros H; apply IH in H; destruct H as [-> ->].
        rewrite <- app_assoc; split; [lia | reflexivity].
      * discriminate.
    + destruct (max <? 0)%Z; [discriminate|].
      intros H; apply IH in H; destruct H as [-> ->]; split; [lia | reflexivity].
    + discriminate.
Qed.

Lemma lists_loop_bound (session_get : string -> result Response) (max : Z)
      (urls : list string) (data : list (list listing_row)) (slept : nat) :
  fst (lists_loop session_get max urls data slept) <= slept + length urls.
Proof.
  revert data slept; induction urls as [|url urls IH]; intros data slept; simpl; [lia|].
  destruct (scrape_page session_get url) as [[response|]|e]; cbn [bind]; simpl; try lia.
  - destruct (parse_player_list_page response) as [player_data|e]; cbn [bind];
      simpl; try lia.
    destruct (max <? 0)%Z; simpl; [lia|].
    specialize (IH (data ++ [player_data]) (S slept)); lia.
  - destruct (max <? 0)%Z; simpl; [lia|]; specialize (IH data (S slept)); lia.
Qed.

Lemma fetched_lists_length (session_get : string -> result Response)
      (urls : list string) :
  length (fetched_lists session_get urls) <= length urls.
Proof.
  induction urls as [|url urls IH]; simpl; [lia|].
  rewrite length_app.
  destruct (scrape_page session_get url) as [[response|]|e]; simpl; try lia.
  destruct (parse_player_list_page response); simpl; lia.
Qed.

(** X14.  With a positive rate, [scrape_player_lists] never sleeps more
    often than it has addresses, and when it returns it has slept once for
    every address, retrieved or not, and its result is the parsed table of
    each page that was retrieved, in the order of the addresses. *)
Theorem list_scraper_sleeps_once_per_url (session_get : string -> result Response)
        (urls : list string) (max_pages_per_minute : Z) :
  (0 < max_pages_per_minute)%Z ->
  let run := scrape_player_lists session_get urls max_pages_per_minute in
  fst run <= length urls
  /\ (forall data,
         snd run = Returned data ->
         fst run = length urls
         /\ data = fetched_lists session_get urls
         /\ length data <= length urls).
Proof.
  intros Hpos; unfold scrape_player_lists.
  destruct (Z.eqb_spec max_pages_per_minute 0) as [H0|_]; [lia|]; cbn zeta; simpl fst;
    simpl snd.
  split; [apply (lists_loop_bound session_get max_pages_per_minute urls [] 0)|].
  intros data Hd.
  destruct (lists_loop session_get max_pages_per_minute urls [] 0) as [n [data'|e]] eqn:Hl;
    simpl in Hd; [|discriminate].
  injection Hd as <-.
  destruct (lists_loop_returns _ _ _ _ _ _ _ Hl) as [-> ->]; simpl.
  split; [reflexivity|]; split; [reflexivity | apply fetched_lists_length].
Qed.

Lemma list_scraper_sleeps_once_per_url_witness :
  fst (scrape_player_lists Listing.serve (map PLAYER_LIST_URL ascii_uppercase) 10) <= 26.
Proof.
  apply (list_scraper_sleeps_once_per_url Listing.serve
           (map PLAYER_LIST_URL ascii_uppercase) 10); lia.
Defined.

(** ** The roster file of the first run *)

Lemma roster_rows_round_trip (df : list roster_entry) :
  roster_rows (map RosterRow df) = Ok df.
Proof. induction df as [|e df IH]; simpl; [reflexivity | rewrite IH; reflexivity]. Qed.

Lemma number_from_numbered (i : Z) (rows : list listing_row) :
  numbered_from i (number_from i rows).
Proof.
  revert i; induction rows as [|r rows IH]; intros i; simpl; [trivial|].
  split; [reflexivity | apply IH].
Qed.

Lemma number_from_unflagged (i : Z) (rows : list listing_row) :
  Forall (fun r => row_scraped r = false) rows ->
  Forall (fun e => scraped e = false) (number_from i rows).
Proof.
  intros H; revert i; induction H as [|r rows Hr _ IH]; intros i; simpl;
    constructor; [assumption | apply IH].
Qed.

Lemma parsed_list_unflagged (page : Response) (rows : list listing_row) :
  parse_player_list_page page = Ok rows ->
  Forall (fun r => row_scraped r = false) rows.
Proof.
  unfold parse_player_list_page.
  destruct (find "div" [("id", "div_players")] (content page)) as [div|]; [|discriminate].
  intros H; apply mapM_ok in H.
  induction H as [|entry row ps rows Hr _ IH]; constructor;
    [apply (parse_entry_unflagged entry row Hr) | exact IH].
Qed.

Lemma fetched_lists_unflagged (session_get : string -> result Response)
      (urls : list string) :
  Forall (fun r => row_scraped r = false) (concat (fetched_lists session_get urls)).
Proof.
  induction urls as [|url urls IH]; simpl; [constructor|].
  rewrite concat_app; apply Forall_app; split; [|exact IH].
  destruct (scrape_page session_get url) as [[response|]|e]; simpl; try constructor.
  destruct (parse_player_list_page response) as [rows|e] eqn:Hp; simpl; [|constructor].
  rewrite app_nil_r.
  apply (parsed_list_unflagged response rows Hp).
Qed.

Lemma at_label_in (df : list roster_entry) (e : roster_entry) :
  numbered_from 1 df -> In e df -> at_label df (player_id e - 1) = Ok e.
Proof.
  intros Hn Hin; apply in_split in Hin; destruct Hin as [pre [es ->]].
  apply at_label_row; assumption.
Qed.

(** X15.  When the roster file does not exist and lines 1231-1237 end
    normally, the program has slept once for each of the 26 letters, has
    written no other file, and the roster file it then loads holds the rows
    of the listing pages that were retrieved, in order, with ids that count
    the rows from 1 and every [scraped] flag unset; so each label lookup
    [i - 1] of the main loop finds the row of the player [i]. *)
Theorem built_roster_is_numbered (session_get : string -> result Response)
        (fs : filesystem) :
  fs PLAYER_LIST_PATH = None ->
  snd (snd (build_roster session_get fs)) = Returned tt ->
  let fs' := fst (snd (build_roster session_get fs)) in
  let df := number_from 1 (concat (fetched_lists session_get
                                     (map PLAYER_LIST_URL ascii_uppercase))) in
  read_csv PLAYER_LIST_PATH fs' = Ok df
  /\ numbered_from 1 df
  /\ Forall (fun e => scraped e = false) df
  /\ (forall e, In e df -> at_label df (player_id e - 1) = Ok e)
  /\ fst (build_roster session_get fs) = 26
  /\ (forall p, p <> PLAYER_LIST_PATH -> fs' p = fs p).
Proof.
  intros Hnone; unfold build_roster; rewrite Hnone.
  assert (Hlen : length (map PLAYER_LIST_URL ascii_uppercase) = 26) by reflexivity.
  revert Hlen; generalize (map PLAYER_LIST_URL ascii_uppercase) as urls; intros urls Hlen.
  change (scrape_player_lists session_get urls SCRAPING_RATE)
    with (fst (lists_loop session_get 10 urls [] 0),
          outcome_of (snd (lists_loop session_get 10 urls [] 0))).
  cbn zeta; cbn [fst snd].
  destruct (lists_loop session_get 10 urls [] 0) as [n [data|e]] eqn:Hl;
    cbn [fst snd outcome_of]; [|discriminate].
  destruct (lists_loop_returns _ _ _ _ _ _ _ Hl) as [-> Hdata]; simpl in Hdata.
  destruct data as [|d data]; cbn [fst snd]; [discriminate|]; intros _.
  rewrite <- Hdata.
  set (df := number_from 1 (concat (d :: data))).
  assert (Hn : numbered_from 1 df) by apply number_from_numbered.
  split; [|split; [exact Hn|split; [|split; [|split]]]].
  - unfold read_csv, to_csv, write_file; rewrite String.eqb_refl.
    apply roster_rows_round_trip.
  - apply number_from_unflagged; rewrite Hdata; apply fetched_lists_unflagged.
  - intros e; apply at_label_in; exact Hn.
  - rewrite Hlen; reflexivity.
  - intros p Hp; unfold to_csv; apply write_file_other.
    apply String.eqb_neq; assumption.
Qed.

Lemma built_roster_is_numbered_witness :
  fst (build_roster Listing.serve Listing.empty_disk) = 26.
Proof.
  apply (built_roster_is_numbered Listing.serve Listing.empty_disk).
  - reflexivity.
  - vm_compute; reflexivity.
Defined.

(** ** The matcher and the language of its expressions *)

Lemma take_drop (n : nat) (s : string) : (take n s ++ drop n s)%string = s.
Proof.
  revert s; induction n as [|n IH]; intros [|c s]; simpl; try reflexivity.
  rewrite IH; reflexivity.
Qed.

Lemma drop_app_length (a b : string) : drop (String.length a) (a ++ b)%string = b.
Proof. induction a as [|c a IH]; simpl; [destruct b; reflexivity | exact IH]. Qed.

Lemma take_app_length (a b : string) : take (String.length a) (a ++ b)%string = a.
Proof.
  induction a as [|c a IH]; simpl; [destruct b; reflexivity | rewrite IH; reflexivity].
Qed.

Lemma length_app_s (a b : string) :
  String.length (a ++ b)%string = String.length a + String.length b.
Proof. induction a as [|c a IH]; simpl; [reflexivity | rewrite IH; reflexivity]. Qed.

Lemma span_le_length (k : cclass) (s : string) : span k s <= String.length s.
Proof.
  induction s as [|c s IH]; simpl; [lia|]; destruct (in_class k c); lia.
Qed.

Lemma span_take (k : cclass) (n : nat) (s : string) :
  n <= span k s ->
  String.length (take n s) = n /\ span k (take n s) = n.
Proof.
  revert s; induction n as [|n IH]; intros [|c s]; simpl; try (intros; split; lia).
  destruct (in_class k c) eqn:Hc; [|lia].
  intros H; destruct (IH s) as [H1 H2]; [lia|].
  simpl; rewrite ?Hc, H1, H2; split; reflexivity.
Qed.

Lemma span_app (k : cclass) (a b : string) :
  span k a = String.length a -> String.length a <= span k (a ++ b)%string.
Proof.
  induction a as [|c a IH]; simpl; [lia|].
  destruct (in_class k c).
  - intros H; injection H as H; apply IH in H; lia.
  - discriminate.
Qed.

Lemma try_lengths_sound (R : Type) (n : nat) (s : string) (k : string -> option R)
      (res : R) :
  try_lengths n s k = Some res ->
  exists m, 1 <= m <= n /\ k (drop m s) = Some res.
Proof.
  induction n as [|n IH]; cbn [try_lengths]; [discriminate|].
  destruct (k (drop (S n) s)) as [r|] eqn:Hk.
  - intros H; injection H as <-; exists (S n); split; [lia | assumption].
  - intros H; destruct (IH H) as [m [Hm Hr]]; exists m; split; [lia | assumption].
Qed.

Lemma try_lengths_complete (R : Type) (n m : nat) (s : string)
      (k : string -> option R) (res : R) :
  1 <= m <= n -> k (drop m s) = Some res ->
  exists res', try_lengths n s k = Some res'.
Proof.
  intros Hm Hk; induction n as [|n IH]; [lia|]; cbn [try_lengths].
  destruct (k (drop (S n) s)) as [r|] eqn:Hn; [eauto|].
  apply IH; destruct (Nat.eq_dec m (S n)) as [->|]; [congruence | lia].
Qed.

(** What the matcher finds is in the language of the expression. *)
Lemma re_match_sound (R : Type) (r : regex) :
  forall (s : string) (caps : list string) (k : string -> list string -> option R)
         (res : R),
    re_match r s caps k = Some res ->
    exists pre rest g,
      s = (pre ++ rest)%string /\ Matches r pre g /\ k rest (caps ++ g) = Some res.
Proof.
  induction r as [c|cl|r1 IH1 r2 IH2|r1 IH1]; intros s caps k res; simpl.
  - destruct s as [|c' s']; [discriminate|].
    destruct (Ascii.eqb_spec c c') as [<-|]; [|discriminate].
    intros H; exists (String c EmptyString), s', []; rewrite app_nil_r.
    split; [reflexivity | split; [constructor | assumption]].
  - intros H; apply try_lengths_sound in H; destruct H as [m [Hm Hk]].
    destruct (span_take cl m s) as [Hl Hs]; [lia|].
    exists (take m s), (drop m s), []; rewrite app_nil_r.
    split; [symmetry; apply take_drop|]; split; [|assumption].
    constructor; [|congruence].
    intros He; rewrite He in Hl; simpl in Hl; lia.
  - intros H; apply IH1 in H; destruct H as [p1 [rest1 [g1 [-> [M1 H]]]]].
    apply IH2 in H; destruct H as [p2 [rest2 [g2 [-> [M2 H]]]]].
    exists (p1 ++ p2)%string, rest2, (g1 ++ g2).
    rewrite string_app_assoc, app_assoc.
    split; [reflexivity | split; [constructor; assumption | assumption]].
  - intros H; apply IH1 in H; destruct H as [p [rest [g [-> [M H]]]]].
    exists p, rest, (g ++ [p]).
    split; [reflexivity | split; [constructor; assumption|]].
    rewrite length_app_s in H.
    replace (String.length p + String.length rest - String.length rest)
      with (String.length p) in H by lia.
    rewrite take_app_length, <- app_assoc in H; assumption.
Qed.

(** A text of the language, followed by a rest the continuation accepts, is
    matched (possibly by another match that is tried first). *)
Lemma re_match_complete (R : Type) (r : regex) (pre : string) (g : list string) :
  Matches r pre g ->
  forall (rest : string) (caps : list string)
         (k : string -> list string -> option R) (res : R),
    k rest (caps ++ g) = Some res ->
    exists res', re_match r (pre ++ rest)%string caps k = Some res'.
Proof.
  induction 1 as [c|cl s Hne Hs|r1 r2 s1 s2 g1 g2 M1 IH1 M2 IH2|r s g M IH];
    intros rest caps k res Hk; simpl.
  - rewrite Ascii.eqb_refl; rewrite app_nil_r in Hk; eauto.
  - rewrite app_nil_r in Hk.
    apply (try_lengths_complete R _ (String.length s) _ _ res).
    + split; [destruct s; [contradiction Hne; reflexivity | simpl; lia]|].
      apply span_app; assumption.
    + rewrite drop_app_length; assumption.
  - rewrite string_app_assoc.
    rewrite app_assoc in Hk.
    destruct (IH2 rest (caps ++ g1) k res Hk) as [res2 H2].
    apply (IH1 (s2 ++ rest)%string caps _ res2 H2).
  - apply (IH rest caps _ res).
    rewrite length_app_s.
    replace (String.length s + String.length rest - String.length rest)
      with (String.length s) by lia.
    rewrite take_app_length, <- app_assoc; assumption.
Qed.

Lemma re_search_eq (r : regex) (s : string) :
  re_search r s
  = match re_match r s [] (fun _ caps => Some caps) with
    | Some caps => Some caps
    | None => match s with
              | String _ s' => re_search r s'
              | EmptyString => None
              end
    end.
Proof. destruct s; reflexivity. Qed.

Lemma re_search_sound (r : regex) (s : string) (m : list string) :
  re_search r s = Some m ->
  exists before pre after, s = (before ++ pre ++ after)%string /\ Matches r pre m.
Proof.
  induction s as [|c s IH]; rewrite re_search_eq.
  - destruct (re_match r EmptyString [] (fun _ caps => Some caps)) as [caps|] eqn:Hm;
      [|discriminate].
    intros H; injection H as <-.
    apply re_match_sound in Hm; destruct Hm as [pre [rest [g [Hs [M Hk]]]]].
    simpl in Hk; injection Hk as <-; exists EmptyString, pre, rest; auto.
  - destruct (re_match r (String c s) [] (fun _ caps => Some caps)) as [caps|] eqn:Hm.
    + intros H; injection H as <-.
      apply re_match_sound in Hm; destruct Hm as [pre [rest [g [Hs [M Hk]]]]].
      simpl in Hk; injection Hk as <-; exists EmptyString, pre, rest; auto.
    + intros H; destruct (IH H) as [before [pre [after [-> M]]]].
      exists (String c before), pre, after; auto.
Qed.

Lemma re_search_complete (r : regex) (s : string) :
  re_search r s = None ->
  forall before pre after g,
    s = (before ++ pre ++ after)%string -> ~ Matches r pre g.
Proof.
  intros Hs before; revert s Hs.
  induction before as [|c before IH]; intros s Hs pre after g -> M;
    rewrite re_search_eq in Hs.
  - destruct (re_match_complete _ r pre g M after [] (fun _ caps => Some caps) g eq_refl)
      as [res' Hr].
    simpl in Hs; rewrite Hr in Hs; discriminate.
  - simpl in Hs.
    destruct (re_match r (String c (before ++ pre ++ after)) [] (fun _ caps => Some caps));
      [discriminate|].
    apply (IH _ Hs pre after g eq_refl M).
Qed.

(** ** The height and the weight *)

Ltac invert_matches :=
  repeat match goal with
         | H : Matches (Cat _ _) _ _ |- _ => inversion H; clear H; subst
         | H : Matches (Group _) _ _ |- _ => inversion H; clear H; subst
         | H : Matches (Lit _) _ _ |- _ => inversion H; clear H; subst
         | H : Matches (Plus _) _ _ |- _ => inversion H; clear H; subst
         end.

(** The texts [pattern] matches and the two groups it captures. *)
Lemma pattern_language (pre : string) (m : list string) :
  Matches pattern pre m <->
  exists d1 d2 d3,
    digits d1 /\ digits d2 /\ digits d3
    /\ pre = ((d1 ++ String "-" d2) ++ String "," (String " " (d3 ++ "lb")))%string
    /\ m = [(d1 ++ String "-" d2)%string; (d3 ++ "lb")%string].
Proof.
  unfold pattern, digits; split.
  - intros M; invert_matches; simpl.
    match goal with
    | |- context [((?a ++ String "-" ?b) ++ String "," (String " " (?c ++ _)))%string] =>
        exists a, b, c
    end.
    repeat split; assumption.
  - intros [d1 [d2 [d3 [[N1 S1] [[N2 S2] [[N3 S3] [-> ->]]]]]]].
    apply (@MCat (Group (Cat (Plus Digit) (Cat (Lit "-") (Plus Digit))))
                (Cat (Lit ",") (Cat (Lit " ")
                   (Group (Cat (Plus Digit) (Cat (Lit "l") (Lit "b"))))))
                (d1 ++ String "-" d2)%string
                (String "," (String " " (d3 ++ "lb")))%string
                [(d1 ++ String "-" d2)%string] [(d3 ++ "lb")%string]).
    + apply (@MGroup _ _ []).
      apply (@MCat (Plus Digit) (Cat (Lit "-") (Plus Digit)) d1 (String "-" d2) [] []).
      * constructor; assumption.
      * apply (@MCat (Lit "-") (Plus Digit) (String "-" EmptyString) d2 [] []);
          constructor; assumption.
    + apply (@MCat (Lit ",") _ (String "," EmptyString) (String " " (d3 ++ "lb")) [] _);
        [constructor|].
      apply (@MCat (Lit " ") _ (String " " EmptyString) (d3 ++ "lb")%string [] _);
        [constructor|].
      apply (@MGroup _ _ []).
      apply (@MCat (Plus Digit) (Cat (Lit "l") (Lit "b")) d3 "lb" [] []);
        [constructor; assumption|].
      apply (@MCat (Lit "l") (Lit "b") (String "l" EmptyString) (String "b" EmptyString)
                  [] []); constructor.
Qed.

(** The record holds the two values of the biometric step. *)
Lemma record_biometrics (page : Response) (r : list (string * value)) :
  extract_player_record page = Ok r ->
  exists hw, height_weight (content page) = Ok hw
             /\ lookup "height" r = Some (fst hw)
             /\ lookup "weight" r = Some (snd hw).
Proof.
  intros H; destruct (extract_inv page r H) as [hw [Hm Hp]].
  exists hw; split; [exact Hm|].
  destruct (player_stats_inv _ _ _ _ Hp) as [st [Hb Hd]].
  destruct key_vars as [_ [_ [_ [_ [K5 [K6 _]]]]]].
  rewrite (build_dict_lookup _ _ _ _ _ Hd K5), (build_dict_lookup _ _ _ _ _ Hd K6).
  unfold final_store; rewrite !lookup_assign_ne by reflexivity.
  rewrite (blocks_frame _ "height" _ _ (eq_refl true) Hb).
  rewrite (blocks_frame _ "weight" _ _ (eq_refl true) Hb).
  split; reflexivity.
Qed.

(** X16.  In a record the call returns, the height and the weight are
    either both None, or the height is two digit runs around a hyphen and
    the weight a digit run followed by [lb], the two standing in the
    metadata text (its white space collapsed) as [height, weight]. *)
Theorem biometrics_are_well_formed (page : Response) (r : list (string * value)) :
  extract_player_record page = Ok r ->
  (lookup "height" r = Some VNone /\ lookup "weight" r = Some VNone)
  \/ exists meta d1 d2 d3,
      find "div" [("id", "meta")] (content page) = Some meta
      /\ digits d1 /\ digits d2 /\ digits d3
      /\ lookup "height" r = Some (VStr (d1 ++ String "-" d2))
      /\ lookup "weight" r = Some (VStr (d3 ++ "lb"))
      /\ occurs ((d1 ++ String "-" d2) ++ String "," (String " " (d3 ++ "lb")))
                (re_sub_plus Space " " (get_text meta)).
Proof.
  intros H; destruct (record_biometrics page r H) as [hw [Hm [Hh Hw]]].
  unfold height_weight in Hm.
  destruct (find "div" [("id", "meta")] (content page)) as [meta|]; [|discriminate].
  cbn zeta in Hm.
  destruct (re_search pattern (re_sub_plus Space " " (get_text meta))) as [m|] eqn:Hs.
  - right; injection Hm as <-; simpl in Hh, Hw.
    destruct (re_search_sound _ _ _ Hs) as [before [pre [after [Hc M]]]].
    apply pattern_language in M.
    destruct M as [d1 [d2 [d3 [D1 [D2 [D3 [-> ->]]]]]]].
    exists meta, d1, d2, d3; repeat split; try assumption; try apply D1; try apply D2;
      try apply D3.
    exists before, after; exact Hc.
  - left; injection Hm as <-; split; assumption.
Qed.

Lemma biometrics_are_well_formed_witness :
  (lookup "height" Examples.bare_record = Some VNone
   /\ lookup "weight" Examples.bare_record = Some VNone)
  \/ exists meta d1 d2 d3,
      find "div" [("id", "meta")] (content Examples.bare) = Some meta
      /\ digits d1 /\ digits d2 /\ digits d3
      /\ lookup "height" Examples.bare_record = Some (VStr (d1 ++ String "-" d2))
      /\ lookup "weight" Examples.bare_record = Some (VStr (d3 ++ "lb"))
      /\ occurs ((d1 ++ String "-" d2) ++ String "," (String " " (d3 ++ "lb")))
                (re_sub_plus Space " " (get_text meta)).
Proof.
  apply (biometrics_are_well_formed Examples.bare Examples.bare_record).
  vm_compute; reflexivity.
Defined.

(** X17.  When the call returns a record whose height is None, the metadata
    text (its white space collapsed) holds no text of the form
    [digits-digits, digits lb]: the height and the weight are unset only
    when there is nothing to find. *)
Theorem biometrics_unset_only_without_pattern (page : Response)
        (r : list (string * value)) (meta : node) (d1 d2 d3 : string) :
  extract_player_record page = Ok r ->
  lookup "height" r = Some VNone ->
  find "div" [("id", "meta")] (content page) = Some meta ->
  digits d1 -> digits d2 -> digits d3 ->
  ~ occurs ((d1 ++ String "-" d2) ++ String "," (String " " (d3 ++ "lb")))
           (re_sub_plus Space " " (get_text meta)).
Proof.
  intros H Hnone Hfind D1 D2 D3 [before [after Hocc]].
  destruct (record_biometrics page r H) as [hw [Hm [Hh _]]].
  unfold height_weight in Hm; rewrite Hfind in Hm; cbn zeta in Hm.
  destruct (re_search pattern (re_sub_plus Space " " (get_text meta))) as [m|] eqn:Hs.
  - injection Hm as <-; simpl in Hh; congruence.
  - apply (re_search_complete _ _ Hs before _ after
             [(d1 ++ String "-" d2)%string; (d3 ++ "lb")%string] Hocc).
    apply pattern_language; exists d1, d2, d3; auto.
Qed.

Lemma biometrics_unset_only_without_pattern_witness :
  ~ occurs (("5" ++ String "-" "9") ++ String "," (String " " ("180" ++ "lb")))
           (re_sub_plus Space " "
              (get_text (Examples.meta_div "Position: K"))).
Proof.
  apply (biometrics_unset_only_without_pattern
           Examples.no_biometrics Examples.no_biometrics_record
           (Examples.meta_div "Position: K") "5" "9" "180").
  - vm_compute; reflexivity.
  - vm_compute; reflexivity.
  - vm_compute; reflexivity.
  - split; [discriminate | reflexivity].
  - split; [discriminate | reflexivity].
  - split; [discriminate | reflexivity].
Defined.

(** ** White space in the metadata text *)

Lemma digit_not_space (c : ascii) : in_class Digit c = true -> in_class Space c = false.
Proof.
  destruct c as [[] [] [] [] [] [] [] []]; vm_compute; intros H;
    first [reflexivity | discriminate H].
Qed.

(** Whatever precedes a text is collapsed on its own, up to the state the
    collapse is in when it reaches the text. *)
Lemma collapse_prefix (before s : string) (f : bool) :
  exists b' f',
    re_sub_plus_aux Space " " f (before ++ s)
    = (b' ++ re_sub_plus_aux Space " " f' s)%string.
Proof.
  revert f; induction before as [|c before IH]; intros f.
  - exists EmptyString, f; reflexivity.
  - simpl; destruct (re_space c).
    + destruct f.
      * apply IH.
      * destruct (IH true) as [b' [f' E]]; exists (String " " b'), f'.
        rewrite E; reflexivity.
    + destruct (IH false) as [b' [f' E]]; exists (String c b'), f'.
      rewrite E; reflexivity.
Qed.

(** A digit run is kept as it is. *)
Lemma collapse_digits (d s : string) (f : bool) :
  span Digit d = String.length d ->
  d <> EmptyString \/ f = false ->
  re_sub_plus_aux Space " " f (d ++ s) = (d ++ re_sub_plus_aux Space " " false s)%string.
Proof.
  revert f; induction d as [|c d IH]; intros f Hs Hf.
  - destruct Hf as [Hf | ->]; [congruence | reflexivity].
  - cbn [span] in Hs; destruct (in_class Digit c) eqn:Hc; [|discriminate].
    cbn [String.append re_sub_plus_aux]; rewrite (digit_not_space c Hc).
    rewrite (IH false); [reflexivity | simpl in Hs; congruence | right; reflexivity].
Qed.

(** A run of white space that follows a character collapses to one space. *)
Lemma collapse_spaces (ws s : string) :
  span Space ws = String.length ws ->
  re_sub_plus_aux Space " " true (ws ++ s) = re_sub_plus_aux Space " " true s.
Proof.
  induction ws as [|c ws IH]; intros Hs; [reflexivity|].
  cbn [span] in Hs; destruct (in_class Space c) eqn:Hc; [|discriminate].
  cbn [String.append re_sub_plus_aux]; rewrite Hc.
  apply IH; simpl in Hs; congruence.
Qed.

Lemma collapse_run (ws s : string) :
  ws <> EmptyString -> span Space ws = String.length ws ->
  re_sub_plus_aux Space " " false (ws ++ s)
  = String " " (re_sub_plus_aux Space " " true s).
Proof.
  destruct ws as [|c ws]; intros Hn Hs; [congruence|].
  cbn [span] in Hs; destruct (in_class Space c) eqn:Hc; [|discriminate].
  cbn [String.append re_sub_plus_aux]; rewrite Hc.
  rewrite (collapse_spaces ws s); [reflexivity | simpl in Hs; congruence].
Qed.

(** The collapse of a height, a comma, a run of white space and a weight. *)
Lemma collapse_biometrics (d1 d2 d3 ws after : string) (f : bool) :
  digits d1 -> digits d2 -> digits d3 ->
  ws <> EmptyString -> span Space ws = String.length ws ->
  re_sub_plus_aux Space " " f
    (((d1 ++ String "-" d2) ++ String "," (ws ++ d3 ++ "lb")) ++ after)
  = (((d1 ++ String "-" d2) ++ String "," (String " " (d3 ++ "lb")))
     ++ re_sub_plus_aux Space " " false after)%string.
Proof.
  intros [N1 S1] [N2 S2] [N3 S3] Nw Sw.
  rewrite !string_app_assoc; cbn [String.append].
  rewrite !string_app_assoc; cbn [String.append].
  rewrite (collapse_digits d1 _ f S1 (or_introl N1)).
  cbn [re_sub_plus_aux]; change (in_class Space "-") with false; cbv iota.
  rewrite (collapse_digits d2 _ false S2 (or_introl N2)).
  cbn [re_sub_plus_aux]; change (in_class Space ",") with false; cbv iota.
  rewrite (collapse_run ws _ Nw Sw).
  rewrite (collapse_digits d3 _ true S3 (or_introl N3)).
  cbn [re_sub_plus_aux]; change (in_class Space "l") with false;
    change (in_class Space "b") with false; cbv iota.
  reflexivity.
Qed.

(** X18.  The white space between the comma and the weight is free: when
    the metadata text holds a height, a comma, any non-empty run of white
    space (blanks, tabs, line breaks) and a weight, the record the call
    returns has a well-formed height and weight, not None. *)
Theorem biometrics_tolerate_white_space (page : Response) (r : list (string * value))
        (meta : node) (d1 d2 d3 ws : string) :
  extract_player_record page = Ok r ->
  find "div" [("id", "meta")] (content page) = Some meta ->
  digits d1 -> digits d2 -> digits d3 ->
  ws <> EmptyString -> span Space ws = String.length ws ->
  occurs ((d1 ++ String "-" d2) ++ String "," (ws ++ d3 ++ "lb")) (get_text meta) ->
  exists e1 e2 e3,
    digits e1 /\ digits e2 /\ digits e3
    /\ lookup "height" r = Some (VStr (e1 ++ String "-" e2))
    /\ lookup "weight" r = Some (VStr (e3 ++ "lb")).
Proof.
  intros H Hfind D1 D2 D3 Nw Sw [before [after Hocc]].
  destruct (record_biometrics page r H) as [hw [Hm [Hh Hw]]].
  unfold height_weight in Hm; rewrite Hfind in Hm; cbn zeta in Hm.
  assert (Hc : occurs ((d1 ++ String "-" d2) ++ String "," (String " " (d3 ++ "lb")))
                      (re_sub_plus Space " " (get_text meta))).
  { unfold re_sub_plus; rewrite Hocc.
    destruct (collapse_prefix before
                (((d1 ++ String "-" d2) ++ String "," (ws ++ d3 ++ "lb")) ++ after)
                false) as [b' [f' E]].
    rewrite E, (collapse_biometrics d1 d2 d3 ws after f' D1 D2 D3 Nw Sw).
    exists b', (re_sub_plus_aux Space " " false after); reflexivity. }
  destruct (re_search pattern (re_sub_plus Space " " (get_text meta))) as [m|] eqn:Hs.
  - injection Hm as <-; simpl in Hh, Hw.
    destruct (re_search_sound _ _ _ Hs) as [b [pre [a [_ M]]]].
    apply pattern_language in M.
    destruct M as [e1 [e2 [e3 [E1 [E2 [E3 [_ ->]]]]]]].
    exists e1, e2, e3; repeat split; try assumption; try apply E1; try apply E2;
      try apply E3.
  - exfalso; destruct Hc as [b [a Hc]].
    apply (re_search_complete _ _ Hs b _ a
             [(d1 ++ String "-" d2)%string; (d3 ++ "lb")%string] Hc).
    apply pattern_language; exists d1, d2, d3; auto.
Qed.

Lemma biometrics_tolerate_white_space_witness :
  exists e1 e2 e3,
    digits e1 /\ digits e2 /\ digits e3
    /\ lookup "height" Biometrics.spaced_record = Some (VStr (e1 ++ String "-" e2))
    /\ lookup "weight" Biometrics.spaced_record = Some (VStr (e3 ++ "lb")).
Proof.
  apply (biometrics_tolerate_white_space
           Biometrics.spaced Biometrics.spaced_record
           (Examples.meta_div ("QB 6-2," ++ Biometrics.gap ++ "215lb (188cm)")%string)
           "6" "2" "215" Biometrics.gap).
  - vm_compute; reflexivity.
  - vm_compute; reflexivity.
  - split; [discriminate | reflexivity].
  - split; [discriminate | reflexivity].
  - split; [discriminate | reflexivity].
  - discriminate.
  - reflexivity.
  - exists "QB ", " (188cm)"; reflexivity.
Defined.

(** ** A run that a player interrupts *)

(** The loop up to the first row that raises: [pre] are the rows already
    handled, [es] the rows before the one that raises. *)
Lemma loop_until_raise (session_get : string -> result Response)
      (es pre post : list roster_entry) (e : roster_entry) (err : exn)
      (fs : filesystem) :
  numbered_from 1 (pre ++ es ++ e :: post) ->
  Forall (fun x => is_ok (player_outcome session_get x) = true) es ->
  player_outcome session_get e = Raise err ->
  let run := for_each_player session_get (map player_id (es ++ e :: post))
               (map (final_entry session_get) pre ++ es ++ e :: post) fs in
  snd run = Raise err
  /\ fst run PLAYER_STATS_PATH
     = appended (fs PLAYER_STATS_PATH) (new_rows session_get es)
  /\ (new_rows session_get es <> [] ->
      fst run "player_list.csv"
      = Some (map RosterRow (map (final_entry session_get) (pre ++ es) ++ e :: post)))
  /\ (new_rows session_get es = [] -> forall p, fst run p = fs p).
Proof.
  revert pre fs; induction es as [|x es IH]; intros pre fs Hn Hok Herr.
  - cbn [app] in Hn |- *.
    assert (Hn' : numbered_from 1 (map (final_entry session_get) pre ++ e :: post)).
    { apply (numbered_ext 1 (pre ++ e :: post)); [|assumption].
      rewrite !map_app, final_entry_id; reflexivity. }
    cbn zeta; cbn [map for_each_player].
    rewrite (loop_body_outcome _ _ _ _ _ Hn'), Herr; simpl.
    split; [reflexivity|]; split; [reflexivity|]; split.
    + intros H; contradiction H; reflexivity.
    + intros _ p; reflexivity.
  - inversion Hok as [|x0 es0 Hx Hes]; subst.
    cbn [app] in Hn |- *.
    assert (Hn' : numbered_from 1
                    (map (final_entry session_get) pre ++ x :: es ++ e :: post)).
    { apply (numbered_ext 1 (pre ++ x :: es ++ e :: post)); [|assumption].
      rewrite !map_app, final_entry_id; reflexivity. }
    assert (Hpre : pre ++ x :: es ++ e :: post = (pre ++ [x]) ++ es ++ e :: post)
      by (rewrite <- app_assoc; reflexivity).
    assert (Hmap : map (final_entry session_get) (pre ++ [x]) ++ es ++ e :: post
                   = map (final_entry session_get) pre
                     ++ final_entry session_get x :: es ++ e :: post)
      by (rewrite map_app, <- app_assoc; reflexivity).
    rewrite Hpre in Hn.
    cbn zeta; cbn [map for_each_player].
    rewrite (loop_body_outcome _ _ _ _ _ Hn').
    unfold new_rows; cbn [flat_map]; fold (new_rows session_get es).
    destruct (player_outcome session_get x) as [[row|]|err'] eqn:Ho; [| |discriminate].
    + set (fs' := to_csv "player_list.csv"
                    (map (final_entry session_get) pre ++ set_scraped x :: es ++ e :: post)
                    (append_csv PLAYER_STATS_PATH row fs)).
      assert (Hfe : final_entry session_get x = set_scraped x)
        by (unfold final_entry; rewrite Ho; reflexivity).
      specialize (IH (pre ++ [x]) fs' Hn Hes Herr); cbn zeta in IH.
      rewrite Hmap, Hfe in IH.
      destruct IH as [I1 [I2 [I3 I4]]].
      assert (Hfs' : fs' PLAYER_STATS_PATH = appended (fs PLAYER_STATS_PATH) [row]).
      { unfold fs', to_csv; rewrite write_file_other by reflexivity.
        apply append_csv_same. }
      split; [exact I1|]; split; [|split].
      * rewrite I2, Hfs'; apply appended_step.
      * intros _.
        destruct (new_rows session_get es) as [|r rows] eqn:Hrows.
        -- rewrite (I4 eq_refl); unfold fs', to_csv, write_file.
           rewrite String.eqb_refl; do 2 f_equal.
           rewrite map_app; cbn [map]; rewrite Hfe.
           rewrite (final_entry_unchanged _ es Hrows), <- app_assoc; reflexivity.
        -- rewrite I3 by discriminate.
           do 2 f_equal; rewrite <- app_assoc; reflexivity.
      * intros H; discriminate.
    + assert (Hfe : final_entry session_get x = x)
        by (unfold final_entry; rewrite Ho; reflexivity).
      specialize (IH (pre ++ [x]) fs Hn Hes Herr); cbn zeta in IH.
      rewrite Hmap, Hfe in IH.
      destruct IH as [I1 [I2 [I3 I4]]].
      split; [exact I1|]; split; [exact I2|]; split; [|exact I4].
      intros H; rewrite (I3 H).
      do 2 f_equal; rewrite <- app_assoc; reflexivity.
Qed.

(** X19.  A player whose page makes the parse raise (or whose request is
    interrupted) ends the run with that exception, and what the players
    before it gave is kept: on a roster whose ids count its rows from 1, the
    statistics file holds the rows of the earlier players, [player_list.csv]
    (if one of them was stored) the roster with those players flagged and
    the failing player and the later ones as they were; if none was stored,
    no file has changed. *)
Theorem run_stops_at_first_raise (session_get : string -> result Response)
        (fs : filesystem) (pre post : list roster_entry) (e : roster_entry)
        (err : exn) :
  read_csv PLAYER_LIST_PATH fs = Ok (pre ++ e :: post) ->
  numbered_from 1 (pre ++ e :: post) ->
  Forall (fun x => is_ok (player_outcome session_get x) = true) pre ->
  player_outcome session_get e = Raise err ->
  let run := main session_get fs in
  snd run = Raise err
  /\ fst run PLAYER_STATS_PATH
     = appended (fs PLAYER_STATS_PATH) (new_rows session_get pre)
  /\ (new_rows session_get pre <> [] ->
      fst run "player_list.csv"
      = Some (map RosterRow (map (final_entry session_get) pre ++ e :: post)))
  /\ (new_rows session_get pre = [] -> forall p, fst run p = fs p).
Proof.
  intros Hr Hn Hok Herr; unfold main; rewrite Hr.
  exact (loop_until_raise session_get pre [] post e err fs Hn Hok Herr).
Qed.

Lemma run_stops_at_first_raise_witness :
  snd (main Interrupted.serve Interrupted.disk) = Raise ValueError
  /\ fst (main Interrupted.serve Interrupted.disk) PLAYER_STATS_PATH
     = appended (Interrupted.disk PLAYER_STATS_PATH)
                (new_rows Interrupted.serve [Interrupted.first_player]).
Proof.
  assert (Hr : read_csv PLAYER_LIST_PATH Interrupted.disk
               = Ok ([Interrupted.first_player]
                     ++ Interrupted.second_player :: [Interrupted.third_player]))
    by (vm_compute; reflexivity).
  assert (Hn : numbered_from 1 ([Interrupted.first_player]
                     ++ Interrupted.second_player :: [Interrupted.third_player]))
    by (simpl; repeat split; reflexivity).
  assert (Hok : Forall (fun x => is_ok (player_outcome Interrupted.serve x) = true)
                       [Interrupted.first_player])
    by (repeat constructor; vm_compute; reflexivity).
  assert (Herr : player_outcome Interrupted.serve Interrupted.second_player
                 = Raise ValueError)
    by (vm_compute; reflexivity).
  destruct (run_stops_at_first_raise Interrupted.serve Interrupted.disk
              [Interrupted.first_player] [Interrupted.third_player]
              Interrupted.second_player ValueError Hr Hn Hok Herr) as [H1 [H2 _]].
  split; [exact H1 | exact H2].
Defined.

(** ** The kinds of value in a record *)

Lemma typed_assign (x : string) (v : value) (st : store) :
  typed_store st ->
  (mem x text_vars = false -> is_number v = true) ->
  typed_store (assign x v st).
Proof.
  intros Hst Hv y w Hy Hm; unfold assign in Hy; simpl in Hy.
  destruct (String.eqb_spec y x) as [->|Hne].
  - injection Hy as <-; apply Hv; assumption.
  - apply (Hst y w Hy Hm).
Qed.

Lemma coerce_number (f : field) (text : string) (v : value) :
  field_typed f = true ->
  coerce (how f) text = Ok v ->
  mem (var f) text_vars = false -> is_number v = true.
Proof.
  unfold field_typed, coerce; destruct (how f); intros Ht Hc Hm.
  - apply bind_ok in Hc; destruct Hc as [z [_ Hc]]; injection Hc as <-; reflexivity.
  - apply bind_ok in Hc; destruct Hc as [z [_ Hc]]; injection Hc as <-; reflexivity.
  - congruence.
  - destruct (String.eqb text EmptyString).
    + injection Hc as <-; reflexivity.
    + apply bind_ok in Hc; destruct Hc as [z [_ Hc]]; injection Hc as <-; reflexivity.
Qed.

Lemma run_fields_typed (t : node) (fs : list field) (d d' : store) :
  forallb field_typed fs = true ->
  run_fields t fs d = Ok d' ->
  typed_store d -> typed_store d'.
Proof.
  revert d; induction fs as [|f fs IH]; intros d Hf H Hd; simpl in H.
  - injection H as <-; assumption.
  - simpl in Hf; apply andb_prop in Hf; destruct Hf as [Hf Hfs].
    apply bind_ok in H; destruct H as [d1 [H1 H2]].
    apply (IH d1 Hfs H2); clear IH H2.
    unfold field_stmt in H1.
    destruct (cells t (key f)) as [[|c l]|e]; simpl in H1; try discriminate.
    + injection H1 as <-; assumption.
    + apply bind_ok in H1; destruct H1 as [v [Hc H1]]; injection H1 as <-.
      apply typed_assign; [assumption|].
      apply (coerce_number f (get_text c) v Hf Hc).
Qed.

Lemma init_vars_typed (xs : list string) (st : store) :
  typed_store st -> typed_store (init_vars xs st).
Proof.
  unfold init_vars; revert st; induction xs as [|x xs IH]; intros st Hst; simpl;
    [assumption|].
  apply IH; apply typed_assign; [assumption | reflexivity].
Qed.

Lemma run_blocks_typed (bs : list block) (st st' : store) :
  forallb (fun b => forallb field_typed (fields b)) bs = true ->
  run_blocks bs st = Ok st' ->
  typed_store st -> typed_store st'.
Proof.
  revert st; induction bs as [|b bs IH]; intros st Hf H Hst; simpl in H.
  - injection H as <-; assumption.
  - simpl in Hf; apply andb_prop in Hf; destruct Hf as [Hb Hbs].
    apply bind_ok in H; destruct H as [st1 [H1 H2]].
    apply (IH st1 Hbs H2); clear IH H2.
    unfold run_block in H1; cbn zeta in H1.
    destruct (table b) as [t|].
    + apply (run_fields_typed t (fields b) _ st1 Hb H1).
      apply init_vars_typed; assumption.
    + injection H1 as <-; apply init_vars_typed; assumption.
Qed.

(** The two statements that keep a text are those of the quarterback
    record. *)
Lemma program_typed (soup : document) :
  forallb (fun b => forallb field_typed (fields b)) (category_blocks soup) = true.
Proof.
  unfold category_blocks; rewrite forallb_forall; intros b Hb.
  apply in_map_iff in Hb; destruct Hb as [[c s] [<- _]].
  destruct c, s; vm_compute; reflexivity.
Qed.

Lemma layout_typed :
  forallb (fun kx => negb (mem (snd kx) text_vars) || mem (fst kx) text_keys)
          player_stats_layout = true.
Proof. vm_compute; reflexivity. Qed.

Lemma var_of_key_in (k : string) (layout : list (string * string)) :
  In k (map fst layout) ->
  exists x, var_of_key k layout = Some x /\ In (k, x) layout.
Proof.
  induction layout as [|[k0 x0] layout IH]; simpl; [contradiction|].
  intros H; destruct (String.eqb_spec k k0) as [->|Hne].
  - exists x0; split; [reflexivity | left; reflexivity].
  - destruct H as [H|H]; [congruence|].
    destruct (IH H) as [x [Hx Hin]]; exists x; split; [assumption | right; assumption].
Qed.

(** X20.  Every statistic of a record the call returns is a number, an int
    or a float: under every key other than the height, the weight and the
    two quarterback records the value is never None and never a text. *)
Theorem statistics_are_numbers (page : Response) (r : list (string * value))
        (k : string) (v : value) :
  extract_player_record page = Ok r ->
  lookup k r = Some v ->
  mem k text_keys = false ->
  is_number v = true.
Proof.
  intros H Hk Hm.
  destruct (extract_inv page r H) as [hw [_ Hp]].
  destruct (player_stats_inv _ _ _ _ Hp) as [st [Hb Hd]].
  pose proof (lookup_in_keys k r v Hk) as Hin.
  unfold keys in Hin; rewrite (build_dict_keys _ _ _ Hd) in Hin.
  destruct (var_of_key_in k player_stats_layout Hin) as [x [Hx Hkx]].
  pose proof layout_typed as Hl; rewrite forallb_forall in Hl.
  specialize (Hl (k, x) Hkx); cbn [fst snd] in Hl; rewrite Hm, orb_false_r in Hl.
  apply negb_true_iff in Hl.
  rewrite (build_dict_lookup _ _ _ _ _ Hd Hx) in Hk.
  assert (Hst : typed_store st).
  { apply (run_blocks_typed _ _ _ (program_typed (content page)) Hb).
    unfold initial_store; apply typed_assign; [apply typed_assign|].
    - intros y w Hy; discriminate.
    - intros Hc; vm_compute in Hc; discriminate.
    - intros Hc; vm_compute in Hc; discriminate. }
  assert (Hfin : typed_store (final_store (content page) st))
    by (unfold final_store; repeat (apply typed_assign; [|reflexivity]); assumption).
  exact (Hfin x v Hk Hl).
Qed.

Lemma statistics_are_numbers_witness :
  lookup "games_reg" Examples.defender_record = Some (VInt 16)
  /\ is_number (VInt 16) = true.
Proof.
  split; [vm_compute; reflexivity|].
  apply (statistics_are_numbers Examples.defender Examples.defender_record
           "games_reg" (VInt 16)).
  - vm_compute; reflexivity.
  - vm_compute; reflexivity.
  - vm_compute; reflexivity.
Defined.

(** ** C5: the schema of the record and what its keys hold *)

Lemma all_inits_owner (x : string) :
  In x all_inits -> exists c s, In x (inits_of c s).
Proof.
  unfold all_inits; intros H; apply in_concat in H; destruct H as [l [Hl Hx]].
  apply in_map_iff in Hl; destruct Hl as [[c s] [<- _]]; exists c, s; exact Hx.
Qed.

(** A run of statements that returns found a footer for each of them. *)
Lemma run_fields_cells (t : node) (fs : list field) (d d' : store) (f : field) :
  run_fields t fs d = Ok d' -> In f fs -> exists l, cells t (key f) = Ok l.
Proof.
  revert d; induction fs as [|g fs IH]; intros d H Hin; [contradiction|].
  simpl in H; apply bind_ok in H; destruct H as [d1 [H1 H2]].
  destruct Hin as [->|Hin]; [|apply (IH d1 H2 Hin)].
  unfold field_stmt in H1; destruct (cells t (key f)) as [l|e];
    [eauto | simpl in H1; discriminate].
Qed.

Lemma writers_cases (t : node) (ws : list field) :
  (forall f, In f ws -> exists l, cells t (key f) = Ok l) ->
  Forall (fun f => cells t (key f) = Ok []) ws
  \/ exists f c l, In f ws /\ cells t (key f) = Ok (c :: l).
Proof.
  induction ws as [|f ws IH]; intros H; [left; constructor|].
  destruct (H f (or_introl eq_refl)) as [[|c l] Hc].
  - destruct IH as [IH|[g [c [l [Hg Hc']]]]].
    + intros g Hg; apply H; right; assumption.
    + left; constructor; assumption.
    + right; exists g, c, l; split; [right; assumption | assumption].
  - right; exists f, c, l; split; [left; reflexivity | assumption].
Qed.

(** The key of a variable of a block: the default 0 or the conversion of a
    cell. *)
Lemma held_block_variable (page : Response) (r : list (string * value))
      (c : category) (s : season) (k x : string) :
  extract_player_record page = Ok r ->
  var_of_key k player_stats_layout = Some x ->
  In x (inits_of c s) ->
  exists v, lookup k r = Some v /\ held (content page) k v.
Proof.
  intros H Hk Hx.
  destruct (record_entry page r c s k x H Hx Hk) as [d [Hd ->]].
  rewrite run_block_of in Hd.
  destruct (table_of (content page) c s) as [t|] eqn:Ht.
  - destruct (writers_cases t (writers x (fields_of c s)))
      as [Hall|[f [cell [l [Hf Hc]]]]].
    + intros f Hf; unfold writers in Hf; apply filter_In in Hf; destruct Hf as [Hf _].
      apply (run_fields_cells t _ _ d f Hd Hf).
    + exists (VInt 0); split.
      * rewrite (run_fields_untouched t x _ _ _ Hd Hall).
        apply lookup_init_vars; assumption.
      * eapply default_no_cell; eassumption.
    + unfold writers in Hf; apply filter_In in Hf; destruct Hf as [Hf Hv].
      apply String.eqb_eq in Hv; subst x.
      destruct (field_static c s f Hf) as [_ [_ Hw]].
      destruct (run_fields_written t f _ _ d cell l Hd Hw Hc (or_introl Hf))
        as [v [Hv Hl]].
      exists v; split; [assumption|].
      eapply parsed_cell; try eassumption.
      unfold cell_text; rewrite Hc; reflexivity.
  - injection Hd as <-; exists (VInt 0); split; [apply lookup_init_vars; assumption|].
    eapply default_no_table; eassumption.
Qed.

(** The keys of the four games counts. *)
Lemma held_reconciled (page : Response) (r : list (string * value)) (k x : string) :
  extract_player_record page = Ok r ->
  var_of_key k player_stats_layout = Some x ->
  In x reconciled_vars ->
  exists v, lookup k r = Some v /\ held (content page) k v.
Proof.
  intros H Hk Hx.
  destruct (extract_inv page r H) as [hw [_ Hp]].
  destruct (player_stats_inv _ _ _ _ Hp) as [st [Hb Hd]].
  rewrite (build_dict_lookup _ _ _ _ _ Hd Hk).
  unfold reconciled_vars in Hx; cbn [In] in Hx.
  destruct Hx as [<-|[<-|[<-|[<-|[]]]]]; unfold final_store.
  - rewrite lookup_assign_eq; eexists; split; [reflexivity|].
    apply (@reconciled_started (content page) k Post Hk).
  - rewrite lookup_assign_ne by reflexivity; rewrite lookup_assign_eq.
    eexists; split; [reflexivity|].
    apply (@reconciled_games (content page) k Post Hk).
  - rewrite !lookup_assign_ne by reflexivity; rewrite lookup_assign_eq.
    eexists; split; [reflexivity|].
    apply (@reconciled_started (content page) k Regular Hk).
  - rewrite !lookup_assign_ne by reflexivity; rewrite lookup_assign_eq.
    eexists; split; [reflexivity|].
    apply (@reconciled_games (content page) k Regular Hk).
Qed.

(** The keys of the height and the weight. *)
Lemma held_biometric (page : Response) (r : list (string * value)) (k x : string) :
  extract_player_record page = Ok r ->
  var_of_key k player_stats_layout = Some x ->
  In x ["weight"; "height"] ->
  exists v, lookup k r = Some v /\ held (content page) k v.
Proof.
  intros H Hk Hx.
  destruct (extract_inv page r H) as [hw [Hm Hp]].
  destruct (player_stats_inv _ _ _ _ Hp) as [st [Hb Hd]].
  rewrite (build_dict_lookup _ _ _ _ _ Hd Hk).
  unfold height_weight in Hm.
  destruct (find "div" [("id", "meta")] (content page)) as [meta|] eqn:Hf;
    [|discriminate].
  cbn zeta in Hm.
  assert (Hl : lookup x (final_store (content page) st)
               = lookup x (initial_store (fst hw) (snd hw))).
  { cbn [In] in Hx; destruct Hx as [<-|[<-|[]]].
    - rewrite final_store_frame by reflexivity.
      apply (blocks_frame _ "weight" _ _ (eq_refl true) Hb).
    - rewrite final_store_frame by reflexivity.
      apply (blocks_frame _ "height" _ _ (eq_refl true) Hb). }
  rewrite Hl; clear Hl.
  destruct (re_search pattern (re_sub_plus Space " " (get_text meta))) as [m|] eqn:Hs;
    injection Hm as <-.
  - cbn [In] in Hx; destruct Hx as [<-|[<-|[]]]; (eexists; split; [reflexivity|]).
    + apply (@parsed_weight (content page) k meta m Hk Hf Hs).
    + apply (@parsed_height (content page) k meta m Hk Hf Hs).
  - exists VNone; split.
    + cbn [In] in Hx; destruct Hx as [<-|[<-|[]]]; reflexivity.
    + apply (@default_biometric (content page) k x meta Hk Hx Hf Hs).
Qed.

Lemma disjoint_mem (l1 l2 : list string) (x : string) :
  forallb (fun y => negb (mem y l2)) l1 = true ->
  In x l1 -> In x l2 -> False.
Proof.
  intros H H1 H2; rewrite forallb_forall in H; specialize (H x H1).
  apply negb_true_iff in H; apply (mem_false x l2 H H2).
Qed.

(** A variable is initialised by one block only. *)
Lemma inits_disjoint (c c' : category) (s s' : season) (x : string) :
  In x (inits_of c s) -> In x (inits_of c' s') -> c = c' /\ s = s'.
Proof.
  intros H1 H2.
  destruct c, s, c', s'; try (split; reflexivity); exfalso;
    (eapply disjoint_mem; [|exact H1|exact H2]); vm_compute; reflexivity.
Qed.

(** No block initialises the height, the weight or a reconciled count. *)
Lemma inits_plain (c : category) (s : season) (x : string) :
  In x (inits_of c s) -> In x (["weight"; "height"] ++ reconciled_vars) -> False.
Proof.
  intros H1 H2; destruct c, s;
    (eapply disjoint_mem; [|exact H1|exact H2]); vm_compute; reflexivity.
Qed.

Lemma total_vars (s : season) :
  In (total_var s) (["weight"; "height"] ++ reconciled_vars)
  /\ In (total_started_var s) (["weight"; "height"] ++ reconciled_vars).
Proof. destruct s; simpl; tauto. Qed.

(** [held] gives a key one value. *)
Lemma held_functional (soup : document) (k : string) (v v' : value) :
  held soup k v -> held soup k v' -> v = v'.
Proof.
  intros H H'.
  destruct H as [x meta Hk Hx Hf Hs | meta m Hk Hf Hs | meta m Hk Hf Hs
                | s Hk | s Hk | c s x Hk Hx Ht | c s x t Hk Hx Ht Hall
                | c s f t text v Hk Hin Ht Hc Hv];
  destruct H' as [x' meta' Hk' Hx' Hf' Hs' | meta' m' Hk' Hf' Hs' | meta' m' Hk' Hf' Hs'
                | s' Hk' | s' Hk' | c' s' x' Hk' Hx' Ht' | c' s' x' t' Hk' Hx' Ht' Hall'
                | c' s' f' t' text' v' Hk' Hin' Ht' Hc' Hv'];
  try reflexivity;
  rewrite Hk in Hk';
  apply (f_equal (fun o => match o with Some y => y | None => EmptyString end)) in Hk';
  cbv beta iota in Hk'.
  all: try (rewrite Hf in Hf'; injection Hf' as <-; congruence).
  all: try discriminate Hk'.
  all: try (exfalso; subst; cbn [In] in *; intuition discriminate).
  all: try (exfalso; subst;
            match goal with
            | s : season |- _ => destruct s; cbn [In] in *; intuition discriminate
            end).
  all: try (destruct s, s'; first [reflexivity | discriminate Hk']).
  all: try (pose proof (proj1 (field_static c s f Hin)) as Hx).
  all: try (pose proof (proj1 (field_static c' s' f' Hin')) as Hx').
  (* a variable of a block against the height, the weight or a count *)
  all: try (exfalso;
            first [ rewrite Hk' in Hx; apply (inits_plain _ _ _ Hx)
                  | rewrite <- Hk' in Hx'; apply (inits_plain _ _ _ Hx') ];
            first [ apply total_vars | apply in_or_app; left; assumption
                  | simpl; tauto ]).
  - (* no table against a cell *)
    subst x; destruct (inits_disjoint _ _ _ _ _ Hx Hx') as [-> ->]; congruence.
  - (* no cell against a cell *)
    subst x; destruct (inits_disjoint _ _ _ _ _ Hx Hx') as [-> ->].
    rewrite Ht in Ht'; injection Ht' as <-.
    rewrite Forall_forall in Hall.
    assert (Hw : In f' (writers (var f') (fields_of c' s')))
      by (apply filter_In; split; [assumption | apply String.eqb_refl]).
    unfold cell_text in Hc'; rewrite (Hall f' Hw) in Hc'; discriminate.
  - subst x'; destruct (inits_disjoint _ _ _ _ _ Hx Hx') as [-> ->]; congruence.
  - subst x'; destruct (inits_disjoint _ _ _ _ _ Hx Hx') as [-> ->].
    rewrite Ht in Ht'; injection Ht' as <-.
    rewrite Forall_forall in Hall'.
    assert (Hw : In f (writers (var f) (fields_of c' s')))
      by (apply filter_In; split; [assumption | apply String.eqb_refl]).
    unfold cell_text in Hc; rewrite (Hall' f Hw) in Hc; discriminate.
  - (* two cells: the same statement *)
    rewrite Hk' in Hx; destruct (inits_disjoint _ _ _ _ _ Hx Hx') as [-> ->].
    rewrite Ht in Ht'; injection Ht' as <-.
    destruct (field_static c' s' f Hin) as [_ [_ Hw]]; rewrite Forall_forall in Hw.
    assert (Hf : In f' (writers (var f) (fields_of c' s')))
      by (apply filter_In; split; [assumption | rewrite Hk'; apply String.eqb_refl]).
    rewrite <- (Hw f' Hf) in Hc', Hv'; congruence.
Qed.

(** C5.  Whenever the function returns, on whatever document and whichever
    tables it holds, the record has the keys of the dict literal, in its
    order, each once (156 of them), so two returned records always have the
    same keys in the same order; and every key holds a value, which is what
    the code gives the key on the document of the global [response]: the
    declared default of its variable (None for the height and the weight, 0
    for every other variable) or a value parsed from the document, as [held]
    says case by case, and [held] gives the key no other value. *)
Theorem record_schema_is_fixed
        (g1 g2 : globals) (page1 page2 : Response) (r1 r2 : list (string * value)) :
  parse_player_stats_page g1 page1 = Ok r1 ->
  parse_player_stats_page g2 page2 = Ok r2 ->
  map fst r1 = map fst r2
  /\ map fst r1 = map fst player_stats_layout
  /\ NoDup (map fst r1)
  /\ length r1 = 156
  /\ (exists response,
         g_response g1 = Some response
         /\ forall k, In k (map fst player_stats_layout) ->
                      exists v, lookup k r1 = Some v
                                /\ held (content response) k v
                                /\ forall v', held (content response) k v' -> v' = v).
Proof.
  intros H1 H2.
  assert (K : forall g page r, parse_player_stats_page g page = Ok r ->
                               map fst r = map fst player_stats_layout).
  { intros g page r H.
    destruct (parse_inv g page r H) as [response [hw [_ [_ Hp]]]].
    destruct (player_stats_inv _ _ _ _ Hp) as [st [_ Hd]].
    apply (build_dict_keys _ _ _ Hd). }
  pose proof (K _ _ _ H1) as K1; pose proof (K _ _ _ H2) as K2.
  split; [congruence|]; split; [assumption|]; split; [|split].
  - rewrite K1; apply layout_keys_nodup.
  - rewrite <- (length_map fst r1), K1; reflexivity.
  - destruct (parse_inv g1 page1 r1 H1) as [response [hw [Hg [Hm Hp]]]].
    exists response; split; [assumption|].
    assert (He : extract_player_record response = Ok r1)
      by (rewrite (extract_with_meta response hw Hm); assumption).
    intros k Hk.
    destruct (var_of_key_in k player_stats_layout Hk) as [x [Hx Hkx]].
    pose proof layout_bound as Hb; rewrite forallb_forall in Hb.
    specialize (Hb (k, x) Hkx); cbn [snd] in Hb; apply mem_In in Hb.
    assert (Hh : exists v, lookup k r1 = Some v /\ held (content response) k v).
    { apply in_app_or in Hb; destruct Hb as [Hb|Hb];
        [apply (held_reconciled response r1 k x He Hx Hb)|].
      apply in_app_or in Hb; destruct Hb as [Hb|Hb].
      - destruct (all_inits_owner x Hb) as [c [s Hi]].
        apply (held_block_variable response r1 c s k x He Hx Hi).
      - apply (held_biometric response r1 k x He Hx Hb). }
    destruct Hh as [v [Hl Hh]]; exists v; split; [assumption|]; split; [assumption|].
    intros v' Hv'; apply (held_functional _ _ _ _ Hv' Hh).
Qed.

Lemma record_schema_is_fixed_witness :
  map fst Examples.defender_record = map fst Examples.bare_record
  /\ length Examples.defender_record = 156
  /\ exists v, lookup "sacks_reg" Examples.defender_record = Some v
               /\ held (content Examples.defender) "sacks_reg" v
               /\ forall v', held (content Examples.defender) "sacks_reg" v' -> v' = v.
Proof.
  assert (H1 : parse_player_stats_page {| g_response := Some Examples.defender |}
                                       Examples.defender
               = Ok Examples.defender_record) by (vm_compute; reflexivity).
  assert (H2 : parse_player_stats_page {| g_response := Some Examples.bare |}
                                       Examples.bare
               = Ok Examples.bare_record) by (vm_compute; reflexivity).
  destruct (record_schema_is_fixed _ _ _ _ _ _ H1 H2)
    as [Ha [_ [_ [Hl [response [Hg Hv]]]]]].
  injection Hg as <-.
  split; [exact Ha|]; split; [exact Hl|].
  apply Hv; apply mem_In; vm_compute; reflexivity.
Defined.
